(** * Training-loop callbacks of pytorch_widedeep

    A shallow embedding of [pytorch_widedeep/callbacks.py]: the [History],
    [LRHistory], [ModelCheckpoint] and [EarlyStopping] callbacks, with the
    fields of the model object they read and write, and the properties of
    their stateful policies.

    Conventions of the embedding.
    - Python [int] is [Z]; a [float] is a [pyfloat]: an exact rational or
      one of the IEEE special values, so that [np.less] / [np.greater] and
      the infinities used as initial best values behave as in the source.
    - A [logs] dict is a finite map from metric names to optional values
      ([None] is Python's [None]).
    - Every hook is a function from the callback's fields (and the model's)
      to their new values; warnings, prints, file operations and calls into
      the model are returned as a list of [event]s, in program order.
    - An exception is an [Err] result. *)

From Stdlib Require Import QArith Lqa Ascii.
From stdpp Require Import gmap strings list fin_maps pretty.

(** ** Python values *)

Inductive pyfloat : Type :=
  | NInf
  | Fin (q : Q)
  | PInf
  | NaN.

Definition Qlt_bool (a b : Q) : bool := negb (Qle_bool b a).

(** [np.less(a, b)]: false whenever an operand is NaN. *)
Definition np_less (a b : pyfloat) : bool :=
  match a, b with
  | NaN, _ | _, NaN => false
  | NInf, NInf => false
  | NInf, _ => true
  | _, NInf => false
  | PInf, _ => false
  | Fin _, PInf => true
  | Fin x, Fin y => Qlt_bool x y
  end.

Definition np_greater (a b : pyfloat) : bool := np_less b a.

(** [a - b] on floats; the rounding of finite results is not modelled. *)
Definition fsub (a b : pyfloat) : pyfloat :=
  match a, b with
  | NaN, _ | _, NaN => NaN
  | PInf, PInf | NInf, NInf => NaN
  | PInf, _ => PInf
  | NInf, _ => NInf
  | Fin _, PInf => NInf
  | Fin _, NInf => PInf
  | Fin x, Fin y => Fin (x - y)
  end.

(** [a * 1] and [a * -1]. *)
Definition fmul_one (a : pyfloat) : pyfloat := a.

Definition fmul_minus_one (a : pyfloat) : pyfloat :=
  match a with
  | NInf => PInf
  | PInf => NInf
  | Fin x => Fin (x * -1)
  | NaN => NaN
  end.

(** The two comparison functions a callback may hold in [monitor_op]. *)
Inductive ufunc : Type := Less | Greater.

Definition call_op (op : ufunc) (a b : pyfloat) : bool :=
  match op with
  | Less => np_less a b
  | Greater => np_greater a b
  end.

Definition is_greater (op : ufunc) : bool :=
  match op with Greater => true | Less => false end.

Definition is_less (op : ufunc) : bool :=
  match op with Less => true | Greater => false end.

(** [logs.get(key)]: a missing key and a key bound to [None] both read as
    [None]. *)
Definition logs_get (logs : gmap string (option pyfloat)) (key : string)
  : option pyfloat :=
  match logs !! key with
  | Some v => v
  | None => None
  end.

(** [d.setdefault(k, []).append(v)] on a dict of lists. *)
Definition setdefault_append {V} (k : string) (v : V)
    (h : gmap string (list V)) : gmap string (list V) :=
  <[k := default [] (h !! k) ++ [v]]> h.

(** ** Strings *)

(** [str.startswith]. *)
Fixpoint startswith (s p : string) : bool :=
  match p with
  | EmptyString => true
  | String c p' =>
      match s with
      | EmptyString => false
      | String d s' => if Ascii.eqb c d then startswith s' p' else false
      end
  end.

(** [p in s] for strings. *)
Fixpoint str_contains (s p : string) : bool :=
  if startswith s p then true
  else match s with
       | EmptyString => false
       | String _ s' => str_contains s' p
       end.

(** [sep.join(parts)]. *)
Fixpoint str_join (sep : string) (parts : list string) : string :=
  match parts with
  | [] => EmptyString
  | [p] => p
  | p :: rest => p +:+ sep +:+ str_join sep rest
  end.

(** [s.split(c)] for a one-character separator: the current piece is
    accumulated in [cur] (reversed). *)
Fixpoint split_go (c : Ascii.ascii) (s : string) (cur : string) : list string :=
  match s with
  | EmptyString => [String.rev cur]
  | String d s' =>
      if Ascii.eqb d c then String.rev cur :: split_go c s' EmptyString
      else split_go c s' (String d cur)
  end.

Definition str_split (s : string) (c : Ascii.ascii) : list string :=
  split_go c s EmptyString.

(** [str.lower] on ASCII letters. *)
Definition ascii_lower (c : Ascii.ascii) : Ascii.ascii :=
  let n := nat_of_ascii c in
  if ((65 <=? n) && (n <=? 90))%nat then ascii_of_nat (n + 32) else c.

Fixpoint str_lower (s : string) : string :=
  match s with
  | EmptyString => EmptyString
  | String c s' => String (ascii_lower c) (str_lower s')
  end.

(** [l[:-1]]. *)
Definition all_but_last {A} (l : list A) : list A := take (length l - 1) l.

(** Membership test [x in [a, b, c]] on strings. *)
Definition str_in (x : string) (l : list string) : bool :=
  existsb (String.eqb x) l.

(** ** The model object and the outside world *)

(** [model.state_dict()]: parameter names with their tensors. *)
Definition StateDict : Type := list (string * list Q).

(** A learning-rate scheduler object: its class name and, for the
    composite scheduler, the sub-schedulers' class names by model name. *)
Record Scheduler : Type := mkScheduler {
  class_name : string;
  _schedulers : option (gmap string string)
}.

(** An optimizer object: [param_groups] (the [lr] entry of each group) for
    a plain optimizer, [_optimizers] (in dict order) for the composite. *)
Record Optimizer : Type := mkOptimizer {
  param_groups : option (list pyfloat);
  _optimizers : option (list (string * list pyfloat))
}.

(** The attributes of the model that the callbacks read and write. *)
Record Model : Type := mkModel {
  epoch : list Z;
  history : gmap string (list (option pyfloat));
  lr_history : gmap string (list pyfloat);
  early_stop : bool;
  weights : StateDict;
  lr_scheduler : option Scheduler;
  cyclic_lr : bool;
  optimizer : Optimizer
}.

Definition set_epoch (v : list Z) (m : Model) : Model :=
  mkModel v (history m) (lr_history m) (early_stop m) (weights m)
          (lr_scheduler m) (cyclic_lr m) (optimizer m).

Definition set_history (v : gmap string (list (option pyfloat))) (m : Model)
  : Model :=
  mkModel (epoch m) v (lr_history m) (early_stop m) (weights m)
          (lr_scheduler m) (cyclic_lr m) (optimizer m).

Definition set_lr_history (v : gmap string (list pyfloat)) (m : Model)
  : Model :=
  mkModel (epoch m) (history m) v (early_stop m) (weights m)
          (lr_scheduler m) (cyclic_lr m) (optimizer m).

Definition set_early_stop (v : bool) (m : Model) : Model :=
  mkModel (epoch m) (history m) (lr_history m) v (weights m)
          (lr_scheduler m) (cyclic_lr m) (optimizer m).

Definition set_weights (v : StateDict) (m : Model) : Model :=
  mkModel (epoch m) (history m) (lr_history m) (early_stop m) v
          (lr_scheduler m) (cyclic_lr m) (optimizer m).

Definition set_optimizer (v : Optimizer) (m : Model) : Model :=
  mkModel (epoch m) (history m) (lr_history m) (early_stop m) (weights m)
          (lr_scheduler m) (cyclic_lr m) v.

(** What a hook does besides updating fields, in program order. *)
Inductive event : Type :=
  | WarnUnknownMode (cls mode : string)
  | WarnSkipSave (monitor : string)
  | WarnMetricUnavailable (monitor : string) (available : gset string)
  | PrintImproved (epoch1 : Z) (monitor : string) (old new : pyfloat)
                  (path : string)
  | PrintNotImproved (epoch1 : Z) (monitor : string) (old : pyfloat)
  | PrintSaving (epoch1 : Z) (path : string)
  | PrintRestoring
  | PrintEarlyStopping (epoch1 : Z)
  | MakeDirs (path : string)
  | TorchSave (sd : StateDict) (path : string)
  | OsRemove (path : string)
  | LoadStateDict (sd : option StateDict).

Inductive exn : Type :=
  | ValueError
  | AttributeError
  | IndexError
  | KeyError
  | FileNotFoundError.

Inductive result (A : Type) : Type :=
  | Ok (a : A)
  | Err (e : exn).
Arguments Ok {A} a.
Arguments Err {A} e.

Definition bind {A B} (r : result A) (k : A → result B) : result B :=
  match r with
  | Ok a => k a
  | Err e => Err e
  end.

Notation "'let*' x ':=' r 'in' k" := (bind r (λ x, k))
  (at level 10, x pattern, r at level 100, k at level 200, only parsing).

(** The paths that exist on disk. *)
Definition Disk : Type := gset string.

(** [os.path.exists(p)]: the empty path never exists. *)
Definition os_path_exists (p : string) (disk : Disk) : bool :=
  negb (String.eqb p "") && bool_decide (p ∈ disk).

(** [os.makedirs(p)]: raises on the empty path; otherwise the directory
    exists afterwards. Failures that depend on the environment
    (permissions, a file in the way) are not modelled. *)
Definition os_makedirs (p : string) (disk : Disk)
  : result (Disk * list event) :=
  if String.eqb p "" then Err FileNotFoundError
  else Ok ({[p]} ∪ disk, [MakeDirs p]).

(** [model.load_state_dict(sd)]: the call is recorded; a dict replaces the
    model's weights. What the model does with [None] is the model's
    business and not part of this module. *)
Definition load_state_dict (sd : option StateDict) (m : Model)
  : Model * list event :=
  (match sd with
   | Some w => set_weights w m
   | None => m
   end, [LoadStateDict sd]).

(** [enumerate(l, start=i)] with integer indices: the training loop's
    epoch numbering. *)
Fixpoint enumerate_from {A} (i : Z) (l : list A) : list (Z * A) :=
  match l with
  | [] => []
  | x :: l' => (i, x) :: enumerate_from (i + 1) l'
  end.

(** The paths written by [torch.save] and those passed to [os.remove]. *)
Definition saved_paths (evs : list event) : list string :=
  omap (λ e, match e with TorchSave _ p => Some p | _ => None end) evs.

(** The weight states written by [torch.save], each with its path. *)
Definition saved_snapshots (evs : list event) : list (StateDict * string) :=
  omap (λ e, match e with TorchSave sd p => Some (sd, p) | _ => None end) evs.

Definition removed_paths (evs : list event) : list string :=
  omap (λ e, match e with OsRemove p => Some p | _ => None end) evs.

Definition loaded_dicts (evs : list event) : list (option StateDict) :=
  omap (λ e, match e with LoadStateDict sd => Some sd | _ => None end) evs.

(** ** Sample inputs *)

(** A model before training, without scheduler. *)
Definition example_model : Model :=
  mkModel [] ∅ ∅ false [] None false (mkOptimizer None None).

(** Logs that report only [val_loss]. *)
Definition example_logs (q : Q) : gmap string (option pyfloat) :=
  {[ "val_loss" := Some (Fin q) ]}.

(** A one-parameter weight state. *)
Definition example_weights (n : Z) : StateDict := [("w", [inject_Z n])].

(** A model with a scheduler of class [cls], whose [cyclic_lr] attribute
    is [cyc]. *)
Definition example_scheduled_model (cls : string) (cyc : bool) : Model :=
  mkModel [] ∅ ∅ false [] (Some (mkScheduler cls None)) cyc
          (mkOptimizer (Some []) None).

(** ** EarlyStopping *)

Module EarlyStopping.

(** The instance attributes. [best] is only assigned by
    [on_train_begin]: it is [None] while the attribute does not exist. *)
Record t : Type := mk {
  monitor : string;
  min_delta : pyfloat;
  patience : Z;
  verbose : Z;
  mode : string;
  baseline : option pyfloat;
  restore_best_weights : bool;
  wait : Z;
  stopped_epoch : Z;
  state_dict : option StateDict;
  monitor_op : ufunc;
  best : option pyfloat
}.

Definition __init__ (monitor : string) (min_delta : pyfloat) (patience : Z)
    (verbose : Z) (mode : string) (baseline : option pyfloat)
    (restore_best_weights : bool) : t * list event :=
  let '(mode, evs) :=
    if negb (str_in mode ["auto"; "min"; "max"])
    then ("auto", [WarnUnknownMode "EarlyStopping" mode])
    else (mode, []) in
  let monitor_op :=
    if String.eqb mode "min" then Less
    else if String.eqb mode "max" then Greater
    else if str_contains monitor "acc" then Greater
    else Less in
  let min_delta :=
    if is_greater monitor_op then fmul_one min_delta
    else fmul_minus_one min_delta in
  (mk monitor min_delta patience verbose mode baseline restore_best_weights
      0 0 None monitor_op None, evs).

Definition set_wait (v : Z) (self : t) : t :=
  mk (monitor self) (min_delta self) (patience self) (verbose self)
     (mode self) (baseline self) (restore_best_weights self)
     v (stopped_epoch self) (state_dict self) (monitor_op self) (best self).

Definition set_stopped_epoch (v : Z) (self : t) : t :=
  mk (monitor self) (min_delta self) (patience self) (verbose self)
     (mode self) (baseline self) (restore_best_weights self)
     (wait self) v (state_dict self) (monitor_op self) (best self).

Definition set_state_dict (v : option StateDict) (self : t) : t :=
  mk (monitor self) (min_delta self) (patience self) (verbose self)
     (mode self) (baseline self) (restore_best_weights self)
     (wait self) (stopped_epoch self) v (monitor_op self) (best self).

Definition set_best (v : option pyfloat) (self : t) : t :=
  mk (monitor self) (min_delta self) (patience self) (verbose self)
     (mode self) (baseline self) (restore_best_weights self)
     (wait self) (stopped_epoch self) (state_dict self) (monitor_op self) v.

Definition on_train_begin (self : t) : t :=
  let self := set_wait 0 self in
  let self := set_stopped_epoch 0 self in
  match baseline self with
  | Some b => set_best (Some b) self
  | None =>
      set_best (Some (if is_less (monitor_op self) then PInf else NInf)) self
  end.

Definition get_monitor_value (self : t)
    (logs : gmap string (option pyfloat)) : option pyfloat * list event :=
  let monitor_value := logs_get logs (monitor self) in
  match monitor_value with
  | None => (None, [WarnMetricUnavailable (monitor self) (dom logs)])
  | Some _ => (monitor_value, [])
  end.

Definition on_epoch_end (self : t) (epoch : Z)
    (logs : gmap string (option pyfloat)) (model : Model)
  : result (t * Model * list event) :=
  let '(current, evs) := get_monitor_value self logs in
  match current with
  | None => Ok (self, model, evs)
  | Some current =>
      match best self with
      | None => Err AttributeError
      | Some self_best =>
          if call_op (monitor_op self) (fsub current (min_delta self))
                     self_best
          then
            let self := set_best (Some current) self in
            let self := set_wait 0 self in
            let self :=
              if restore_best_weights self
              then set_state_dict (Some (weights model)) self
              else self in
            Ok (self, model, evs)
          else
            let self := set_wait (wait self + 1) self in
            if (wait self >=? patience self)%Z then
              let self := set_stopped_epoch epoch self in
              let model := set_early_stop true model in
              if restore_best_weights self then
                let pr := if (verbose self >? 0)%Z
                          then [PrintRestoring] else [] in
                let '(model, ld) :=
                  load_state_dict (state_dict self) model in
                Ok (self, model, evs ++ pr ++ ld)
              else Ok (self, model, evs)
            else Ok (self, model, evs)
      end
  end.

Definition on_train_end (self : t) : list event :=
  if ((stopped_epoch self >? 0)%Z && (verbose self >? 0)%Z)%bool
  then [PrintEarlyStopping (stopped_epoch self + 1)]
  else [].

(** One epoch as the callback sees it: the training loop has left the
    model with the weights [w], then calls [on_epoch_end] with the epoch
    number and the epoch's [logs]. *)
Definition epoch_step
    (call : Z * (StateDict * gmap string (option pyfloat)))
    (acc : t * Model * list event) : result (t * Model * list event) :=
  let '(self, model, evs) := acc in
  let '(epoch, (w, logs)) := call in
  let* r := on_epoch_end self epoch logs (set_weights w model) in
  let '(self, model, evs') := r in
  Ok (self, model, evs ++ evs').

Fixpoint run (calls : list (Z * (StateDict * gmap string (option pyfloat))))
    (acc : t * Model * list event) : result (t * Model * list event) :=
  match calls with
  | [] => Ok acc
  | c :: calls' => let* acc' := epoch_step c acc in run calls' acc'
  end.

(** [on_train_begin], then [on_epoch_end] for the epochs 0, 1, ... *)
Definition train (self : t) (model : Model)
    (eps : list (StateDict * gmap string (option pyfloat)))
  : result (t * Model * list event) :=
  run (enumerate_from 0 eps) (on_train_begin self, model, []).

(** The epoch's logs carry a value that does not beat [b]. *)
Definition stalls (self : t) (b : pyfloat)
    (logs : gmap string (option pyfloat)) : Prop :=
  ∃ v, logs_get logs (monitor self) = Some v
       ∧ call_op (monitor_op self) (fsub v (min_delta self)) b = false.

(** The claim about [restore_best_weights], in the spec's words: the
    epoch with the best monitored value is the first one whose value no
    other epoch's value beats; [best_entry] returns its index and value. *)
Fixpoint best_entry (op : ufunc) (qs : list Q) : option (nat * Q) :=
  match qs with
  | [] => None
  | q :: qs' =>
      match best_entry op qs' with
      | Some (j, q') =>
          if call_op op (Fin q') (Fin q) then Some (S j, q') else Some (0%nat, q)
      | None => Some (0%nat, q)
      end
  end.

(** After training on [eps], whose monitored values are [qs], the model
    holds the weights it had at the best epoch. *)
Definition restores_best_snapshot (self : t) (model : Model)
    (eps : list (StateDict * gmap string (option pyfloat))) (qs : list Q)
  : Prop :=
  ∃ self' model' evs j qj ep,
    train self model eps = Ok (self', model', evs)
    ∧ best_entry (monitor_op self) qs = Some (j, qj)
    ∧ eps !! j = Some ep
    ∧ weights model' = ep.1.

(** The fields that [on_epoch_end] never assigns. *)
Definition same_config (self self' : t) : Prop :=
  monitor self' = monitor self
  ∧ min_delta self' = min_delta self
  ∧ monitor_op self' = monitor_op self
  ∧ restore_best_weights self' = restore_best_weights self
  ∧ patience self' = patience self
  ∧ verbose self' = verbose self.

(** [best] and the snapshot field follow the best epoch seen so far. *)
Definition tracks_best (self : t)
    (eps : list (StateDict * gmap string (option pyfloat))) (qs : list Q)
  : Prop :=
  match best_entry (monitor_op self) qs with
  | None => best self = Some (if is_less (monitor_op self) then PInf else NInf)
  | Some (j, qj) =>
      best self = Some (Fin qj)
      ∧ ∃ ep, eps !! j = Some ep ∧ state_dict self = Some ep.1
  end.

(** A callback with the default patience of 10 and weight restoring on,
    and two epochs whose values are 1.0 then 2.0. *)
Definition untriggered_callback : t :=
  (__init__ "val_loss" (Fin 0) 10 0 "auto" None true).1.

Definition untriggered_epochs
  : list (StateDict * gmap string (option pyfloat)) :=
  [(example_weights 0, example_logs 1); (example_weights 1, example_logs 2)].

(** What the training loop can observe of a run: the wait counter, the
    recorded stopping epoch and the model's stop flag. *)
Definition progress (r : result (t * Model * list event))
  : option (Z * Z * bool) :=
  match r with
  | Ok (self, model, _) =>
      Some (wait self, stopped_epoch self, early_stop model)
  | Err _ => None
  end.

Definition stop_flag (r : result (t * Model * list event)) : option bool :=
  match r with
  | Ok (_, model, _) => Some (early_stop model)
  | Err _ => None
  end.

End EarlyStopping.

(** ** ModelCheckpoint *)

Module ModelCheckpoint.

(** The instance attributes. [old_files] exists only when the instance
    was built with [max_save > 0]. *)
Record t : Type := mk {
  filepath : string;
  monitor : string;
  verbose : Z;
  save_best_only : bool;
  mode : string;
  period : Z;
  max_save : Z;
  epochs_since_last_save : Z;
  old_files : option (list string);
  monitor_op : ufunc;
  best : pyfloat
}.

(** The mode check: an unknown mode is replaced by [auto], with a
    warning. *)
Definition checked_mode (mode : string) : string * list event :=
  if negb (str_in mode ["auto"; "min"; "max"])
  then ("auto", [WarnUnknownMode "ModelCheckpoint" mode])
  else (mode, []).

(** The comparison and the initial [best] for a (checked) mode. *)
Definition comparison (mode monitor : string) : ufunc * pyfloat :=
  if String.eqb mode "min" then (Less, PInf)
  else if String.eqb mode "max" then (Greater, NInf)
  else if (str_contains monitor "acc" || startswith monitor "fmeasure")%bool
       then (Greater, NInf)
       else (Less, PInf).

Definition __init__ (filepath monitor : string) (verbose : Z)
    (save_best_only : bool) (mode : string) (period max_save : Z)
    (disk : Disk) : result (t * Disk * list event) :=
  if (length (all_but_last (str_split filepath "/"%char)) =? 0)%nat
  then Err ValueError
  else
    let root_dir :=
      str_join "/" (all_but_last (str_split filepath "/"%char)) in
    let* made :=
      if negb (os_path_exists root_dir disk)
      then os_makedirs root_dir disk
      else Ok (disk, []) in
    let '(disk, mk_evs) := made in
    let old_files := if (max_save >? 0)%Z then Some [] else None in
    let '(mode, warn_evs) := checked_mode mode in
    let '(monitor_op, best) := comparison mode monitor in
    Ok (mk filepath monitor verbose save_best_only mode period max_save
           0 old_files monitor_op best,
        disk, mk_evs ++ warn_evs).

(** [torch.save(self.model.state_dict(), filepath)] followed by the
    retention block, which the source repeats verbatim in both branches
    of [save_best_only]: once [old_files] holds [max_save] paths the
    first is removed from disk (a missing file is tolerated) and dropped
    from the list, then the new path is appended. *)
Definition save_and_retain (max_save : Z) (old_files : option (list string))
    (path : string) (model : Model) (disk : Disk)
  : result (option (list string) * Disk * list event) :=
  let disk := {[path]} ∪ disk in
  let evs := [TorchSave (weights model) path] in
  if (max_save >? 0)%Z then
    match old_files with
    | None => Err AttributeError
    | Some files =>
        if (Z.of_nat (length files) =? max_save)%Z then
          match files with
          | [] => Err IndexError
          | f :: rest =>
              Ok (Some (rest ++ [path]), disk ∖ {[f]}, evs ++ [OsRemove f])
          end
        else Ok (Some (files ++ [path]), disk, evs)
    end
  else Ok (old_files, disk, evs).

Definition with_counter (self : t) (n : Z) : t :=
  mk (filepath self) (monitor self) (verbose self) (save_best_only self)
     (mode self) (period self) (max_save self) n (old_files self)
     (monitor_op self) (best self).

Definition with_best_files (self : t) (b : pyfloat)
    (files : option (list string)) : t :=
  mk (filepath self) (monitor self) (verbose self) (save_best_only self)
     (mode self) (period self) (max_save self)
     (epochs_since_last_save self) files (monitor_op self) b.

(** ["{}_{}.p".format(self.filepath, epoch + 1)]. *)
Definition snapshot_path (filepath : string) (epoch : Z) : string :=
  filepath +:+ "_" +:+ pretty (epoch + 1)%Z +:+ ".p".

Definition on_epoch_end (self : t) (epoch : Z)
    (logs : gmap string (option pyfloat)) (model : Model) (disk : Disk)
  : result (t * Disk * list event) :=
  let self := with_counter self (epochs_since_last_save self + 1) in
  if (epochs_since_last_save self >=? period self)%Z then
    let self := with_counter self 0 in
    let path := snapshot_path (filepath self) epoch in
    if save_best_only self then
      match logs_get logs (monitor self) with
      | None => Ok (self, disk, [WarnSkipSave (monitor self)])
      | Some current =>
          if call_op (monitor_op self) current (best self) then
            let pr := if (verbose self >? 0)%Z
                      then [PrintImproved (epoch + 1) (monitor self)
                              (best self) current path]
                      else [] in
            let* r := save_and_retain (max_save self) (old_files self)
                        path model disk in
            let '(files, disk, evs) := r in
            Ok (with_best_files self current files, disk, pr ++ evs)
          else
            Ok (self, disk,
                if (verbose self >? 0)%Z
                then [PrintNotImproved (epoch + 1) (monitor self)
                        (best self)]
                else [])
      end
    else
      let pr := if (verbose self >? 0)%Z
                then [PrintSaving (epoch + 1) path] else [] in
      let* r := save_and_retain (max_save self) (old_files self)
                  path model disk in
      let '(files, disk, evs) := r in
      Ok (with_best_files self (best self) files, disk, pr ++ evs)
  else Ok (self, disk, []).

Definition epoch_step
    (call : Z * (StateDict * gmap string (option pyfloat)))
    (model : Model) (acc : t * Disk * list event)
  : result (t * Disk * list event) :=
  let '(self, disk, evs) := acc in
  let '(epoch, (w, logs)) := call in
  let* r := on_epoch_end self epoch logs (set_weights w model) disk in
  let '(self, disk, evs') := r in
  Ok (self, disk, evs ++ evs').

(** A sequence of [on_epoch_end] calls, each with its epoch number, the
    weights the model has at that point, and the logs. *)
Fixpoint run (calls : list (Z * (StateDict * gmap string (option pyfloat))))
    (model : Model) (acc : t * Disk * list event)
  : result (t * Disk * list event) :=
  match calls with
  | [] => Ok acc
  | c :: calls' =>
      let* acc' := epoch_step c model acc in run calls' model acc'
  end.

(** The retention policy in the spec's words: of the paths saved so far,
    in order, the newest [m] are kept and the older ones were evicted. *)
Definition retained (m : nat) (saved : list string) : list string :=
  drop (length saved - m) saved.

Definition evicted (m : nat) (saved : list string) : list string :=
  take (length saved - m) saved.

End ModelCheckpoint.

(** ** History *)

Module History.

Definition on_train_begin (model : Model) : Model :=
  set_history ∅ (set_epoch [] model).

(** [for k, v in logs.items(): ...setdefault(k, []).append(v)]. *)
Definition record (logs : gmap string (option pyfloat))
    (h : gmap string (list (option pyfloat)))
  : gmap string (list (option pyfloat)) :=
  map_fold setdefault_append h logs.

(** The logs hold immutable values, so the [deepcopy] is the identity on
    them. *)
Definition on_epoch_begin (_epoch : Z)
    (logs : gmap string (option pyfloat)) (model : Model) : Model :=
  set_history (record logs (history model)) model.

Definition on_epoch_end (epoch_ : Z)
    (logs : gmap string (option pyfloat)) (model : Model) : Model :=
  let model := set_epoch (epoch model ++ [epoch_]) model in
  set_history (record logs (history model)) model.

(** Both epoch hooks of each epoch, called with the same logs. *)
Fixpoint run (calls : list (Z * gmap string (option pyfloat)))
    (model : Model) : Model :=
  match calls with
  | [] => model
  | (e, logs) :: calls' =>
      run calls' (on_epoch_end e logs (on_epoch_begin e logs model))
  end.

Definition train (model : Model)
    (eps : list (gmap string (option pyfloat))) : Model :=
  run (enumerate_from 0 eps) (on_train_begin model).

(** What the claim expects under key [k]: the value of each epoch whose
    logs have the key, twice (once from the begin hook, once from the end
    hook). *)
Definition recorded_twice (k : string)
    (eps : list (gmap string (option pyfloat))) : list (option pyfloat) :=
  eps ≫= (λ logs, match logs !! k with Some v => [v; v] | None => [] end).

End History.

(** ** LRHistory *)

Module LRHistory.

Record t : Type := mk { n_epochs : Z }.

(** The class name of [None] is [NoneType]. *)
Definition _multiple_scheduler (model : Model) : bool :=
  match lr_scheduler model with
  | None => false
  | Some sched => String.eqb (class_name sched) "MultipleLRScheduler"
  end.

Definition _has_scheduler (model : Model) (model_name : string)
  : result bool :=
  match lr_scheduler model with
  | None => Err AttributeError
  | Some sched =>
      match _schedulers sched with
      | None => Err AttributeError
      | Some ss => Ok (bool_decide (is_Some (ss !! model_name)))
      end
  end.

Definition _is_cyclic (model : Model) (model_name : string) : result bool :=
  let* has := _has_scheduler model model_name in
  if has then
    match lr_scheduler model with
    | Some (mkScheduler _ (Some ss)) =>
        match ss !! model_name with
        | Some cls => Ok (str_contains (str_lower cls) "cycl")
        | None => Err KeyError
        end
    | _ => Err AttributeError
    end
  else Ok false.

(** The loop of [_save_group_lr] over [enumerate(opt.param_groups)],
    from group index [idx] on. *)
Fixpoint save_groups (idx : nat) (groups : list pyfloat)
    (model_name : option string) (h : gmap string (list pyfloat))
  : gmap string (list pyfloat) :=
  match groups with
  | [] => h
  | lr :: groups' =>
      let group_name :=
        match model_name with
        | Some name => str_join "_" ["lr"; name; pretty idx]
        | None => str_join "_" ["lr"; pretty idx]
        end in
      save_groups (S idx) groups' model_name
        (setdefault_append group_name lr h)
  end.

Definition _save_group_lr (groups : option (list pyfloat))
    (model_name : option string) (model : Model) : result Model :=
  match groups with
  | None => Err AttributeError
  | Some gs =>
      Ok (set_lr_history (save_groups 0 gs model_name (lr_history model))
            model)
  end.

Fixpoint save_each (opts : list (string * list pyfloat))
    (step_location : string) (model : Model) : result Model :=
  match opts with
  | [] => Ok model
  | (model_name, groups) :: opts' =>
      let* model :=
        if String.eqb step_location "on_epoch_begin"
        then _save_group_lr (Some groups) (Some model_name) model
        else Ok model in
      let* model :=
        if String.eqb step_location "on_batch_end" then
          let* cyc := _is_cyclic model model_name in
          if cyc then _save_group_lr (Some groups) (Some model_name) model
          else Ok model
        else Ok model in
      let* model :=
        if String.eqb step_location "on_epoch_end" then
          let* cyc := _is_cyclic model model_name in
          if negb cyc
          then _save_group_lr (Some groups) (Some model_name) model
          else Ok model
        else Ok model in
      save_each opts' step_location model
  end.

Definition _save_group_lr_mulitple_scheduler (step_location : string)
    (model : Model) : result Model :=
  match _optimizers (optimizer model) with
  | None => Err AttributeError
  | Some opts => save_each opts step_location model
  end.

Definition on_epoch_begin (self : t) (epoch : Z) (model : Model)
  : result Model :=
  if ((epoch =? 0)%Z && bool_decide (is_Some (lr_scheduler model)))%bool
  then
    let model := set_lr_history ∅ model in
    if _multiple_scheduler model
    then _save_group_lr_mulitple_scheduler "on_epoch_begin" model
    else if negb (cyclic_lr model)
         then _save_group_lr (param_groups (optimizer model)) None model
         else Ok model
  else Ok model.

Definition on_batch_end (self : t) (batch : Z) (model : Model)
  : result Model :=
  if bool_decide (is_Some (lr_scheduler model)) then
    if _multiple_scheduler model
    then _save_group_lr_mulitple_scheduler "on_batch_end" model
    else if cyclic_lr model
         then _save_group_lr (param_groups (optimizer model)) None model
         else Ok model
  else Ok model.

Definition on_epoch_end (self : t) (epoch : Z) (model : Model)
  : result Model :=
  if (negb (epoch =? n_epochs self - 1)%Z
      && bool_decide (is_Some (lr_scheduler model)))%bool
  then
    if _multiple_scheduler model
    then _save_group_lr_mulitple_scheduler "on_epoch_end" model
    else if negb (cyclic_lr model)
         then _save_group_lr (param_groups (optimizer model)) None model
         else Ok model
  else Ok model.

(** What the training loop does in one epoch, as far as this callback
    can see: the optimizer as it stands when the epoch begins, after
    each batch, and when the epoch ends. *)
Record epoch_data : Type := mkEpoch {
  at_begin : Optimizer;
  at_batches : list Optimizer;
  at_end : Optimizer
}.

Fixpoint run_batches (self : t) (bs : list (Z * Optimizer)) (model : Model)
  : result Model :=
  match bs with
  | [] => Ok model
  | (b, opt) :: bs' =>
      let* model := on_batch_end self b (set_optimizer opt model) in
      run_batches self bs' model
  end.

Definition epoch_step (self : t) (call : Z * epoch_data) (model : Model)
  : result Model :=
  let '(e, d) := call in
  let* model := on_epoch_begin self e (set_optimizer (at_begin d) model) in
  let* model := run_batches self (enumerate_from 0 (at_batches d)) model in
  on_epoch_end self e (set_optimizer (at_end d) model).

Fixpoint run (self : t) (calls : list (Z * epoch_data)) (model : Model)
  : result Model :=
  match calls with
  | [] => Ok model
  | c :: calls' =>
      let* model := epoch_step self c model in run self calls' model
  end.

(** A training session of [length eps] epochs, numbered from 0. *)
Definition train (self : t) (model : Model) (eps : list epoch_data)
  : result Model :=
  run self (enumerate_from 0 eps) model.

(** An epoch of a run with one plain optimizer: the learning rates of
    its parameter groups at the three kinds of hook. *)
Record plain_epoch : Type := mkPlain {
  lr_begin : list pyfloat;
  lr_batches : list (list pyfloat);
  lr_end : list pyfloat
}.

Definition plain (groups : list pyfloat) : Optimizer :=
  mkOptimizer (Some groups) None.

Definition of_plain (d : plain_epoch) : epoch_data :=
  mkEpoch (plain (lr_begin d)) (plain <$> lr_batches d) (plain (lr_end d)).

(** The model has a scheduler that is not the composite one, and its
    [cyclic_lr] attribute is [cyc]. *)
Definition single_scheduler (model : Model) (cyc : bool) : Prop :=
  (∃ sched, lr_scheduler model = Some sched
            ∧ class_name sched ≠ "MultipleLRScheduler")
  ∧ cyclic_lr model = cyc.

(** The key of parameter group [g] with a single optimizer. *)
Definition group_key (g : nat) : string := str_join "_" ["lr"; pretty g].

(** The claims' recording points, as lists of group learning rates: for a
    non-cyclic scheduler the begin of the first epoch and the end of every
    epoch but the last; for a cyclic one every batch end. *)
Definition noncyclic_points (eps : list plain_epoch) : list (list pyfloat) :=
  match eps with
  | [] => []
  | d :: _ => lr_begin d :: (lr_end <$> all_but_last eps)
  end.


(** Two epochs of two batches each, with two parameter groups. *)
Definition example_epochs : list plain_epoch :=
  [mkPlain [Fin (1 # 10); Fin (1 # 100)]
           [[Fin (1 # 10); Fin (1 # 100)]; [Fin (2 # 10); Fin (2 # 100)]]
           [Fin (3 # 10); Fin (3 # 100)];
   mkPlain [Fin (3 # 10); Fin (3 # 100)]
           [[Fin (4 # 10); Fin (4 # 100)]; [Fin (5 # 10); Fin (5 # 100)]]
           [Fin (6 # 10); Fin (6 # 100)]].

End LRHistory.

(** ** Callback and CallbackContainer *)

(** A callback is any object with the six hooks. A hook receives the logs
    dict and the state of everything the callbacks can reach (the model,
    their own attributes, the disk); it may change both, the dict being
    shared by all callbacks of one dispatch. A hook that raises leaves the
    dict and the state as they were at that point. *)
Module Callback.
Section Hooks.
Context {V W : Type}.

Inductive outcome : Type :=
  | Done (logs : gmap string V) (w : W)
  | Raised (e : exn) (logs : gmap string V) (w : W).

Record t : Type := mk {
  on_epoch_begin : Z → gmap string V → W → outcome;
  on_epoch_end : Z → gmap string V → W → outcome;
  on_batch_begin : Z → gmap string V → W → outcome;
  on_batch_end : Z → gmap string V → W → outcome;
  on_train_begin : gmap string V → W → outcome;
  on_train_end : gmap string V → W → outcome
}.

(** The base class: every hook is [pass]. *)
Definition base : t :=
  mk (λ _, Done) (λ _, Done) (λ _, Done) (λ _, Done) Done Done.

End Hooks.
Global Arguments outcome : clear implicits.
Global Arguments t : clear implicits.
End Callback.

Module CallbackContainer.
Section Container.
Context {V W : Type}.

Record t : Type := mk {
  callbacks : list (Callback.t V W);
  queue_length : Z
}.

(** An element of the constructor's list is a class, which is called to
    get the instance ([inl], holding the instance it builds), or already
    an instance ([inr]). *)
Definition __init__
    (callbacks : option (list (Callback.t V W + Callback.t V W)))
    (queue_length : Z) : t :=
  let instantiated_callbacks :=
    match callbacks with
    | Some l =>
        (λ c, match c with inl cls => cls | inr inst => inst end) <$> l
    | None => []
    end in
  mk instantiated_callbacks queue_length.

(** [for callback in self.callbacks: callback.hook(..., logs)]. *)
Fixpoint forward (hook : Callback.t V W → gmap string V → W
                         → Callback.outcome V W)
    (cs : list (Callback.t V W)) (logs : gmap string V) (w : W)
  : Callback.outcome V W :=
  match cs with
  | [] => Callback.Done logs w
  | c :: cs' =>
      match hook c logs w with
      | Callback.Done logs' w' => forward hook cs' logs' w'
      | Callback.Raised e logs' w' => Callback.Raised e logs' w'
      end
  end.

(** [logs or {}]. *)
Definition logs_or_empty (logs : option (gmap string V)) : gmap string V :=
  default ∅ logs.

Definition on_epoch_begin (self : t) (epoch : Z)
    (logs : option (gmap string V)) (w : W) : Callback.outcome V W :=
  forward (λ c, Callback.on_epoch_begin c epoch) (callbacks self)
    (logs_or_empty logs) w.

Definition on_epoch_end (self : t) (epoch : Z)
    (logs : option (gmap string V)) (w : W) : Callback.outcome V W :=
  forward (λ c, Callback.on_epoch_end c epoch) (callbacks self)
    (logs_or_empty logs) w.

Definition on_batch_begin (self : t) (batch : Z)
    (logs : option (gmap string V)) (w : W) : Callback.outcome V W :=
  forward (λ c, Callback.on_batch_begin c batch) (callbacks self)
    (logs_or_empty logs) w.

Definition on_batch_end (self : t) (batch : Z)
    (logs : option (gmap string V)) (w : W) : Callback.outcome V W :=
  forward (λ c, Callback.on_batch_end c batch) (callbacks self)
    (logs_or_empty logs) w.

(** [now] is what [_get_current_time()] returns at the call. *)
Definition on_train_begin (self : t) (logs : option (gmap string V))
    (now : V) (w : W) : Callback.outcome V W :=
  let logs := logs_or_empty logs in
  let logs := <["start_time" := now]> logs in
  forward Callback.on_train_begin (callbacks self) logs w.

Definition on_train_end (self : t) (logs : option (gmap string V)) (w : W)
  : Callback.outcome V W :=
  forward Callback.on_train_end (callbacks self) (logs_or_empty logs) w.

(** What one container does, then, unless it raised, a second one, on
    the dict and the state the first left. *)
Definition and_then (o : Callback.outcome V W)
    (k : gmap string V → W → Callback.outcome V W) : Callback.outcome V W :=
  match o with
  | Callback.Done logs w => k logs w
  | Callback.Raised e logs w => Callback.Raised e logs w
  end.

(** A dispatch in which every callback is handed the same dict [logs]. *)
Fixpoint forward_same (hook : Callback.t V W → gmap string V → W
                              → Callback.outcome V W)
    (cs : list (Callback.t V W)) (logs : gmap string V) (w : W)
  : Callback.outcome V W :=
  match cs with
  | [] => Callback.Done logs w
  | c :: cs' =>
      match hook c logs w with
      | Callback.Done _ w' => forward_same hook cs' logs w'
      | Callback.Raised e logs' w' => Callback.Raised e logs' w'
      end
  end.

(** The hook hands the dict back as it got it. *)
Definition reads_only (hook : gmap string V → W → Callback.outcome V W)
  : Prop :=
  ∀ logs w, match hook logs w with
            | Callback.Done logs' _ => logs' = logs
            | Callback.Raised _ _ _ => True
            end.

End Container.
Global Arguments t : clear implicits.
End CallbackContainer.

(** ** What a session leaves behind *)

Module Sessions.

(** Of an [EarlyStopping] run: the callback's attributes and the model's
    stop flag, or the exception. *)
Definition verdict
    (r : result (EarlyStopping.t * Model * list event))
  : result (EarlyStopping.t * bool) :=
  match r with
  | Ok (self, model, _) => Ok (self, early_stop model)
  | Err e => Err e
  end.

(** Of a [ModelCheckpoint] run with period [p]: the snapshots of the calls
    whose number, counted from [k] for the first call of [calls], is a
    multiple of [p], each with the path of its epoch. *)
Fixpoint due_from (filepath : string) (p k : Z)
    (calls : list (Z * (StateDict * gmap string (option pyfloat))))
  : list (StateDict * string) :=
  match calls with
  | [] => []
  | (epoch, (w, _)) :: rest =>
      (if decide ((k `mod` p)%Z = 0%Z)
       then [(w, ModelCheckpoint.snapshot_path filepath epoch)] else [])
      ++ due_from filepath p (k + 1) rest
  end.

(** Of an [LRHistory] run with a single non-cyclic scheduler: the rates at
    the end of every epoch but the one numbered [n_epochs - 1]. *)
Definition recorded_ends (n_epochs : Z) (eps : list LRHistory.plain_epoch)
  : list (list pyfloat) :=
  (λ c, LRHistory.lr_end c.2)
    <$> filter (λ c, c.1 ≠ (n_epochs - 1)%Z) (enumerate_from 0 eps).

(** The model is trained with the composite scheduler, whose
    sub-schedulers' class names are [ss], and the composite optimizer,
    whose sub-optimizers' parameter groups are [opts]. *)
Definition composite (model : Model) (ss : gmap string string)
    (opts : list (string * list pyfloat)) : Prop :=
  (∃ sched, lr_scheduler model = Some sched
            ∧ class_name sched = "MultipleLRScheduler"
            ∧ _schedulers sched = Some ss)
  ∧ _optimizers (optimizer model) = Some opts.

(** The key of parameter group [g] of the sub-optimizer [name]. *)
Definition sub_key (name : string) (g : nat) : string :=
  str_join "_" ["lr"; name; pretty g].

(** A model with the composite scheduler and optimizer: [wide] has no
    scheduler, [deepdense] a cyclic one. *)
Definition example_composite_model : Model :=
  mkModel [] ∅ ∅ false []
    (Some (mkScheduler "MultipleLRScheduler"
             (Some {[ "deepdense" := "CyclicLR" ]})))
    false
    (mkOptimizer None
       (Some [("wide", [Fin (1 # 10)]); ("deepdense", [Fin (1 # 100)])])).

End Sessions.

(** * Properties *)

(** Evaluate the closed tests of the conditionals in the goal. *)
Ltac eval_cond :=
  repeat match goal with
  | |- context [if ?c then _ else _] =>
      let v := eval vm_compute in c in
      match v with
      | true => change c with true
      | false => change c with false
      end; cbn iota
  end.

Lemma setdefault_append_lookup {V} (k k' : string) (v : V)
    (h : gmap string (list V)) :
  setdefault_append k v h !! k'
  = if decide (k = k') then Some (default [] (h !! k) ++ [v]) else h !! k'.
Proof. unfold setdefault_append. apply lookup_insert. Qed.

Lemma enumerate_from_app {A} (i : Z) (l1 l2 : list A) :
  enumerate_from i (l1 ++ l2)
  = enumerate_from i l1 ++ enumerate_from (i + Z.of_nat (length l1)) l2.
Proof.
  revert i. induction l1 as [|x l1 IH]; intros i; cbn.
  - by rewrite Z.add_0_r.
  - rewrite IH. do 3 f_equal. lia.
Qed.

Lemma enumerate_from_length {A} (i : Z) (l : list A) :
  length (enumerate_from i l) = length l.
Proof. revert i. induction l; intros; cbn; [done | by f_equal]. Qed.

Lemma enumerate_from_fst {A} (i : Z) (l : list A) :
  (enumerate_from i l).*1 = (λ n, (i + Z.of_nat n)%Z) <$> seq 0 (length l).
Proof.
  revert i. induction l as [|x l IH]; intros i; [done|]. cbn.
  rewrite Z.add_0_r, IH. f_equal. rewrite <- fmap_S_seq, <- list_fmap_compose.
  apply list_fmap_ext. intros _ n _. cbn. lia.
Qed.

Lemma enumerate_from_snd {A} (i : Z) (l : list A) :
  (enumerate_from i l).*2 = l.
Proof. revert i. induction l as [|x l IH]; intros i; cbn; [done | by rewrite IH]. Qed.

Lemma Forall_enumerate_from {A} (P : A → Prop) (i : Z) (l : list A) :
  Forall P l → Forall (λ c, P c.2) (enumerate_from i l).
Proof.
  intros H. revert i. induction H; intros i; cbn; constructor; auto.
Qed.

Module EarlyStoppingFacts.
Import EarlyStopping.

(** *** One call of [on_epoch_end], by cases *)

Lemma epoch_end_improves self e logs model cur b :
  logs_get logs (monitor self) = Some cur →
  best self = Some b →
  call_op (monitor_op self) (fsub cur (min_delta self)) b = true →
  on_epoch_end self e logs model
  = Ok (let s := set_wait 0 (set_best (Some cur) self) in
        if restore_best_weights self
        then set_state_dict (Some (weights model)) s else s,
        model, []).
Proof.
  intros Hget Hb Hop. unfold on_epoch_end, get_monitor_value.
  rewrite Hget, Hb, Hop. reflexivity.
Qed.

Lemma epoch_end_waits self e logs model cur b :
  logs_get logs (monitor self) = Some cur →
  best self = Some b →
  call_op (monitor_op self) (fsub cur (min_delta self)) b = false →
  (wait self + 1 < patience self)%Z →
  on_epoch_end self e logs model
  = Ok (set_wait (wait self + 1) self, model, []).
Proof.
  intros Hget Hb Hop Hlt. unfold on_epoch_end, get_monitor_value.
  rewrite Hget, Hb, Hop. cbn.
  destruct (Z.geb_spec (wait self + 1) (patience self)); [lia | done].
Qed.

Lemma epoch_end_stops self e logs model cur b :
  logs_get logs (monitor self) = Some cur →
  best self = Some b →
  call_op (monitor_op self) (fsub cur (min_delta self)) b = false →
  (patience self ≤ wait self + 1)%Z →
  on_epoch_end self e logs model
  = Ok (set_stopped_epoch e (set_wait (wait self + 1) self),
        if restore_best_weights self
        then (load_state_dict (state_dict self)
                (set_early_stop true model)).1
        else set_early_stop true model,
        if restore_best_weights self
        then (if (verbose self >? 0)%Z then [PrintRestoring] else [])
             ++ [LoadStateDict (state_dict self)]
        else []).
Proof.
  intros Hget Hb Hop Hle. unfold on_epoch_end, get_monitor_value.
  rewrite Hget, Hb, Hop. cbn.
  destruct (Z.geb_spec (wait self + 1) (patience self)); [|lia].
  by destruct (restore_best_weights self).
Qed.

Lemma run_app calls1 calls2 acc :
  run (calls1 ++ calls2) acc
  = bind (run calls1 acc) (run calls2).
Proof.
  revert acc. induction calls1 as [|c calls1 IH]; intros acc; [done|].
  cbn. destruct (epoch_step c acc) as [acc'|]; cbn; [apply IH | done].
Qed.

(** *** The fields fixed by the constructor *)

Lemma init_fields mon delta pat verb md base restore :
  let es := (__init__ mon delta pat verb md base restore).1 in
  monitor es = mon ∧ patience es = pat ∧ verbose es = verb
  ∧ baseline es = base ∧ restore_best_weights es = restore
  ∧ wait es = 0%Z ∧ stopped_epoch es = 0%Z ∧ state_dict es = None
  ∧ best es = None.
Proof.
  unfold __init__. destruct (negb (str_in md _)); cbn; repeat split.
Qed.

Lemma init_min_mode mon delta pat verb base restore :
  let es := (__init__ mon delta pat verb "min" base restore).1 in
  monitor_op es = Less ∧ min_delta es = fmul_minus_one delta.
Proof. done. Qed.

Lemma init_max_mode mon delta pat verb base restore :
  let es := (__init__ mon delta pat verb "max" base restore).1 in
  monitor_op es = Greater ∧ min_delta es = delta.
Proof. done. Qed.

Lemma init_delta mon delta pat verb md base restore :
  let es := (__init__ mon delta pat verb md base restore).1 in
  min_delta es
  = if is_greater (monitor_op es) then delta else fmul_minus_one delta.
Proof.
  unfold __init__. destruct (negb (str_in md _)); cbn.
  - by destruct (str_contains mon "acc").
  - destruct (String.eqb md "min"); [done|].
    destruct (String.eqb md "max"); [done|].
    by destruct (str_contains mon "acc").
Qed.

(** *** Epochs that do not improve on [best] *)

Lemma set_wait_set_wait a b self : set_wait a (set_wait b self) = set_wait a self.
Proof. done. Qed.

Lemma run_stalls calls self model evs b :
  best self = Some b →
  Forall (λ c, stalls self b c.2.2) calls →
  (wait self + Z.of_nat (length calls) < patience self)%Z →
  run calls (self, model, evs)
  = Ok (set_wait (wait self + Z.of_nat (length calls)) self,
        foldl (λ m c, set_weights c.2.1 m) model calls, evs).
Proof.
  revert self model evs.
  induction calls as [|[e [w logs]] calls IH]; intros self model evs Hb Hall Hlt.
  - cbn. rewrite Z.add_0_r. by destruct self.
  - apply Forall_cons in Hall as [(v & Hget & Hop) Hall]. cbn in Hget, Hop.
    cbn [run epoch_step length] in *.
    rewrite (epoch_end_waits _ _ _ _ v b) by (done || lia). cbn [bind].
    rewrite app_nil_r, IH; [| done | done | cbn; lia].
    cbn. do 3 f_equal. rewrite set_wait_set_wait. f_equal. lia.
Qed.

(** C8. When the logs lack the monitored key, or bind it to [None],
    [on_epoch_end] only warns: the callback's fields ([best], [wait],
    [stopped_epoch], the saved snapshot) and the model (its stop flag
    included) come back unchanged. *)
Theorem epoch_end_without_metric self e logs model :
  logs !! monitor self = None ∨ logs !! monitor self = Some None →
  on_epoch_end self e logs model
  = Ok (self, model, [WarnMetricUnavailable (monitor self) (dom logs)]).
Proof.
  intros H. unfold on_epoch_end, get_monitor_value, logs_get.
  by destruct H as [-> | ->].
Qed.

Lemma epoch_end_without_metric_witness :
  on_epoch_end untriggered_callback 3
    {[ "val_loss" := None; "loss" := Some (Fin 1) ]} example_model
  = Ok (untriggered_callback, example_model,
        [WarnMetricUnavailable "val_loss"
           (dom ({[ "val_loss" := None; "loss" := Some (Fin 1) ]}
                   : gmap string (option pyfloat)))]).
Proof.
  apply (epoch_end_without_metric untriggered_callback 3
           {[ "val_loss" := None; "loss" := Some (Fin 1) ]} example_model).
  right. reflexivity.
Defined.

Ltac es_step H :=
  unfold on_epoch_end, get_monitor_value; cbn -[logs_get Qlt_bool];
  rewrite H; cbn -[logs_get Qlt_bool]; eval_cond;
  cbn -[logs_get Qlt_bool].

(** C1. With [patience=2], [min_delta=0] and mode [min], four epochs
    that all report the value 1.0 leave the stop flag clear after the
    first two and set it at the third (epoch index 2): the first value
    becomes [best], the next two raise [wait] to 2. *)
Theorem stop_flag_at_third_epoch (mon : string) (verb : Z)
    (restore : bool) (model : Model)
    (eps : list (StateDict * gmap string (option pyfloat))) :
  early_stop model = false →
  length eps = 4%nat →
  Forall (λ ep, logs_get ep.2 mon = Some (Fin 1)) eps →
  let es := (__init__ mon (Fin 0) 2 verb "min" None restore).1 in
  (λ k, progress (train es model (take k eps))) <$> [1; 2; 3; 4]%nat
  = [Some (0, 0, false); Some (1, 0, false);
     Some (2, 2, true); Some (3, 3, true)]%Z.
Proof.
  intros Hm Hlen Hall.
  destruct eps as [|[w0 l0] [|[w1 l1] [|[w2 l2] [|[w3 l3] [|]]]]];
    try discriminate.
  repeat (apply Forall_cons in Hall as [? Hall]). cbn in *.
  unfold train. cbn. destruct restore.
  all: es_step H; es_step H0; es_step H1; es_step H2.
  all: destruct (verb >? 0)%Z; cbn; by rewrite ?Hm.
Qed.

Lemma stop_flag_at_third_epoch_witness :
  (λ k, progress
          (train (__init__ "val_loss" (Fin 0) 2 0 "min" None false).1
             example_model
             (take k [(example_weights 0, example_logs 1);
                      (example_weights 1, example_logs 1);
                      (example_weights 2, example_logs 1);
                      (example_weights 3, example_logs 1)])))
    <$> [1; 2; 3; 4]%nat
  = [Some (0, 0, false); Some (1, 0, false);
     Some (2, 2, true); Some (3, 3, true)]%Z.
Proof.
  apply (stop_flag_at_third_epoch "val_loss" 0 false example_model
           [(example_weights 0, example_logs 1);
            (example_weights 1, example_logs 1);
            (example_weights 2, example_logs 1);
            (example_weights 3, example_logs 1)]).
  - reflexivity.
  - reflexivity.
  - repeat constructor.
Defined.

(** C10. With [restore_best_weights=True] and a baseline that none of
    the first [patience] epochs improves upon, the patience trigger
    fires while the snapshot field still holds its initial [None], and
    [load_state_dict] is called with [None]. *)
Theorem restore_without_snapshot (mon : string) (delta : pyfloat)
    (pat verb : Z) (md : string) (b : pyfloat) (model : Model)
    (eps : list (StateDict * gmap string (option pyfloat))) :
  let es := (__init__ mon delta pat verb md (Some b) true).1 in
  (1 ≤ pat)%Z →
  Z.of_nat (length eps) = pat →
  Forall (λ ep, stalls es b ep.2) eps →
  ∃ self' model',
    train es model eps
    = Ok (self', model',
          (if (verb >? 0)%Z then [PrintRestoring] else [])
          ++ [LoadStateDict None])
    ∧ state_dict self' = None
    ∧ early_stop model' = true
    ∧ stopped_epoch self' = (pat - 1)%Z.
Proof.
  intros es Hpat Hlen Hall.
  destruct (init_fields mon delta pat verb md (Some b) true)
    as (Hmon & Hp & Hv & Hbase & Hres & Hw & Hse & Hsd & Hbest).
  fold es in Hmon, Hp, Hv, Hbase, Hres, Hw, Hse, Hsd, Hbest.
  destruct eps as [|last init _] using rev_ind; [cbn in Hlen; lia|].
  clear Hpat.
  rewrite length_app in Hlen. cbn in Hlen.
  apply Forall_app in Hall as [Hinit Hlast].
  apply Forall_cons in Hlast as [(v & Hget & Hop) _].
  set (s0 := on_train_begin es).
  assert (Hs0 : s0 = set_best (Some b) (set_stopped_epoch 0 (set_wait 0 es))).
  { unfold s0, on_train_begin. cbn. by rewrite Hbase. }
  unfold train. fold s0.
  rewrite enumerate_from_app, run_app.
  rewrite (run_stalls _ s0 model [] b).
  - cbn [bind run epoch_step enumerate_from].
    destruct last as [w logs]. cbn in Hget, Hop.
    rewrite (epoch_end_stops _ _ _ _ v b).
    + rewrite Hs0. cbn. rewrite Hres, Hsd, Hv. cbn.
      eexists _, _. split; [reflexivity|]. cbn.
      repeat split; [done | lia].
    + by rewrite Hs0.
    + by rewrite Hs0.
    + by rewrite Hs0.
    + rewrite Hs0. cbn. rewrite enumerate_from_length, Hp. lia.
  - by rewrite Hs0.
  - rewrite Hs0. cbn.
    by apply (Forall_enumerate_from (λ ep, stalls es b ep.2)).
  - rewrite Hs0. cbn. rewrite enumerate_from_length, Hp. lia.
Qed.


Lemma restore_without_snapshot_witness :
  ∃ self' model',
    train (__init__ "val_loss" (Fin 0) 2 0 "min" (Some (Fin 0)) true).1
      example_model
      [(example_weights 0, example_logs 1);
       (example_weights 1, example_logs 1)]
    = Ok (self', model', [] ++ [LoadStateDict None])
    ∧ state_dict self' = None
    ∧ early_stop model' = true
    ∧ stopped_epoch self' = (2 - 1)%Z.
Proof.
  apply (restore_without_snapshot "val_loss" (Fin 0) 2 0 "min" (Fin 0)
           example_model
           [(example_weights 0, example_logs 1);
            (example_weights 1, example_logs 1)]).
  - lia.
  - reflexivity.
  - repeat constructor; exists (Fin 1); split; reflexivity.
Defined.

(** *** Comparisons on finite values *)

Lemma Qlt_bool_iff (a b : Q) : Qlt_bool a b = true ↔ (a < b)%Q.
Proof.
  unfold Qlt_bool. rewrite negb_true_iff, <- not_true_iff_false, Qle_bool_iff.
  split; [apply Qnot_le_lt | apply Qlt_not_le].
Qed.

Lemma call_op_Fin op (a b : Q) :
  call_op op (Fin a) (Fin b) = true
  ↔ match op with Less => (a < b)%Q | Greater => (b < a)%Q end.
Proof. destruct op; cbn; apply Qlt_bool_iff. Qed.

Lemma call_op_Fin_false op (a b : Q) :
  call_op op (Fin a) (Fin b) = false
  ↔ match op with Less => (b <= a)%Q | Greater => (a <= b)%Q end.
Proof.
  rewrite <- not_true_iff_false, call_op_Fin.
  destruct op; split; intros H; lra.
Qed.

Lemma call_op_trans op (a b c : Q) :
  call_op op (Fin a) (Fin b) = true →
  call_op op (Fin b) (Fin c) = true →
  call_op op (Fin a) (Fin c) = true.
Proof. rewrite !call_op_Fin. destruct op; lra. Qed.

Lemma call_op_false_trans op (a b c : Q) :
  call_op op (Fin a) (Fin b) = false →
  call_op op (Fin b) (Fin c) = false →
  call_op op (Fin a) (Fin c) = false.
Proof. rewrite !call_op_Fin_false. destruct op; lra. Qed.

Lemma call_op_shift op (v d b : Q) :
  (d == 0)%Q →
  call_op op (Fin (v - d)) (Fin b) = call_op op (Fin v) (Fin b).
Proof.
  intros Hd. apply eq_true_iff_eq. rewrite !call_op_Fin.
  destruct op; split; intros H; lra.
Qed.

(** [best_entry] read from the left: a new value replaces the entry only
    when it beats it. *)
Lemma best_entry_snoc op (qs : list Q) (v : Q) :
  best_entry op (qs ++ [v])
  = match best_entry op qs with
    | None => Some (length qs, v)
    | Some (j, qj) =>
        if call_op op (Fin v) (Fin qj) then Some (length qs, v)
        else Some (j, qj)
    end.
Proof.
  induction qs as [|q qs IH]; [done|].
  cbn [app best_entry length]. rewrite IH.
  destruct (best_entry op qs) as [[j qj]|].
  - destruct (call_op op (Fin v) (Fin qj)) eqn:Hv;
      destruct (call_op op (Fin qj) (Fin q)) eqn:Hq.
    + by rewrite (call_op_trans _ _ _ _ Hv Hq), Hv.
    + by destruct (call_op op (Fin v) (Fin q)).
    + by rewrite Hv.
    + by rewrite (call_op_false_trans _ _ _ _ Hv Hq).
  - by destruct (call_op op (Fin v) (Fin q)).
Qed.

(** *** The snapshot follows the best epoch *)

Lemma same_config_refl self : same_config self self.
Proof. by repeat split. Qed.

Lemma same_config_trans s1 s2 s3 :
  same_config s1 s2 → same_config s2 s3 → same_config s1 s3.
Proof. unfold same_config. intros H1 H2. by destruct_and!; repeat split; etrans. Qed.

Lemma worst_is_beaten op (v d : Q) :
  call_op op (fsub (Fin v) (Fin d))
    (if is_less op then PInf else NInf) = true.
Proof. by destruct op. Qed.

Lemma step_tracks self e w logs model evs (v d : Q) eps qs :
  logs_get logs (monitor self) = Some (Fin v) →
  restore_best_weights self = true →
  min_delta self = Fin d → (d == 0)%Q →
  length eps = length qs →
  tracks_best self eps qs →
  ∃ self' model' evs',
    epoch_step (e, (w, logs)) (self, model, evs) = Ok (self', model', evs')
    ∧ same_config self self'
    ∧ tracks_best self' (eps ++ [(w, logs)]) (qs ++ [v]).
Proof.
  intros Hget Hres Hd Hd0 Hlen Htr. unfold tracks_best in Htr.
  assert (Himp : ∀ b, best self = Some b →
    call_op (monitor_op self) (fsub (Fin v) (min_delta self)) b = true →
    best_entry (monitor_op self) (qs ++ [v]) = Some (length qs, v) →
    ∃ self' model' evs',
      epoch_step (e, (w, logs)) (self, model, evs) = Ok (self', model', evs')
      ∧ same_config self self'
      ∧ tracks_best self' (eps ++ [(w, logs)]) (qs ++ [v])).
  { intros b Hb Hop Hbe. cbn [epoch_step].
    rewrite (epoch_end_improves _ _ _ _ (Fin v) b) by done.
    rewrite Hres. cbn [bind]. eexists _, _, _. split; [done|].
    split; [by repeat split|].
    unfold tracks_best. cbn. rewrite Hbe. split; [done|].
    exists (w, logs). split; [|done].
    rewrite <- Hlen. by rewrite lookup_app_r, Nat.sub_diag. }
  assert (Hkeep : ∀ b j qj, best self = Some b →
    call_op (monitor_op self) (fsub (Fin v) (min_delta self)) b = false →
    best_entry (monitor_op self) qs = Some (j, qj) →
    b = Fin qj →
    (∃ ep, eps !! j = Some ep ∧ state_dict self = Some ep.1) →
    ∃ self' model' evs',
      epoch_step (e, (w, logs)) (self, model, evs) = Ok (self', model', evs')
      ∧ same_config self self'
      ∧ tracks_best self' (eps ++ [(w, logs)]) (qs ++ [v])).
  { intros b j qj Hb Hop Hbe -> (ep & Hep & Hsd). cbn [epoch_step].
    assert (Hbe' : best_entry (monitor_op self) (qs ++ [v]) = Some (j, qj)).
    { rewrite best_entry_snoc, Hbe. rewrite Hd in Hop. cbn [fsub] in Hop.
      rewrite call_op_shift in Hop by done. by rewrite Hop. }
    destruct (Z.lt_ge_cases (wait self + 1) (patience self)).
    - rewrite (epoch_end_waits _ _ _ _ (Fin v) (Fin qj)) by done.
      cbn [bind]. eexists _, _, _. split; [done|].
      split; [by repeat split|].
      unfold tracks_best. cbn. rewrite Hbe'. split; [done|].
      exists ep. split; [by apply lookup_app_l_Some | done].
    - rewrite (epoch_end_stops _ _ _ _ (Fin v) (Fin qj)) by done.
      cbn [bind]. eexists _, _, _. split; [done|].
      split; [by repeat split|].
      unfold tracks_best. cbn. rewrite Hbe'. split; [done|].
      exists ep. split; [by apply lookup_app_l_Some | done]. }
  destruct (best_entry (monitor_op self) qs) as [[j qj]|] eqn:Hbe.
  - destruct Htr as [Hb Hep].
    destruct (call_op (monitor_op self) (fsub (Fin v) (min_delta self))
                (Fin qj)) eqn:Hop.
    + apply (Himp _ Hb Hop). rewrite best_entry_snoc, Hbe.
      rewrite Hd in Hop. cbn [fsub] in Hop.
      rewrite call_op_shift in Hop by done. by rewrite Hop.
    + by apply (Hkeep _ j qj Hb Hop).
  - apply (Himp _ Htr).
    + rewrite Hd. apply worst_is_beaten.
    + by rewrite best_entry_snoc, Hbe.
Qed.

Lemma run_tracks calls :
  ∀ vs self model evs (d : Q) eps qs,
    Forall2 (λ c v, logs_get c.2.2 (monitor self) = Some (Fin v)) calls vs →
    restore_best_weights self = true →
    min_delta self = Fin d → (d == 0)%Q →
    length eps = length qs →
    tracks_best self eps qs →
    ∃ self' model' evs',
      run calls (self, model, evs) = Ok (self', model', evs')
      ∧ same_config self self'
      ∧ tracks_best self' (eps ++ calls.*2) (qs ++ vs).
Proof.
  induction calls as [|[e [w logs]] calls IH];
    intros vs self model evs d eps qs Hall Hres Hd Hd0 Hlen Htr.
  - apply Forall2_nil_inv_l in Hall as ->. cbn. rewrite !app_nil_r.
    eexists _, _, _. split; [done|]. split; [apply same_config_refl | done].
  - apply Forall2_cons_inv_l in Hall as (v & vs' & Hget & Hall & ->).
    cbn in Hget.
    destruct (step_tracks self e w logs model evs v d eps qs)
      as (s1 & m1 & ev1 & Hstep & Hcfg & Htr1); try done.
    cbn [run]. rewrite Hstep. cbn [bind].
    pose proof Hcfg as (Hmon & Hdl & Hop & Hrs & Hpt & Hvb).
    destruct (IH vs' s1 m1 ev1 d (eps ++ [(w, logs)]) (qs ++ [v]))
      as (s2 & m2 & ev2 & Hrun & Hcfg2 & Htr2); try done.
    + by rewrite Hmon.
    + congruence.
    + congruence.
    + rewrite !length_app. cbn. lia.
    + eexists _, _, _. split; [done|].
      split; [by eapply same_config_trans|].
      cbn. by rewrite <- !(assoc_L (++)) in Htr2.
Qed.

Lemma init_zero_delta mon pat verb md base restore :
  let es := (__init__ mon (Fin 0) pat verb md base restore).1 in
  ∃ d : Q, min_delta es = Fin d ∧ (d == 0)%Q.
Proof.
  intros es. pose proof (init_delta mon (Fin 0) pat verb md base restore) as H.
  fold es in H. rewrite H.
  destruct (is_greater (monitor_op es)); eexists; split; done.
Qed.

(** The path on which the code does restore. With
    [restore_best_weights=True], [min_delta=0] and no baseline, on epochs
    that all report a finite monitored value: when the model's stop flag
    is first set by the last [on_epoch_end] call (the patience trigger
    fires there), the dict handed to [load_state_dict] is the one stored
    at the first epoch that reached the best monitored value of the run.
    [model.state_dict()] is read here as the weights at the time of the
    call; the source stores the dict it returns without copying it. *)
Theorem restored_weights_are_best_epoch (mon : string) (pat verb : Z)
    (md : string) (model : Model)
    (init : list (StateDict * gmap string (option pyfloat)))
    (last : StateDict * gmap string (option pyfloat)) (qs : list Q) :
  let es := (__init__ mon (Fin 0) pat verb md None true).1 in
  Forall2 (λ ep q, logs_get ep.2 mon = Some (Fin q)) (init ++ [last]) qs →
  stop_flag (train es model init) = Some false →
  stop_flag (train es model (init ++ [last])) = Some true →
  restores_best_snapshot es model (init ++ [last]) qs.
Proof.
  intros es Hall Hbefore Hafter.
  destruct (init_fields mon (Fin 0) pat verb md None true)
    as (Hmon & _ & _ & Hbase & Hres & _ & _ & _ & _).
  destruct (init_zero_delta mon pat verb md None true) as (d & Hd & Hd0).
  fold es in Hmon, Hbase, Hres, Hd.
  apply Forall2_app_inv_l in Hall as (qs0 & vs & Hinit & Hlast & ->).
  apply Forall2_cons_inv_l in Hlast as (v & vs' & Hget & Hnil & ->).
  apply Forall2_nil_inv_l in Hnil as ->.
  set (s0 := on_train_begin es).
  assert (Hs0 : s0 = set_best (Some (if is_less (monitor_op es)
                                     then PInf else NInf))
                       (set_stopped_epoch 0 (set_wait 0 es))).
  { unfold s0, on_train_begin. cbn. by rewrite Hbase. }
  destruct (run_tracks (enumerate_from 0 init) qs0 s0 model [] d [] [])
    as (s1 & m1 & ev1 & Hrun & Hcfg & Htr).
  { rewrite Hs0. cbn. rewrite Hmon. clear -Hinit. generalize 0%Z.
    induction Hinit; intros i; cbn; constructor; auto. }
  { by rewrite Hs0. }
  { by rewrite Hs0. }
  { done. }
  { done. }
  { unfold tracks_best. cbn. by rewrite Hs0. }
  assert (Hsnd : (enumerate_from 0 init).*2 = init).
  { clear. generalize 0%Z. induction init as [|x l IH]; intros i; cbn;
      [done | by rewrite IH]. }
  cbn [app] in Htr. rewrite Hsnd in Htr.
  destruct Hcfg as (Hmon1 & Hdl1 & Hop1 & Hrs1 & Hpt1 & Hvb1).
  assert (Hop0 : monitor_op s0 = monitor_op es) by by rewrite Hs0.
  unfold train in Hbefore, Hafter. fold s0 in Hbefore, Hafter.
  rewrite Hrun in Hbefore. cbn in Hbefore.
  rewrite enumerate_from_app, run_app, Hrun in Hafter.
  cbn [bind run enumerate_from] in Hafter.
  destruct last as [w logs]. cbn [epoch_step] in Hafter. cbn in Hget.
  unfold restores_best_snapshot, train. fold s0.
  rewrite enumerate_from_app, run_app, Hrun.
  cbn [bind run enumerate_from epoch_step].
  assert (Hget1 : logs_get logs (monitor s1) = Some (Fin v)).
  { rewrite Hmon1, Hs0. cbn. by rewrite Hmon. }
  unfold tracks_best in Htr. rewrite Hop1, Hop0 in Htr.
  assert (∃ b, best s1 = Some b) as [b Hb].
  { destruct (best_entry _ qs0) as [[j qj]|]; [destruct Htr|]; eauto. }
  destruct (call_op (monitor_op s1) (fsub (Fin v) (min_delta s1)) b) eqn:Hop.
  { rewrite (epoch_end_improves _ _ _ _ (Fin v) b) in Hafter by done.
    cbn in Hafter. congruence. }
  destruct (Z.lt_ge_cases (wait s1 + 1) (patience s1)).
  { rewrite (epoch_end_waits _ _ _ _ (Fin v) b) in Hafter by done.
    cbn in Hafter. congruence. }
  rewrite (epoch_end_stops _ _ _ _ (Fin v) b) by done.
  assert (Hrs : restore_best_weights s1 = true).
  { rewrite Hrs1, Hs0. cbn. done. }
  rewrite Hrs. cbn [bind].
  destruct (best_entry (monitor_op es) qs0) as [[j qj]|] eqn:Hbe.
  - destruct Htr as (Hb' & ep & Hep & Hsd).
    assert (b = Fin qj) as -> by congruence.
    eexists _, _, _, j, qj, ep. split; [done|].
    assert (Hd1 : min_delta s1 = Fin d) by (rewrite Hdl1, Hs0; done).
    rewrite Hd1 in Hop. cbn [fsub] in Hop.
    rewrite call_op_shift in Hop by done.
    split; [|split].
    + rewrite best_entry_snoc, Hbe. rewrite Hop1, Hop0 in Hop. by rewrite Hop.
    + by apply lookup_app_l_Some.
    + by rewrite Hsd.
  - assert (b = if is_less (monitor_op es) then PInf else NInf) as ->
      by congruence.
    assert (Hd1 : min_delta s1 = Fin d) by (rewrite Hdl1, Hs0; done).
    rewrite Hd1, Hop1, Hop0, worst_is_beaten in Hop. done.
Qed.

(** A run in which the trigger fires at the last epoch: [patience=1],
    values 1.0 then 2.0. *)
Lemma restored_weights_are_best_epoch_witness :
  restores_best_snapshot
    (__init__ "val_loss" (Fin 0) 1 0 "min" None true).1 example_model
    ([(example_weights 0, example_logs 1)]
     ++ [(example_weights 1, example_logs 2)])
    [1; 2]%Q.
Proof.
  apply (restored_weights_are_best_epoch "val_loss" 1 0 "min" example_model
           [(example_weights 0, example_logs 1)]
           (example_weights 1, example_logs 2) [1; 2]%Q).
  - repeat constructor.
  - reflexivity.
  - reflexivity.
Defined.

(** C9. The code on a session that ends without the patience trigger:
    with [restore_best_weights=True] and the default [patience=10], two
    epochs with values 1.0 then 2.0 never fire the trigger,
    [load_state_dict] is never called, and the model keeps the weights of
    the final epoch although the first epoch was the best. Weights are
    only restored inside the trigger's branch of [on_epoch_end]. *)
Lemma final_weights_kept_without_trigger :
  Forall2 (λ ep q, logs_get ep.2 "val_loss" = Some (Fin q))
    untriggered_epochs [1; 2]%Q
  ∧ (∃ self' model' evs,
       train untriggered_callback example_model untriggered_epochs
       = Ok (self', model', evs)
       ∧ weights model' = example_weights 1
       ∧ loaded_dicts evs = [])
  ∧ ¬ restores_best_snapshot untriggered_callback example_model
        untriggered_epochs [1; 2]%Q.
Proof.
  split; [repeat constructor|]. split.
  - eexists _, _, _. split; [vm_compute; reflexivity|]. by split.
  - intros (self' & model' & evs & j & qj & ep & Hrun & Hbe & Hep & Hw).
    vm_compute in Hrun. vm_compute in Hbe.
    injection Hrun as <- <- <-. injection Hbe as <- <-.
    cbn in Hep. injection Hep as <-. vm_compute in Hw. discriminate.
Qed.

End EarlyStoppingFacts.

Module ModelCheckpointFacts.
Import ModelCheckpoint.

(** *** The constructor *)

Lemma split_go_nonempty c s cur : split_go c s cur ≠ [].
Proof.
  revert cur. induction s as [|d s IH]; intros cur; cbn; [done|].
  destruct (Ascii.eqb d c); [done | apply IH].
Qed.

(** [split] returns a single piece exactly when the separator does not
    occur in the string. *)
Lemma split_go_single c s cur :
  length (split_go c s cur) = 1%nat
  ↔ ¬ ∃ dir file, s = dir +:+ String c file.
Proof.
  revert cur. induction s as [|d s IH]; intros cur; cbn.
  - split; [|done]. intros _ (dir & file & H). by destruct dir.
  - destruct (Ascii.eqb_spec d c) as [->|Hne].
    + split.
      * intros H. cbn in H. injection H as H.
        apply length_zero_iff_nil in H. by apply split_go_nonempty in H.
      * intros H. destruct H. by exists "", s.
    + rewrite IH. split; intros H (dir & file & Heq); apply H.
      * destruct dir as [|d' dir].
        { change (String d s = String c file) in Heq. congruence. }
        change (String d s = String d' (dir +:+ String c file)) in Heq.
        injection Heq as -> ->. by exists dir, file.
      * exists (String d dir), file. by rewrite Heq.
Qed.

Lemma no_directory_iff fp :
  (length (all_but_last (str_split fp "/"%char)) =? 0)%nat = true
  ↔ ¬ ∃ dir file, fp = dir +:+ "/" +:+ file.
Proof.
  rewrite Nat.eqb_eq. unfold all_but_last, str_split.
  rewrite <- (split_go_single "/"%char fp "").
  pose proof (split_go_nonempty "/"%char fp "") as Hne.
  destruct (split_go "/"%char fp "") as [|x l]; [done|].
  rewrite length_take. cbn. lia.
Qed.

Lemma str_in_elem_of (x : string) (l : list string) :
  str_in x l = true ↔ x ∈ l.
Proof.
  unfold str_in. induction l as [|y l IH]; cbn.
  - split; [done | by intros ?%elem_of_nil].
  - rewrite orb_true_iff, IH, String.eqb_eq, elem_of_cons. done.
Qed.

(** What a successful construction returns. *)
Lemma init_Ok_inv fp mon verb sbo md per ms disk self d0 ev0 :
  __init__ fp mon verb sbo md per ms disk = Ok (self, d0, ev0) →
  self = mk fp mon verb sbo (checked_mode md).1 per ms 0
            (if (ms >? 0)%Z then Some [] else None)
            (comparison (checked_mode md).1 mon).1
            (comparison (checked_mode md).1 mon).2.
Proof.
  unfold __init__. destruct (_ =? _)%nat; [done|].
  destruct (if negb _ then _ else _) as [[d1 e1]|]; [|done]. cbn.
  destruct (checked_mode md) as [md' wev]; cbn.
  destruct (comparison md' mon). by intros [= <- _ _].
Qed.

Lemma string_length_app (a b : string) :
  String.length (a +:+ b) = String.length a + String.length b.
Proof.
  induction a as [|c a IH]; [done|].
  change (String c a +:+ b) with (String c (a +:+ b)). cbn. by rewrite IH.
Qed.

Lemma string_app_inj_r (a b s : string) : a +:+ s = b +:+ s → a = b.
Proof.
  revert b. induction a as [|c a IH]; intros [|c' b] H; [done| | |].
  - exfalso. apply (f_equal String.length) in H.
    rewrite !string_length_app in H. cbn in H. lia.
  - exfalso. apply (f_equal String.length) in H.
    rewrite !string_length_app in H. cbn in H. lia.
  - change (String c (a +:+ s) = String c' (b +:+ s)) in H.
    injection H as -> H. f_equal. by apply IH.
Qed.

Lemma rev_app_length (s1 s2 : string) :
  String.length (String.rev_app s1 s2)
  = String.length s1 + String.length s2.
Proof.
  revert s2. induction s1 as [|c s1 IH]; intros s2; [done|].
  cbn. rewrite IH. cbn. lia.
Qed.

(** The first piece of a split extends the piece accumulated so far. *)
Lemma split_go_head c s cur :
  ∃ p ps, split_go c s cur = p :: ps
          ∧ String.length cur ≤ String.length p.
Proof.
  revert cur. induction s as [|d s IH]; intros cur; cbn.
  - eexists _, _. split; [done|]. unfold String.rev.
    rewrite rev_app_length. cbn. lia.
  - destruct (Ascii.eqb d c).
    + eexists _, _. split; [done|]. unfold String.rev.
      rewrite rev_app_length. cbn. lia.
    + destruct (IH (String d cur)) as (p & ps & -> & Hlen).
      eexists _, _. split; [done|]. cbn in Hlen. lia.
Qed.

Lemma str_join_slash_empty (l : list string) :
  str_join "/" l = "" → l = [] ∨ l = [""].
Proof.
  destruct l as [|p [|q l]]; cbn; [by left | intros ->; by right |].
  intros H. exfalso. apply (f_equal String.length) in H.
  rewrite !string_length_app in H. cbn in H. lia.
Qed.

(** The directory handed to [os.makedirs] is empty only for a path whose
    single separator is its first character. *)
Lemma root_dir_empty fp dir file :
  str_join "/" (all_but_last (str_split fp "/"%char)) = "" →
  fp = dir +:+ "/" +:+ file → dir = "".
Proof.
  intros Hroot Hfp. unfold all_but_last, str_split in Hroot.
  assert (Hmany : length (split_go "/"%char fp "") ≠ 1%nat).
  { rewrite split_go_single. intros H. apply H. by exists dir, file. }
  apply str_join_slash_empty in Hroot as [Hnil | Hone].
  - apply (f_equal length) in Hnil. rewrite length_take in Hnil.
    pose proof (split_go_nonempty "/"%char fp "") as Hne.
    destruct (split_go "/"%char fp "") as [|p ps]; [done|]. cbn in *. lia.
  - destruct fp as [|d s]; [by destruct dir|]. cbn in Hmany, Hone.
    destruct (Ascii.eqb_spec d "/"%char) as [->|Hne].
    + destruct dir as [|d' dir']; [done|]. exfalso.
      change (String "/" s = String d' (dir' +:+ "/" +:+ file)) in Hfp.
      injection Hfp as <- ->.
      pose proof (split_go_nonempty "/"%char (dir' +:+ "/" +:+ file) "")
        as Hne.
      pose proof (proj1 (split_go_single "/"%char (dir' +:+ "/" +:+ file) ""))
        as Hsingle.
      destruct (split_go "/"%char (dir' +:+ "/" +:+ file) "")
        as [|p [|q ps]]; [done| |cbn in Hone; discriminate].
      apply Hsingle; [done|]. by exists dir', file.
    + exfalso. destruct (split_go_head "/"%char s (String d ""))
        as (p & ps & Heq & Hlen).
      rewrite Heq in Hone. cbn in Hlen.
      destruct ps as [|q ps]; [done|]. cbn in Hone.
      destruct p; [cbn in Hlen; lia|]. by destruct (length ps - 0).
Qed.

(** What the constructor's own check does: the configuration error is
    raised exactly when the file path holds no separator. And for a path
    with a non-empty directory a mode outside [auto], [min], [max] does not
    raise: construction completes with a warning, the mode stored is
    [auto], and the comparison is the one inferred from the monitored
    metric's name. *)
Theorem init_raises_iff_no_directory (fp mon : string) (verb : Z)
    (sbo : bool) (md : string) (per ms : Z) (disk : Disk) :
  (__init__ fp mon verb sbo md per ms disk = Err ValueError
   ↔ ¬ ∃ dir file, fp = dir +:+ "/" +:+ file)
  ∧ (∀ dir file,
       fp = dir +:+ "/" +:+ file → dir ≠ "" →
       md ∉ ["auto"; "min"; "max"] →
       ∃ self disk' evs,
         __init__ fp mon verb sbo md per ms disk = Ok (self, disk', evs)
         ∧ last evs = Some (WarnUnknownMode "ModelCheckpoint" md)
         ∧ mode self = "auto"
         ∧ (monitor_op self, best self)
           = if (str_contains mon "acc" || startswith mon "fmeasure")%bool
             then (Greater, NInf) else (Less, PInf)).
Proof.
  pose proof (no_directory_iff fp) as Hdir.
  pose proof (root_dir_empty fp) as Hroot.
  unfold __init__.
  destruct (length (all_but_last (str_split fp "/"%char)) =? 0)%nat.
  - split; [split; [intros _; by apply Hdir | done]|].
    intros dir file Hfp _ _. destruct (proj1 Hdir); [done|]. by exists dir, file.
  - split.
    + split; [|intros H; by apply Hdir in H].
      unfold os_makedirs. intros He. exfalso.
      destruct (negb _); [destruct (String.eqb _ "")|]; cbn in He;
        try discriminate;
        destruct (checked_mode md); destruct (comparison _ _); done.
    + intros dir file Hfp Hne Hmd. rewrite <- str_in_elem_of in Hmd.
      apply not_true_is_false in Hmd.
      unfold checked_mode. rewrite Hmd. cbn.
      unfold os_makedirs.
      destruct (String.eqb_spec
                  (str_join "/" (all_but_last (str_split fp "/"%char))) "")
        as [Hempty|_]; [destruct Hne; by apply (Hroot dir file)|].
      destruct (negb _); cbn;
        destruct (str_contains mon "acc" || startswith mon "fmeasure")%bool;
        cbn; eexists _, _, _; (split; [reflexivity|]);
        rewrite ?last_snoc; by repeat split.
Qed.

(** C7. The code on a file directly under the root. The path
    [/weights] has a directory segment: it is [dir/file] with the root's
    empty name for [dir], and it passes the constructor's own check. Yet
    construction raises, for every mode, known or not: the pieces before
    the last separator join to the empty path, which does not exist and
    which [os.makedirs] cannot create. *)
Theorem root_path_raises_at_construction (mon : string) (verb : Z)
    (sbo : bool) (md : string) (per ms : Z) (disk : Disk) :
  "/weights" = "" +:+ "/" +:+ "weights"
  ∧ (length (all_but_last (str_split "/weights" "/"%char)) =? 0)%nat = false
  ∧ str_join "/" (all_but_last (str_split "/weights" "/"%char)) = ""
  ∧ os_path_exists "" disk = false
  ∧ __init__ "/weights" mon verb sbo md per ms disk = Err FileNotFoundError.
Proof.
  split; [reflexivity|]. split; [reflexivity|]. split; [reflexivity|].
  split; [reflexivity|]. unfold __init__. cbn. reflexivity.
Qed.

(** *** One call of [on_epoch_end] *)

Lemma save_and_retain_room ms files path model disk :
  (0 < ms)%Z → (Z.of_nat (length files) < ms)%Z →
  save_and_retain ms (Some files) path model disk
  = Ok (Some (files ++ [path]), {[path]} ∪ disk,
        [TorchSave (weights model) path]).
Proof.
  intros Hms Hlen. unfold save_and_retain.
  destruct (Z.gtb_spec ms 0); [|lia].
  destruct (Z.eqb_spec (Z.of_nat (length files)) ms); [lia | done].
Qed.

Lemma save_and_retain_full ms f rest path model disk :
  (0 < ms)%Z → Z.of_nat (length (f :: rest)) = ms →
  save_and_retain ms (Some (f :: rest)) path model disk
  = Ok (Some (rest ++ [path]), ({[path]} ∪ disk) ∖ {[f]},
        [TorchSave (weights model) path; OsRemove f]).
Proof.
  intros Hms Hlen. unfold save_and_retain.
  destruct (Z.gtb_spec ms 0); [|lia].
  destruct (Z.eqb_spec (Z.of_nat (length (f :: rest))) ms); [done | lia].
Qed.

Lemma save_and_retain_unbounded ms files path model disk :
  (ms ≤ 0)%Z →
  save_and_retain ms files path model disk
  = Ok (files, {[path]} ∪ disk, [TorchSave (weights model) path]).
Proof.
  intros Hms. unfold save_and_retain. by destruct (Z.gtb_spec ms 0); [lia|].
Qed.

(** With a retention cap, a call either saves nothing, or saves the
    epoch's path with room to spare, or saves it and evicts the head of
    the list. *)
Lemma epoch_end_effect self e logs model d files :
  (0 < max_save self)%Z →
  old_files self = Some files →
  (Z.of_nat (length files) ≤ max_save self)%Z →
  let p := snapshot_path (filepath self) e in
  ∃ self' d' evs',
    on_epoch_end self e logs model d = Ok (self', d', evs')
    ∧ max_save self' = max_save self ∧ filepath self' = filepath self
    ∧ ((old_files self' = Some files ∧ d' = d
        ∧ saved_paths evs' = [] ∧ removed_paths evs' = [])
       ∨ ((Z.of_nat (length files) < max_save self)%Z
          ∧ old_files self' = Some (files ++ [p]) ∧ d' = {[p]} ∪ d
          ∧ saved_paths evs' = [p] ∧ removed_paths evs' = [])
       ∨ (∃ f rest, files = f :: rest
          ∧ Z.of_nat (length files) = max_save self
          ∧ old_files self' = Some (rest ++ [p])
          ∧ d' = ({[p]} ∪ d) ∖ {[f]}
          ∧ saved_paths evs' = [p] ∧ removed_paths evs' = [f])).
Proof.
  intros Hms Hold Hlen p.
  assert (Hsave : ∀ (b : pyfloat) (c : Z) (pr : list event),
    saved_paths pr = [] → removed_paths pr = [] →
    ∃ self' d' evs',
      bind (save_and_retain (max_save self) (Some files) p model d)
        (λ '(fs, disk, evs),
           Ok (with_best_files (with_counter self c) b fs, disk, pr ++ evs))
      = Ok (self', d', evs')
      ∧ max_save self' = max_save self ∧ filepath self' = filepath self
      ∧ ((old_files self' = Some files ∧ d' = d
          ∧ saved_paths evs' = [] ∧ removed_paths evs' = [])
         ∨ ((Z.of_nat (length files) < max_save self)%Z
            ∧ old_files self' = Some (files ++ [p]) ∧ d' = {[p]} ∪ d
            ∧ saved_paths evs' = [p] ∧ removed_paths evs' = [])
         ∨ (∃ f rest, files = f :: rest
            ∧ Z.of_nat (length files) = max_save self
            ∧ old_files self' = Some (rest ++ [p])
            ∧ d' = ({[p]} ∪ d) ∖ {[f]}
            ∧ saved_paths evs' = [p] ∧ removed_paths evs' = [f]))).
  { intros b c pr Hpr1 Hpr2.
    destruct (Z.lt_ge_cases (Z.of_nat (length files)) (max_save self)).
    - rewrite save_and_retain_room by done. cbn [bind].
      eexists _, _, _. split; [done|]. do 2 (split; [done|]).
      right; left. unfold saved_paths, removed_paths in *.
      rewrite !omap_app, Hpr1, Hpr2. by repeat split.
    - destruct files as [|f rest]; [cbn in *; lia|].
      rewrite save_and_retain_full by (done || lia). cbn [bind].
      eexists _, _, _. split; [done|]. do 2 (split; [done|]).
      right; right. exists f, rest. unfold saved_paths, removed_paths in *.
      rewrite !omap_app, Hpr1, Hpr2. repeat split; (done || lia). }
  unfold on_epoch_end. cbn -[save_and_retain].
  destruct (_ >=? _)%Z; cbn -[save_and_retain].
  - fold p. rewrite Hold. destruct (save_best_only self).
    + destruct (logs_get logs (monitor self)) as [cur|].
      * destruct (call_op (monitor_op self) cur (best self)).
        -- apply Hsave; by destruct (verbose self >? 0)%Z.
        -- eexists _, _, _. split; [done|]. do 2 (split; [done|]).
           left. by destruct (verbose self >? 0)%Z.
      * eexists _, _, _. split; [done|]. do 2 (split; [done|]). by left.
    + apply Hsave; by destruct (verbose self >? 0)%Z.
  - eexists _, _, _. split; [done|]. do 2 (split; [done|]). by left.
Qed.

(** *** Retention *)

Lemma retained_length m saved : length (retained m saved) ≤ m.
Proof. unfold retained. rewrite length_drop. lia. Qed.

Lemma retained_room m saved p :
  length (retained m saved) < m →
  retained m (saved ++ [p]) = retained m saved ++ [p]
  ∧ evicted m (saved ++ [p]) = evicted m saved.
Proof.
  unfold retained, evicted. rewrite length_drop, length_app. cbn. intros H.
  replace (length saved + 1 - m) with 0 by lia.
  replace (length saved - m) with 0 by lia. done.
Qed.

Lemma retained_full m saved p f rest :
  retained m saved = f :: rest →
  length (f :: rest) = m →
  retained m (saved ++ [p]) = rest ++ [p]
  ∧ evicted m (saved ++ [p]) = evicted m saved ++ [f].
Proof.
  unfold retained, evicted. intros Hdrop Hlen.
  assert (Hk : length saved - (length saved - m) = m).
  { pose proof (f_equal length Hdrop) as Hl. rewrite length_drop in Hl. lia. }
  assert (Hf : saved !! (length saved - m) = Some f).
  { rewrite <- (Nat.add_0_r (length saved - m)), <- lookup_drop, Hdrop. done. }
  rewrite length_app. cbn [length].
  replace (length saved + 1 - m) with (S (length saved - m))
    by (cbn in Hlen; lia).
  split.
  - rewrite drop_app_le by (apply lookup_lt_Some in Hf; lia).
    rewrite (drop_S _ _ _ Hf) in Hdrop. by injection Hdrop as ->.
  - rewrite take_app_le by (apply lookup_lt_Some in Hf; lia).
    by apply take_S_r.
Qed.

Lemma snapshot_path_inj fp : Inj (=) (=) (snapshot_path fp).
Proof.
  intros e e' H. unfold snapshot_path in H.
  apply (inj (String.app fp)) in H. apply (inj (String.app "_")) in H.
  apply string_app_inj_r in H. apply (inj pretty) in H. lia.
Qed.

Lemma mc_run_app calls1 calls2 model acc :
  run (calls1 ++ calls2) model acc
  = bind (run calls1 model acc) (run calls2 model).
Proof.
  revert acc. induction calls1 as [|c calls1 IH]; intros acc; [done|].
  cbn. destruct (epoch_step c model acc) as [acc'|]; cbn; [apply IH | done].
Qed.

(** The state reached by any sequence of calls from a freshly built
    callback with a retention cap. *)
Lemma run_retention calls model self0 d0 :
  (0 < max_save self0)%Z →
  old_files self0 = Some [] →
  let m := Z.to_nat (max_save self0) in
  ∃ self' d' evs,
    run calls model (self0, d0, []) = Ok (self', d', evs)
    ∧ max_save self' = max_save self0
    ∧ filepath self' = filepath self0
    ∧ old_files self' = Some (retained m (saved_paths evs))
    ∧ removed_paths evs = evicted m (saved_paths evs)
    ∧ (∀ q, q ∈ saved_paths evs →
            ∃ e, e ∈ calls.*1 ∧ q = snapshot_path (filepath self0) e)
    ∧ (NoDup calls.*1 →
       NoDup (saved_paths evs)
       ∧ (∀ q, q ∈ saved_paths evs →
               (q ∈ d' ↔ q ∈ retained m (saved_paths evs)))
       ∧ (∀ q, q ∉ saved_paths evs → (q ∈ d' ↔ q ∈ d0))).
Proof.
  intros Hms Hold0 m.
  induction calls as [|[e [w logs]] calls IH] using rev_ind.
  - eexists _, _, _. split; [done|]. cbn. repeat split; try done.
    + intros q Hq. by apply elem_of_nil in Hq.
    + constructor.
    + rewrite drop_nil. by intros ?%elem_of_nil.
  - destruct IH as (s1 & d1 & ev1 & Hrun & Hmax & Hfp & Hold & Hrem & Hsrc & Hdisk).
    rewrite mc_run_app, Hrun. cbn [bind run epoch_step].
    destruct (epoch_end_effect s1 e logs (set_weights w model) d1
                (retained m (saved_paths ev1)))
      as (s2 & d2 & ev2 & Hstep & Hmax2 & Hfp2 & Hcase).
    { by rewrite Hmax. }
    { done. }
    { rewrite Hmax. pose proof (retained_length m (saved_paths ev1)). lia. }
    rewrite Hstep. cbn [bind]. eexists _, _, _. split; [done|].
    rewrite Hmax2, Hfp2, Hmax, Hfp. do 2 (split; [done|]).
    rewrite fmap_app. cbn [fmap list_fmap fst].
    unfold saved_paths, removed_paths in *. rewrite !omap_app.
    set (saved := omap _ ev1) in *. set (p := snapshot_path (filepath self0) e).
    rewrite Hfp in Hcase. fold p in Hcase. rewrite Hmax in Hcase.
    destruct Hcase as [(Ho & -> & -> & ->)
                      |[(Hlt & Ho & -> & -> & ->)
                       |(f & rest & Hfr & Hlen & Ho & -> & -> & ->)]].
    + rewrite !app_nil_r. do 2 (split; [done|]). split.
      * intros q Hq. destruct (Hsrc q Hq) as (e' & He' & ->).
        exists e'. split; [|done]. apply elem_of_app. by left.
      * intros Hnd. apply NoDup_app in Hnd as (Hnd & _ & _). by apply Hdisk.
    + destruct (retained_room m saved p) as [Hr He]; [lia|].
      rewrite Hr, He, app_nil_r. do 2 (split; [done|]). split.
      * intros q [Hq | ->%list_elem_of_singleton]%elem_of_app.
        -- destruct (Hsrc q Hq) as (e' & He' & ->).
           exists e'. split; [|done]. apply elem_of_app. by left.
        -- exists e. split; [|done]. apply elem_of_app. right. by left.
      * intros Hnd. apply NoDup_app in Hnd as (Hnd & Hfresh & _).
        destruct (Hdisk Hnd) as (Hnds & Hin & Hout).
        assert (Hp : p ∉ saved).
        { intros Hp. destruct (Hsrc p Hp) as (e' & He' & Heq).
          apply snapshot_path_inj in Heq as <-.
          apply (Hfresh e He'). by left. }
        split; [|split].
        -- apply NoDup_app. split; [done|]. split; [|apply NoDup_singleton].
           intros q Hq ->%list_elem_of_singleton. done.
        -- intros q Hq.
           rewrite elem_of_union, elem_of_singleton, elem_of_app,
             list_elem_of_singleton.
           destruct (decide (q = p)) as [->|Hne]; [tauto|].
           apply elem_of_app in Hq as [Hq | Hq%list_elem_of_singleton];
             [|done].
           rewrite (Hin q Hq). tauto.
        -- intros q Hq. rewrite elem_of_app, list_elem_of_singleton in Hq.
           rewrite elem_of_union, elem_of_singleton.
           rewrite <- (Hout q) by tauto. tauto.
    + rewrite Hfr in Hlen.
      destruct (retained_full m saved p f rest) as [Hr He];
        [done | cbn [length] in *; lia |].
      rewrite Hr, He, Hrem. do 2 (split; [done|]). split.
      * intros q [Hq | ->%list_elem_of_singleton]%elem_of_app.
        -- destruct (Hsrc q Hq) as (e' & He' & ->).
           exists e'. split; [|done]. apply elem_of_app. by left.
        -- exists e. split; [|done]. apply elem_of_app. right. by left.
      * intros Hnd. apply NoDup_app in Hnd as (Hnd & Hfresh & _).
        destruct (Hdisk Hnd) as (Hnds & Hin & Hout).
        assert (Hp : p ∉ saved).
        { intros Hp. destruct (Hsrc p Hp) as (e' & He' & Heq).
          apply snapshot_path_inj in Heq as <-.
          apply (Hfresh e He'). by left. }
        assert (Hsub : ∀ q, q ∈ f :: rest → q ∈ saved).
        { intros q Hq. rewrite <- Hfr in Hq. unfold retained in Hq.
          eapply elem_of_sublist; [done | apply sublist_drop]. }
        assert (Hndr : NoDup (f :: rest)).
        { rewrite <- Hfr. unfold retained.
          apply (sublist_NoDup _ saved); [done | apply sublist_drop]. }
        apply NoDup_cons in Hndr as [Hf _].
        assert (Hfs : f ∈ saved) by (apply Hsub; by left).
        assert (Hfp' : f ≠ p) by (by intros ->).
        split; [|split].
        -- apply NoDup_app. split; [done|]. split; [|apply NoDup_singleton].
           intros q Hq ->%list_elem_of_singleton. done.
        -- intros q Hq.
           rewrite elem_of_difference, elem_of_union, !elem_of_singleton,
             elem_of_app, list_elem_of_singleton.
           destruct (decide (q = p)) as [->|Hne].
           { split; [by right|]. intros _. split; [by left | congruence]. }
           apply elem_of_app in Hq as [Hq | Hq%list_elem_of_singleton];
             [|done].
           rewrite (Hin q Hq), Hfr, elem_of_cons.
           destruct (decide (q = f)) as [->|Hne']; tauto.
        -- intros q Hq. rewrite elem_of_app, list_elem_of_singleton in Hq.
           rewrite elem_of_difference, elem_of_union, !elem_of_singleton.
           rewrite <- (Hout q) by tauto.
           destruct (decide (q = f)) as [->|Hne']; tauto.
Qed.

Ltac mc_step H :=
  unfold on_epoch_end, save_and_retain;
  cbn -[logs_get Qlt_bool snapshot_path union singleton difference];
  rewrite H; cbn -[logs_get Qlt_bool snapshot_path union singleton difference];
  eval_cond;
  cbn -[logs_get Qlt_bool snapshot_path union singleton difference].

(** C2. With [save_best_only=True], mode [min] and [period=1], four
    epochs whose monitored values are 5.0, 3.0, 4.0, 2.0 write the model's
    weights at epochs 1, 2 and 4 (1-based) and at no other epoch: three
    files in all, and nothing is removed. *)
Theorem best_only_saves_on_improvement (fp mon : string) (verb : Z)
    (disk : Disk) (model : Model)
    (eps : list (StateDict * gmap string (option pyfloat)))
    (self0 : t) (d0 : Disk) (ev0 : list event) :
  __init__ fp mon verb true "min" 1 (-1) disk = Ok (self0, d0, ev0) →
  Forall2 (λ ep q, logs_get ep.2 mon = Some (Fin q)) eps [5; 3; 4; 2]%Q →
  ∃ self' evs w1 w2 w3 w4,
    run (enumerate_from 0 eps) model (self0, d0, [])
    = Ok (self',
          {[fp +:+ "_4.p"]} ∪ ({[fp +:+ "_2.p"]} ∪ ({[fp +:+ "_1.p"]} ∪ d0)),
          evs)
    ∧ eps.*1 = [w1; w2; w3; w4]
    ∧ saved_snapshots evs
      = [(w1, fp +:+ "_1.p"); (w2, fp +:+ "_2.p"); (w4, fp +:+ "_4.p")]
    ∧ removed_paths evs = []
    ∧ best self' = Fin 2.
Proof.
  intros Hinit Hall. apply init_Ok_inv in Hinit as ->.
  pose proof (Forall2_length _ _ _ Hall) as Hlen.
  destruct eps as [|[w1 l1] [|[w2 l2] [|[w3 l3] [|[w4 l4] [|]]]]];
    try discriminate.
  repeat (apply Forall2_cons in Hall as [? Hall]). cbn in * |-.
  exists (mk fp mon verb true "min" 1 (-1) 0 None Less (Fin 2)).
  eexists _, w1, w2, w3, w4.
  cbn -[on_epoch_end union singleton].
  mc_step H. mc_step H0. mc_step H1. mc_step H2.
  split; [reflexivity|]. split; [done|].
  unfold saved_snapshots, removed_paths.
  destruct (verb >? 0)%Z; cbn; done.
Qed.

Lemma best_only_saves_on_improvement_witness :
  ∃ self' evs w1 w2 w3 w4,
    run (enumerate_from 0
           [(example_weights 1, example_logs 5);
            (example_weights 2, example_logs 3);
            (example_weights 3, example_logs 4);
            (example_weights 4, example_logs 2)])
      example_model
      (mk "checkpoints/weights_out" "val_loss" 0 true "min" 1 (-1) 0 None
          Less PInf,
       {["checkpoints"]} ∪ ∅, [])
    = Ok (self',
          {["checkpoints/weights_out" +:+ "_4.p"]}
          ∪ ({["checkpoints/weights_out" +:+ "_2.p"]}
             ∪ ({["checkpoints/weights_out" +:+ "_1.p"]}
                ∪ ({["checkpoints"]} ∪ ∅))),
          evs)
    ∧ [(example_weights 1, example_logs 5);
       (example_weights 2, example_logs 3);
       (example_weights 3, example_logs 4);
       (example_weights 4, example_logs 2)].*1 = [w1; w2; w3; w4]
    ∧ saved_snapshots evs
      = [(w1, "checkpoints/weights_out" +:+ "_1.p");
         (w2, "checkpoints/weights_out" +:+ "_2.p");
         (w4, "checkpoints/weights_out" +:+ "_4.p")]
    ∧ removed_paths evs = []
    ∧ best self' = Fin 2.
Proof.
  apply (best_only_saves_on_improvement "checkpoints/weights_out" "val_loss"
           0 ∅ example_model _ _ _ [MakeDirs "checkpoints"]).
  - reflexivity.
  - repeat constructor.
Defined.



Lemma init_raises_iff_no_directory_witness :
  ∃ self disk' evs,
    __init__ "checkpoints/weights_out" "val_acc" 0 false "best" 1 (-1) ∅
    = Ok (self, disk', evs)
    ∧ last evs = Some (WarnUnknownMode "ModelCheckpoint" "best")
    ∧ mode self = "auto"
    ∧ (monitor_op self, best self) = (Greater, NInf).
Proof.
  apply (proj2 (init_raises_iff_no_directory "checkpoints/weights_out"
                  "val_acc" 0 false "best" 1 (-1) ∅)
           "checkpoints" "weights_out").
  - reflexivity.
  - discriminate.
  - rewrite !elem_of_cons. intros [H|[H|[H|H]]]; try discriminate.
    by apply elem_of_nil in H.
Defined.

End ModelCheckpointFacts.

Module HistoryFacts.
Import History.

(** Recording a logs dict appends each of its values under its key and
    leaves the other keys alone. *)
Lemma record_lookup logs h k :
  record logs h !! k
  = match logs !! k with
    | Some v => Some (default [] (h !! k) ++ [v])
    | None => h !! k
    end.
Proof.
  unfold record. revert k.
  apply (map_fold_weak_ind
           (λ r (m : gmap string (option pyfloat)),
              ∀ k, r !! k = match m !! k with
                            | Some v => Some (default [] (h !! k) ++ [v])
                            | None => h !! k
                            end)).
  - intros k. by rewrite lookup_empty.
  - intros i x m r Hi IH k. rewrite setdefault_append_lookup, lookup_insert.
    destruct (decide (i = k)) as [->|Hne]; [|apply IH].
    by rewrite IH, Hi.
Qed.

Lemma run_history calls model k :
  epoch (run calls model) = epoch model ++ calls.*1
  ∧ default [] (history (run calls model) !! k)
    = default [] (history model !! k) ++ recorded_twice k calls.*2.
Proof.
  revert model. induction calls as [|[e logs] calls IH]; intros model.
  - cbn. by rewrite !app_nil_r.
  - cbn [run]. destruct (IH (on_epoch_end e logs (on_epoch_begin e logs model)))
      as [IHe IHh].
    rewrite IHe, IHh. cbn. rewrite <- (assoc_L (++)). split; [done|].
    rewrite !record_lookup.
    destruct (logs !! k) as [v|]; cbn; [|done].
    by rewrite <- !(assoc_L (++)).
Qed.

Lemma recorded_twice_length k eps :
  length (recorded_twice k eps)
  = 2 * length (filter (λ logs, is_Some (logs !! k)) eps).
Proof.
  unfold recorded_twice. induction eps as [|logs eps IH]; [done|].
  cbn [mbind list_bind]. rewrite length_app, IH, filter_cons.
  destruct (logs !! k) as [v|] eqn:Hk.
  - rewrite decide_True by eauto. cbn. lia.
  - rewrite decide_False by (by intros [? ?]). done.
Qed.

(** C3. After [on_train_begin] and both epoch hooks for the epochs
    [0..N-1], each epoch with its own logs: the model's epoch list is
    [0; ...; N-1], and under every key the history holds each epoch's
    value twice in epoch order, so its length is twice the number of
    epochs whose logs had the key. *)
Theorem history_records_each_value_twice (model : Model)
    (eps : list (gmap string (option pyfloat))) (k : string) :
  let model' := train model eps in
  epoch model' = Z.of_nat <$> seq 0 (length eps)
  ∧ default [] (history model' !! k) = recorded_twice k eps
  ∧ length (default [] (history model' !! k))
    = 2 * length (filter (λ logs, is_Some (logs !! k)) eps).
Proof.
  intros model'. unfold model', train.
  destruct (run_history (enumerate_from 0 eps) (on_train_begin model) k)
    as [He Hh].
  rewrite He, Hh, enumerate_from_fst, enumerate_from_snd. cbn.
  rewrite lookup_empty. cbn. split; [|split].
  - apply list_fmap_ext. intros _ n _. lia.
  - done.
  - apply recorded_twice_length.
Qed.

End HistoryFacts.

Module LRHistoryFacts.
Import LRHistory.

Lemma group_key_inj : Inj (=) (=) group_key.
Proof.
  intros g g' H. unfold group_key in H. cbn [str_join] in H.
  apply (inj (String.app "lr")) in H. apply (inj (String.app "_")) in H.
  by apply (inj pretty) in H.
Qed.

(** [_save_group_lr] appends the rate of group [g], when the optimizer has
    such a group, under the group's key. *)
Lemma save_groups_lookup gs idx h g :
  save_groups idx gs None h !! group_key g
  = match (if decide (idx ≤ g) then gs !! (g - idx) else None) with
    | Some v => Some (default [] (h !! group_key g) ++ [v])
    | None => h !! group_key g
    end.
Proof.
  revert idx h. induction gs as [|lr gs IH]; intros idx h.
  - cbn. by destruct (decide (idx ≤ g)).
  - cbn [save_groups]. fold (group_key idx). rewrite IH.
    rewrite !setdefault_append_lookup.
    assert (Hkey : ∀ X Y : option (list pyfloat),
              idx ≠ g →
              (if decide (group_key idx = group_key g) then X else Y) = Y).
    { intros X Y Hne. apply decide_False. intros ?%group_key_inj. lia. }
    destruct (decide (S idx ≤ g)) as [Hlt|Hge].
    + rewrite (decide_True (P := idx ≤ g)) by lia.
      rewrite Hkey by lia.
      replace (g - idx) with (S (g - S idx)) by lia. done.
    + destruct (decide (idx ≤ g)) as [Hle|Hgt].
      * assert (g = idx) as -> by lia.
        rewrite (decide_True (P := group_key idx = group_key idx)) by done.
        by rewrite Nat.sub_diag.
      * by rewrite Hkey by lia.
Qed.

Lemma save_groups_recorded gs h g :
  default [] (save_groups 0 gs None h !! group_key g)
  = default [] (h !! group_key g) ++ omap (.!! g) [gs].
Proof.
  rewrite save_groups_lookup, decide_True, Nat.sub_0_r by lia. cbn.
  destruct (gs !! g); cbn; by rewrite ?app_nil_r.
Qed.

(** *** The hooks with a single scheduler *)

Lemma single_not_multiple model cyc :
  single_scheduler model cyc →
  bool_decide (is_Some (lr_scheduler model)) = true
  ∧ _multiple_scheduler model = false.
Proof.
  intros [(sched & Hs & Hname) _]. unfold _multiple_scheduler. rewrite Hs.
  split; [by apply bool_decide_eq_true_2|].
  by apply String.eqb_neq in Hname as ->.
Qed.

Lemma epoch_begin_single self e model cyc :
  single_scheduler model cyc →
  on_epoch_begin self e model
  = if (e =? 0)%Z then
      if cyc then Ok (set_lr_history ∅ model)
      else _save_group_lr (param_groups (optimizer model)) None
             (set_lr_history ∅ model)
    else Ok model.
Proof.
  intros Hs. destruct (single_not_multiple _ _ Hs) as [Hsome Hmulti].
  destruct Hs as [_ <-]. unfold on_epoch_begin. rewrite Hsome.
  destruct (e =? 0)%Z; [|done]. cbn [andb].
  unfold _multiple_scheduler in *. cbn [lr_scheduler set_lr_history].
  rewrite Hmulti. cbn. by destruct (cyclic_lr model).
Qed.

Lemma batch_end_single self b model cyc :
  single_scheduler model cyc →
  on_batch_end self b model
  = if cyc then _save_group_lr (param_groups (optimizer model)) None model
    else Ok model.
Proof.
  intros Hs. destruct (single_not_multiple _ _ Hs) as [Hsome Hmulti].
  destruct Hs as [_ <-]. unfold on_batch_end. rewrite Hsome, Hmulti. done.
Qed.

Lemma epoch_end_single self e model cyc :
  single_scheduler model cyc →
  on_epoch_end self e model
  = if (e =? n_epochs self - 1)%Z then Ok model
    else if cyc then Ok model
    else _save_group_lr (param_groups (optimizer model)) None model.
Proof.
  intros Hs. destruct (single_not_multiple _ _ Hs) as [Hsome Hmulti].
  destruct Hs as [_ <-]. unfold on_epoch_end. rewrite Hsome, Hmulti.
  destruct (e =? n_epochs self - 1)%Z; [done|]. cbn.
  by destruct (cyclic_lr model).
Qed.

Lemma single_set_optimizer model cyc opt :
  single_scheduler model cyc → single_scheduler (set_optimizer opt model) cyc.
Proof. done. Qed.

Lemma single_set_lr_history model cyc h :
  single_scheduler model cyc → single_scheduler (set_lr_history h model) cyc.
Proof. done. Qed.

(** *** Whole epochs *)

Lemma run_batches_single self i (l : list (list pyfloat)) model cyc g :
  single_scheduler model cyc →
  ∃ model',
    run_batches self (enumerate_from i (plain <$> l)) model = Ok model'
    ∧ single_scheduler model' cyc
    ∧ default [] (lr_history model' !! group_key g)
      = default [] (lr_history model !! group_key g)
        ++ (if cyc then omap (.!! g) l else []).
Proof.
  revert i model. induction l as [|gs l IH]; intros i model Hs.
  - exists model. cbn. destruct cyc; by rewrite app_nil_r.
  - cbn [fmap list_fmap enumerate_from run_batches].
    rewrite (batch_end_single _ _ _ cyc) by done.
    destruct cyc; cbn [bind _save_group_lr set_optimizer optimizer plain
                       param_groups].
    + edestruct (IH (i + 1)%Z) as (m' & -> & Hs' & Hh); [|exists m'].
      { apply single_set_lr_history, (single_set_optimizer _ _ (plain gs)), Hs. }
      split; [done|]. split; [done|]. rewrite Hh. cbn [lr_history set_lr_history].
      rewrite save_groups_recorded. cbn [lr_history set_optimizer].
      rewrite <- (assoc_L (++)). f_equal. cbn. by destruct (gs !! g).
    + edestruct (IH (i + 1)%Z) as (m' & -> & Hs' & Hh); [|exists m'].
      { apply (single_set_optimizer _ _ (plain gs)), Hs. }
      done.
Qed.

Lemma epoch_step_single self e d model cyc g :
  single_scheduler model cyc →
  ∃ model',
    epoch_step self (e, of_plain d) model = Ok model'
    ∧ single_scheduler model' cyc
    ∧ default [] (lr_history model' !! group_key g)
      = (if (e =? 0)%Z then []
         else default [] (lr_history model !! group_key g))
        ++ (if cyc then omap (.!! g) (lr_batches d)
            else (if (e =? 0)%Z then omap (.!! g) [lr_begin d] else [])
                 ++ (if (e =? n_epochs self - 1)%Z then []
                     else omap (.!! g) [lr_end d])).
Proof.
  intros Hs. cbn [epoch_step of_plain at_begin at_batches at_end].
  rewrite (epoch_begin_single _ _ _ cyc)
    by apply (single_set_optimizer _ _ (plain (lr_begin d))), Hs.
  set (m1 := set_optimizer (plain (lr_begin d)) model).
  assert (∃ m2, (if (e =? 0)%Z
                 then if cyc then Ok (set_lr_history ∅ m1)
                      else _save_group_lr (param_groups (optimizer m1)) None
                             (set_lr_history ∅ m1)
                 else Ok m1) = Ok m2
                ∧ single_scheduler m2 cyc
                ∧ default [] (lr_history m2 !! group_key g)
                  = (if (e =? 0)%Z then []
                     else default [] (lr_history model !! group_key g))
                    ++ (if cyc then []
                        else if (e =? 0)%Z then omap (.!! g) [lr_begin d]
                             else []))
    as (m2 & -> & Hs2 & Hh2).
  { destruct (e =? 0)%Z; [destruct cyc|].
    - eexists. split; [done|]. split; [done|]. cbn. by rewrite lookup_empty.
    - eexists. split; [done|]. split; [done|].
      cbn [lr_history set_lr_history]. rewrite save_groups_recorded.
      by rewrite lookup_empty.
    - exists m1. split; [done|]. split; [done|].
      destruct cyc; by rewrite app_nil_r. }
  cbn [bind].
  destruct (run_batches_single self 0 (lr_batches d) m2 cyc g Hs2)
    as (m3 & -> & Hs3 & Hh3).
  cbn [bind].
  rewrite (epoch_end_single _ _ _ cyc)
    by apply (single_set_optimizer _ _ (plain (lr_end d))), Hs3.
  destruct (e =? n_epochs self - 1)%Z; [|destruct cyc].
  - eexists. split; [done|]. split; [done|].
    cbn [lr_history set_optimizer]. rewrite Hh3, Hh2.
    destruct cyc; by rewrite ?app_nil_r, <- ?(assoc_L (++)).
  - eexists. split; [done|]. split; [done|].
    cbn [lr_history set_optimizer]. rewrite Hh3, Hh2.
    by rewrite ?app_nil_r.
  - eexists. split; [done|]. split; [done|].
    cbn [lr_history set_lr_history set_optimizer optimizer plain param_groups
         _save_group_lr].
    rewrite save_groups_recorded. cbn [lr_history set_optimizer].
    rewrite Hh3, Hh2. by rewrite ?app_nil_r, <- ?(assoc_L (++)).
Qed.

Lemma all_but_last_cons {A} (x y : A) (l : list A) :
  all_but_last (x :: y :: l) = x :: all_but_last (y :: l).
Proof. unfold all_but_last. cbn. by rewrite Nat.sub_0_r. Qed.

Lemma all_but_last_length {A} (l : list A) :
  length (all_but_last l) = length l - 1.
Proof. unfold all_but_last. rewrite length_take. lia. Qed.

Lemma run_noncyclic self i (l : list plain_epoch) model g :
  single_scheduler model false →
  (1 ≤ i)%Z →
  (i + Z.of_nat (length l))%Z = n_epochs self →
  ∃ model',
    run self (enumerate_from i (of_plain <$> l)) model = Ok model'
    ∧ default [] (lr_history model' !! group_key g)
      = default [] (lr_history model !! group_key g)
        ++ omap (.!! g) (lr_end <$> all_but_last l).
Proof.
  revert i model. induction l as [|d l IH]; intros i model Hs Hi Hn.
  - exists model. cbn. by rewrite app_nil_r.
  - cbn [fmap list_fmap enumerate_from run].
    destruct (epoch_step_single self i d model false g Hs)
      as (m1 & -> & Hs1 & Hh1).
    cbn [bind]. destruct (Z.eqb_spec i 0) as [?|_]; [lia|].
    destruct (IH (i + 1)%Z m1) as (m2 & -> & Hh2);
      [done | lia | cbn [length] in Hn; lia |].
    exists m2. split; [done|]. rewrite Hh2, Hh1.
    destruct l as [|d' l].
    + cbn [length] in Hn.
      destruct (Z.eqb_spec i (n_epochs self - 1)) as [_|?]; [|lia].
      cbn. by rewrite !app_nil_r.
    + cbn [length] in Hn.
      destruct (Z.eqb_spec i (n_epochs self - 1)) as [?|_]; [lia|].
      rewrite all_but_last_cons. cbn [fmap list_fmap].
      rewrite <- (assoc_L (++)). f_equal. cbn [app].
      symmetry. apply (omap_app _ [lr_end d]).
Qed.


Lemma omap_lookup_length (g : nat) (l : list (list pyfloat)) :
  Forall (λ gs, g < length gs) l → length (omap (.!! g) l) = length l.
Proof.
  induction 1 as [|gs l Hg _ IH]; [done|]. cbn.
  destruct (lookup_lt_is_Some_2 gs g Hg) as [v ->]. cbn. by rewrite IH.
Qed.

(** C4. With a single non-cyclic scheduler and [n_epochs] equal to the
    number of epochs run, the sequence recorded for a parameter group
    holds the group's rate at the begin of epoch 0 and at the end of every
    epoch but the last: one value per epoch in all. [on_batch_end] records
    nothing. *)
Theorem noncyclic_records_once_per_epoch (self : t) (model : Model)
    (d : plain_epoch) (eps : list plain_epoch) (g : nat) :
  single_scheduler model false →
  n_epochs self = Z.of_nat (length (d :: eps)) →
  ∃ model',
    train self model (of_plain <$> d :: eps) = Ok model'
    ∧ default [] (lr_history model' !! group_key g)
      = omap (.!! g) (noncyclic_points (d :: eps))
    ∧ length (noncyclic_points (d :: eps)) = length (d :: eps)
    ∧ (Forall (λ gs, g < length gs) (noncyclic_points (d :: eps)) →
       length (default [] (lr_history model' !! group_key g))
       = length (d :: eps))
    ∧ (∀ b m, single_scheduler m false → on_batch_end self b m = Ok m).
Proof.
  intros Hs Hn. unfold train.
  cbn [fmap list_fmap enumerate_from run].
  destruct (epoch_step_single self 0 d model false g Hs)
    as (m1 & -> & Hs1 & Hh1).
  cbn [bind]. change (0 =? 0)%Z with true in Hh1. cbn iota in Hh1.
  destruct (run_noncyclic self (0 + 1) eps m1 g Hs1) as (m2 & -> & Hh2);
    [lia | cbn [length] in Hn; lia |].
  assert (Hlen : length (noncyclic_points (d :: eps)) = length (d :: eps)).
  { unfold noncyclic_points. cbn [length].
    rewrite length_fmap, all_but_last_length. cbn. lia. }
  assert (Hrec : default [] (lr_history m2 !! group_key g)
                 = omap (.!! g) (noncyclic_points (d :: eps))).
  { rewrite Hh2, Hh1. unfold noncyclic_points. cbn [length] in Hn.
    destruct eps as [|d' eps].
    - destruct (Z.eqb_spec 0 (n_epochs self - 1)) as [_|?];
        [|cbn in Hn; lia].
      cbn. by rewrite !app_nil_r.
    - destruct (Z.eqb_spec 0 (n_epochs self - 1)) as [?|_];
        [cbn [length] in Hn; lia|].
      rewrite all_but_last_cons. cbn [fmap list_fmap app].
      rewrite <- (assoc_L (++)).
      change (lr_begin d :: lr_end d :: ?x)
        with ([lr_begin d] ++ [lr_end d] ++ x).
      by rewrite !omap_app. }
  exists m2. split; [done|]. split; [done|]. split; [done|]. split.
  - intros Hall. by rewrite Hrec, omap_lookup_length.
  - intros b m Hm. by rewrite (batch_end_single _ _ _ false).
Qed.

Lemma noncyclic_records_once_per_epoch_witness :
  ∃ model',
    train (mk 2) (example_scheduled_model "StepLR" false)
      (of_plain <$> example_epochs) = Ok model'
    ∧ default [] (lr_history model' !! group_key 1)
      = omap (.!! 1) (noncyclic_points example_epochs)
    ∧ length (noncyclic_points example_epochs) = length example_epochs
    ∧ (Forall (λ gs, 1 < length gs) (noncyclic_points example_epochs) →
       length (default [] (lr_history model' !! group_key 1))
       = length example_epochs)
    ∧ (∀ b m, single_scheduler m false → on_batch_end (mk 2) b m = Ok m).
Proof.
  apply (noncyclic_records_once_per_epoch (mk 2)
           (example_scheduled_model "StepLR" false)).
  - split; [|reflexivity]. eexists. split; [reflexivity | discriminate].
  - reflexivity.
Defined.



End LRHistoryFacts.

(** ** The callback container *)

Module CallbackContainerFacts.
Import CallbackContainer.

Section Dispatch.
Context {V W : Type}.
Implicit Types (cs : list (Callback.t V W)) (logs : gmap string V) (w : W).

Lemma forward_app hook cs1 cs2 logs w :
  forward hook (cs1 ++ cs2) logs w
  = and_then (forward hook cs1 logs w) (forward hook cs2).
Proof.
  revert logs w. induction cs1 as [|c cs1 IH]; intros logs w; [done|].
  cbn. destruct (hook c logs w); [apply IH | done].
Qed.



Lemma forward_reads_only hook cs logs w :
  Forall (λ c, reads_only (hook c)) cs →
  forward hook cs logs w = forward_same hook cs logs w.
Proof.
  intros Hall. revert w. induction Hall as [|c cs Hc _ IH]; intros w; [done|].
  cbn. specialize (Hc logs w). destruct (hook c logs w); [|done].
  subst. apply IH.
Qed.

(** X2. [on_train_begin] puts the current time under [start_time] before
    it forwards; when no callback's [on_train_begin] changes the dict,
    every callback is called with that same stamped dict. *)
Theorem train_begin_stamps_start_time cs (q : Z)
    (logs : option (gmap string V)) (now : V) w :
  Forall (λ c, reads_only (Callback.on_train_begin c)) cs →
  on_train_begin (mk cs q) logs now w
  = forward_same Callback.on_train_begin cs
      (<["start_time" := now]> (logs_or_empty logs)) w
  ∧ <["start_time" := now]> (logs_or_empty logs) !! "start_time" = Some now.
Proof.
  intros Hall. split; [|apply lookup_insert_eq].
  unfold on_train_begin. cbn [callbacks]. by apply forward_reads_only.
Qed.

Lemma forward_skip_pass hook cs1 cs2 (c : Callback.t V W) logs w :
  (∀ l w', hook c l w' = Callback.Done l w') →
  forward hook (cs1 ++ c :: cs2) logs w = forward hook (cs1 ++ cs2) logs w.
Proof.
  intros Hc. rewrite !forward_app. destruct (forward hook cs1 logs w); [|done].
  cbn. by rewrite Hc.
Qed.

(** X3. A callback that keeps the base class's hooks can be registered
    anywhere without changing what any hook of the container does. *)
Theorem base_callback_is_transparent cs1 cs2 (q : Z) (i : Z)
    (logs : option (gmap string V)) (now : V) w :
  on_epoch_begin (mk (cs1 ++ Callback.base :: cs2) q) i logs w
  = on_epoch_begin (mk (cs1 ++ cs2) q) i logs w
  ∧ on_epoch_end (mk (cs1 ++ Callback.base :: cs2) q) i logs w
    = on_epoch_end (mk (cs1 ++ cs2) q) i logs w
  ∧ on_batch_begin (mk (cs1 ++ Callback.base :: cs2) q) i logs w
    = on_batch_begin (mk (cs1 ++ cs2) q) i logs w
  ∧ on_batch_end (mk (cs1 ++ Callback.base :: cs2) q) i logs w
    = on_batch_end (mk (cs1 ++ cs2) q) i logs w
  ∧ on_train_begin (mk (cs1 ++ Callback.base :: cs2) q) logs now w
    = on_train_begin (mk (cs1 ++ cs2) q) logs now w
  ∧ on_train_end (mk (cs1 ++ Callback.base :: cs2) q) logs w
    = on_train_end (mk (cs1 ++ cs2) q) logs w.
Proof.
  unfold on_epoch_begin, on_epoch_end, on_batch_begin, on_batch_end,
    on_train_begin, on_train_end. cbn [callbacks].
  repeat split; by apply forward_skip_pass.
Qed.

End Dispatch.

Lemma train_begin_stamps_start_time_witness :
  on_train_begin (V := Z) (W := list Z)
    (mk [Callback.base;
         Callback.mk (λ _, Callback.Done) (λ _, Callback.Done)
           (λ _, Callback.Done) (λ _, Callback.Done)
           (λ logs w,
              Callback.Done logs (default 0%Z (logs !! "start_time") :: w))
           Callback.Done] 10)
    None 7%Z []
  = forward_same Callback.on_train_begin
      [Callback.base;
       Callback.mk (λ _, Callback.Done) (λ _, Callback.Done)
         (λ _, Callback.Done) (λ _, Callback.Done)
         (λ logs w,
            Callback.Done logs (default 0%Z (logs !! "start_time") :: w))
         Callback.Done]
      (<["start_time" := 7%Z]> (logs_or_empty None)) []
  ∧ <["start_time" := 7%Z]> (logs_or_empty None) !! "start_time" = Some 7%Z.
Proof.
  apply (train_begin_stamps_start_time (V := Z) (W := list Z)).
  repeat constructor; intros logs w; reflexivity.
Defined.

End CallbackContainerFacts.

(** ** More on EarlyStopping *)

Module EarlyStoppingExtra.
Import EarlyStopping EarlyStoppingFacts.

Lemma epoch_end_absent self e logs model :
  logs_get logs (monitor self) = None →
  on_epoch_end self e logs model
  = Ok (self, model, [WarnMetricUnavailable (monitor self) (dom logs)]).
Proof. intros H. unfold on_epoch_end, get_monitor_value. by rewrite H. Qed.


(** *** What a call can do *)

(** Whatever the logs, a call on a callback whose [best] is set returns;
    it never touches the configuration, [best] stays set, and [wait]
    either restarts from 0 or grows by one. *)
Lemma epoch_end_total self e logs model b :
  best self = Some b →
  ∃ self' model' evs,
    on_epoch_end self e logs model = Ok (self', model', evs)
    ∧ same_config self self'
    ∧ baseline self' = baseline self
    ∧ is_Some (best self')
    ∧ (wait self' = 0 ∨ wait self' = wait self ∨ wait self' = wait self + 1)%Z
    ∧ (early_stop model = true → early_stop model' = true)
    ∧ ((wait self + 1 < patience self)%Z →
       early_stop model' = early_stop model
       ∧ weights model' = weights model
       ∧ stopped_epoch self' = stopped_epoch self
       ∧ loaded_dicts evs = []).
Proof.
  intros Hb. destruct (logs_get logs (monitor self)) as [cur|] eqn:Hget.
  - destruct (call_op (monitor_op self) (fsub cur (min_delta self)) b)
      eqn:Hop.
    + rewrite (epoch_end_improves _ _ _ _ cur b) by done.
      eexists _, _, _. split; [done|].
      destruct (restore_best_weights self) eqn:Hr; cbn; rewrite ?Hr;
        repeat split; eauto.
    + destruct (Z.lt_ge_cases (wait self + 1) (patience self)).
      * rewrite (epoch_end_waits _ _ _ _ cur b) by done.
        eexists _, _, _. split; [done|]. cbn. rewrite Hb.
        repeat split; eauto.
      * rewrite (epoch_end_stops _ _ _ _ cur b) by done.
        eexists _, _, _. split; [done|]. cbn. rewrite Hb.
        split; [by repeat split|]. split; [done|]. split; [eauto|].
        split; [eauto|]. split; [|lia].
        intros _. destruct (restore_best_weights self); [|done].
        by destruct (state_dict self).
  - rewrite epoch_end_absent by done.
    eexists _, _, _. split; [done|]. rewrite Hb.
    repeat split; eauto.
Qed.

Lemma run_short calls self model evs :
  is_Some (best self) →
  (0 ≤ wait self)%Z →
  (wait self + Z.of_nat (length calls) < patience self)%Z →
  ∃ self' model' evs',
    run calls (self, model, evs) = Ok (self', model', evs')
    ∧ early_stop model' = early_stop model
    ∧ loaded_dicts evs' = loaded_dicts evs
    ∧ stopped_epoch self' = stopped_epoch self
    ∧ weights model' = default (weights model) (last calls.*2.*1).
Proof.
  revert self model evs.
  induction calls as [|[e [w logs]] calls IH];
    intros self model evs [b Hb] Hw Hlt.
  - eexists _, _, _. by split.
  - cbn [length] in Hlt. cbn [run epoch_step].
    destruct (epoch_end_total self e logs (set_weights w model) b Hb)
      as (s1 & m1 & ev1 & -> & Hcfg & _ & Hbest & Hwait & _ & Hquiet).
    destruct Hquiet as (Hes & Hws & Hse & Hld); [lia|].
    destruct Hcfg as (_ & _ & _ & _ & Hpat & _).
    cbn [bind].
    destruct (IH s1 m1 (evs ++ ev1)) as (s2 & m2 & ev2 & -> & Hes2 & Hld2 & Hse2 & Hws2);
      [done | lia | lia |].
    eexists _, _, _. split; [done|].
    rewrite Hes2, Hes, Hld2, Hse2, Hse, Hws2, Hws.
    unfold loaded_dicts in *. rewrite omap_app, Hld, app_nil_r.
    repeat split. cbn [fmap list_fmap fst snd].
    destruct calls as [|c calls]; [done|]. cbn [fmap list_fmap].
    rewrite (last_cons_cons w).
    destruct (last (c.2.1 :: calls.*2.*1)) eqn:Hlast; [done|].
    by apply last_None in Hlast.
Qed.

(** X5. A session with fewer epochs than [patience] never stops early:
    whatever the logs, the stop flag is left as it was, no weights are
    loaded, and the model ends with the weights of its last epoch. *)
Theorem short_training_never_stops (self : t) (model : Model)
    (eps : list (StateDict * gmap string (option pyfloat))) :
  (Z.of_nat (length eps) < patience self)%Z →
  ∃ self' model' evs,
    train self model eps = Ok (self', model', evs)
    ∧ early_stop model' = early_stop model
    ∧ loaded_dicts evs = []
    ∧ stopped_epoch self' = 0%Z
    ∧ weights model' = default (weights model) (last eps.*1).
Proof.
  intros Hlt. unfold train.
  destruct (run_short (enumerate_from 0 eps) (on_train_begin self) model [])
    as (s & m & evs & Hrun & Hes & Hld & Hse & Hws).
  - unfold on_train_begin. destruct (baseline _); cbn; eauto.
  - unfold on_train_begin. by destruct (baseline _).
  - rewrite enumerate_from_length.
    assert (patience (on_train_begin self) = patience self) as ->; [|
    assert (wait (on_train_begin self) = 0%Z) as ->; [|lia]];
      unfold on_train_begin; by destruct (baseline _).
  - exists s, m, evs. rewrite enumerate_from_snd in Hws.
    repeat split; try done. rewrite Hse.
    unfold on_train_begin. by destruct (baseline _).
Qed.

Lemma short_training_never_stops_witness :
  ∃ self' model' evs,
    train untriggered_callback example_model untriggered_epochs
    = Ok (self', model', evs)
    ∧ early_stop model' = early_stop example_model
    ∧ loaded_dicts evs = []
    ∧ stopped_epoch self' = 0%Z
    ∧ weights model'
      = default (weights example_model) (last untriggered_epochs.*1).
Proof.
  apply (short_training_never_stops untriggered_callback example_model
           untriggered_epochs).
  reflexivity.
Defined.

(** *** Epochs without the metric *)

Lemma epoch_step_verdict c self m1 m2 ev1 ev2 :
  is_Some (best self) →
  early_stop m1 = early_stop m2 →
  ∃ s' m1' m2' ev1' ev2',
    epoch_step c (self, m1, ev1) = Ok (s', m1', ev1')
    ∧ epoch_step c (self, m2, ev2) = Ok (s', m2', ev2')
    ∧ early_stop m1' = early_stop m2'
    ∧ monitor s' = monitor self
    ∧ is_Some (best s').
Proof.
  intros [b Hb] Hes. destruct c as [e [w logs]]. cbn [epoch_step].
  destruct (logs_get logs (monitor self)) as [cur|] eqn:Hget.
  - destruct (call_op (monitor_op self) (fsub cur (min_delta self)) b)
      eqn:Hop.
    + rewrite !(epoch_end_improves _ _ _ _ cur b) by done. cbn.
      eexists _, _, _, _, _. do 2 (split; [done|]).
      destruct (restore_best_weights self); cbn; eauto.
    + destruct (Z.lt_ge_cases (wait self + 1) (patience self)).
      * rewrite !(epoch_end_waits _ _ _ _ cur b) by done. cbn.
        eexists _, _, _, _, _. do 2 (split; [done|]). cbn. eauto.
      * rewrite !(epoch_end_stops _ _ _ _ cur b) by done. cbn.
        eexists _, _, _, _, _. do 2 (split; [done|]). cbn.
        split; [|eauto].
        destruct (restore_best_weights self); [|done].
        by destruct (state_dict self).
  - rewrite !epoch_end_absent by done. cbn.
    eexists _, _, _, _, _. do 2 (split; [done|]). cbn. eauto.
Qed.

Lemma epoch_step_absent e w logs self model evs :
  logs_get logs (monitor self) = None →
  epoch_step (e, (w, logs)) (self, model, evs)
  = Ok (self, set_weights w model,
        evs ++ [WarnMetricUnavailable (monitor self) (dom logs)]).
Proof. intros H. cbn [epoch_step]. by rewrite epoch_end_absent. Qed.

Lemma run_skips_absent mon calls self m1 m2 ev1 ev2 :
  monitor self = mon →
  is_Some (best self) →
  early_stop m1 = early_stop m2 →
  Sessions.verdict (run calls (self, m1, ev1))
  = Sessions.verdict
      (run (filter (λ c, is_Some (logs_get c.2.2 mon)) calls) (self, m2, ev2)).
Proof.
  revert self m1 m2 ev1 ev2.
  induction calls as [|[e [w logs]] calls IH];
    intros self m1 m2 ev1 ev2 Hmon Hbest Hes.
  - cbn. by rewrite Hes.
  - rewrite filter_cons. cbn [snd].
    destruct (decide (is_Some (logs_get logs mon))) as [Hsome|Hnone].
    + cbn [run].
      destruct (epoch_step_verdict (e, (w, logs)) self m1 m2 ev1 ev2)
        as (s' & m1' & m2' & ev1' & ev2' & -> & -> & Hes' & Hmon' & Hb');
        [done | done |].
      cbn [bind]. apply IH; [congruence | done | done].
    + cbn [run]. rewrite epoch_step_absent.
      * cbn [bind]. by apply IH.
      * rewrite Hmon. destruct (logs_get logs mon); [|done].
        destruct Hnone. eauto.
Qed.

(** X6. Epochs whose logs lack the monitored metric do not count: the
    attributes of the callback and the stop flag after a session are the
    same as after the session without those epochs. *)
Theorem epochs_without_metric_are_skipped (self : t) (model : Model)
    (calls : list (Z * (StateDict * gmap string (option pyfloat)))) :
  Sessions.verdict (run calls (on_train_begin self, model, []))
  = Sessions.verdict
      (run (filter (λ c, is_Some (logs_get c.2.2 (monitor self))) calls)
         (on_train_begin self, model, [])).
Proof.
  apply run_skips_absent; [| |done];
    unfold on_train_begin; destruct (baseline _); cbn; eauto.
Qed.

(** *** What [on_train_begin] leaves alone *)

(** X7. [on_train_begin] resets [wait], [stopped_epoch] and [best] but
    not the snapshot: when a re-used instance with
    [restore_best_weights=True] meets a baseline that none of the first
    [patience] epochs beats, the model is given the snapshot the instance
    already held, whatever session took it. *)
Theorem reused_instance_restores_old_snapshot (self : t) (model : Model)
    (eps : list (StateDict * gmap string (option pyfloat))) (b : pyfloat) :
  restore_best_weights self = true →
  baseline self = Some b →
  (1 ≤ patience self)%Z →
  Z.of_nat (length eps) = patience self →
  Forall (λ ep, stalls self b ep.2) eps →
  ∃ self' model',
    train self model eps
    = Ok (self', model',
          (if (verbose self >? 0)%Z then [PrintRestoring] else [])
          ++ [LoadStateDict (state_dict self)])
    ∧ state_dict self' = state_dict self
    ∧ early_stop model' = true
    ∧ (∀ snap, state_dict self = Some snap → weights model' = snap).
Proof.
  intros Hres Hbase Hpat Hlen Hall.
  destruct eps as [|last init _] using rev_ind; [cbn in Hlen; lia|].
  clear Hpat. rewrite length_app in Hlen. cbn in Hlen.
  apply Forall_app in Hall as [Hinit Hlast].
  apply Forall_cons in Hlast as [(v & Hget & Hop) _].
  set (s0 := on_train_begin self).
  assert (Hs0 : s0 = set_best (Some b)
                       (set_stopped_epoch 0 (set_wait 0 self))).
  { unfold s0, on_train_begin. cbn. by rewrite Hbase. }
  unfold train. fold s0.
  rewrite enumerate_from_app, run_app.
  rewrite (run_stalls _ s0 model [] b).
  - cbn [bind run epoch_step enumerate_from].
    destruct last as [w logs]. cbn in Hget, Hop.
    rewrite (epoch_end_stops _ _ _ _ v b).
    + rewrite Hs0. cbn. rewrite Hres. cbn.
      eexists _, _. split; [reflexivity|]. cbn.
      split; [done|]. split; [by destruct (state_dict self)|].
      by intros snap ->.
    + by rewrite Hs0.
    + by rewrite Hs0.
    + by rewrite Hs0.
    + rewrite Hs0. cbn. rewrite enumerate_from_length. lia.
  - by rewrite Hs0.
  - rewrite Hs0. cbn.
    by apply (Forall_enumerate_from (λ ep, stalls self b ep.2)).
  - rewrite Hs0. cbn. rewrite enumerate_from_length. lia.
Qed.

Lemma reused_instance_restores_old_snapshot_witness :
  ∃ self' model',
    train (set_state_dict (Some (example_weights 7))
             (__init__ "val_loss" (Fin 0) 2 0 "min" (Some (Fin 0)) true).1)
      example_model
      [(example_weights 0, example_logs 1);
       (example_weights 1, example_logs 1)]
    = Ok (self', model', [] ++ [LoadStateDict (Some (example_weights 7))])
    ∧ state_dict self' = Some (example_weights 7)
    ∧ early_stop model' = true
    ∧ (∀ snap, Some (example_weights 7) = Some snap → weights model' = snap).
Proof.
  apply (reused_instance_restores_old_snapshot
           (set_state_dict (Some (example_weights 7))
              (__init__ "val_loss" (Fin 0) 2 0 "min" (Some (Fin 0)) true).1)
           example_model
           [(example_weights 0, example_logs 1);
            (example_weights 1, example_logs 1)] (Fin 0)).
  - reflexivity.
  - reflexivity.
  - cbn. lia.
  - reflexivity.
  - repeat constructor; exists (Fin 1); split; reflexivity.
Defined.

(** X8. The callback never clears the model's stop flag: neither
    [on_train_begin], which does not touch the model, nor any sequence of
    [on_epoch_end] calls. *)
Theorem stop_flag_is_never_cleared (self : t) (model : Model)
    (calls : list (Z * (StateDict * gmap string (option pyfloat))))
    (self' : t) (model' : Model) (evs : list event) :
  early_stop model = true →
  run calls (on_train_begin self, model, []) = Ok (self', model', evs) →
  early_stop model' = true.
Proof.
  assert (Hgen : ∀ calls s m ev s' m' ev',
            is_Some (best s) → early_stop m = true →
            run calls (s, m, ev) = Ok (s', m', ev') → early_stop m' = true).
  { clear. induction calls as [|[e [w logs]] calls IH];
      intros s m ev s' m' ev' [b Hb] Hes Hrun.
    - cbn in Hrun. by injection Hrun as <- <- <-.
    - cbn [run epoch_step] in Hrun.
      destruct (epoch_end_total s e logs (set_weights w m) b Hb)
        as (s1 & m1 & ev1 & Heq & _ & _ & Hb1 & _ & Hkeep & _).
      rewrite Heq in Hrun. cbn [bind] in Hrun.
      eapply IH; [done | by apply Hkeep | done]. }
  intros Hes Hrun. eapply Hgen; [|done|done].
  unfold on_train_begin. destruct (baseline _); cbn; eauto.
Qed.

Lemma stop_flag_is_never_cleared_witness :
  early_stop
    (set_weights (example_weights 1)
       (set_weights (example_weights 0) (set_early_stop true example_model)))
  = true.
Proof.
  apply (stop_flag_is_never_cleared untriggered_callback
           (set_early_stop true example_model)
           (enumerate_from 0 untriggered_epochs)
           (set_wait 1
              (set_state_dict (Some (example_weights 0))
                 (set_wait 0
                    (set_best (Some (Fin 1))
                       (on_train_begin untriggered_callback)))))
           _ []).
  - reflexivity.
  - reflexivity.
Defined.

(** X9. A stop at the first epoch is not announced: [on_train_end] tests
    [stopped_epoch > 0], and a trigger that fires at epoch index 0 leaves
    [stopped_epoch] at 0, so nothing is printed whatever [verbose] is,
    although the stop flag is set. *)
Theorem stop_at_first_epoch_is_not_announced (self : t) (model : Model)
    (ep : StateDict * gmap string (option pyfloat)) (b : pyfloat) :
  baseline self = Some b →
  (patience self ≤ 1)%Z →
  stalls self b ep.2 →
  ∃ self' model' evs,
    train self model [ep] = Ok (self', model', evs)
    ∧ early_stop model' = true
    ∧ stopped_epoch self' = 0%Z
    ∧ on_train_end self' = [].
Proof.
  intros Hbase Hpat (v & Hget & Hop). destruct ep as [w logs].
  unfold train. cbn [enumerate_from run epoch_step].
  assert (Hs0 : on_train_begin self
                = set_best (Some b) (set_stopped_epoch 0 (set_wait 0 self))).
  { unfold on_train_begin. cbn. by rewrite Hbase. }
  rewrite Hs0, (epoch_end_stops _ _ _ _ v b); [|done|done|done|cbn; lia].
  cbn. eexists _, _, _. split; [done|].
  split; [by destruct (restore_best_weights self), (state_dict self)|].
  done.
Qed.

Lemma stop_at_first_epoch_is_not_announced_witness :
  ∃ self' model' evs,
    train (__init__ "val_loss" (Fin 0) 1 1 "min" (Some (Fin 0)) false).1
      example_model [(example_weights 0, example_logs 1)]
    = Ok (self', model', evs)
    ∧ early_stop model' = true
    ∧ stopped_epoch self' = 0%Z
    ∧ on_train_end self' = [].
Proof.
  apply (stop_at_first_epoch_is_not_announced
           (__init__ "val_loss" (Fin 0) 1 1 "min" (Some (Fin 0)) false).1
           example_model (example_weights 0, example_logs 1) (Fin 0)).
  - reflexivity.
  - cbn. lia.
  - exists (Fin 1). split; reflexivity.
Defined.

End EarlyStoppingExtra.

(** ** More on ModelCheckpoint *)

Module ModelCheckpointExtra.
Import ModelCheckpoint ModelCheckpointFacts.

(** *** What a call can do *)

Lemma save_and_retain_Ok ms files path model d files' d' evs :
  save_and_retain ms files path model d = Ok (files', d', evs) →
  saved_snapshots evs = [(weights model, path)]
  ∧ ((ms ≤ 0)%Z →
     files' = files ∧ d' = {[path]} ∪ d ∧ removed_paths evs = []).
Proof.
  unfold save_and_retain. destruct (Z.gtb_spec ms 0) as [Hpos|Hle].
  - destruct files as [fs|]; [|done].
    destruct (Z.of_nat (length fs) =? ms)%Z.
    + destruct fs as [|f rest]; [done|]. intros [= <- <- <-].
      split; [done | lia].
    + intros [= <- <- <-]. split; [done | lia].
  - by intros [= <- <- <-].
Qed.

(** The fields a call never assigns, and the counter: a call is due when
    the counter reaches the period; only a due call can save, it saves at
    most the epoch's own snapshot, and it does when [save_best_only] is
    off. *)
Lemma epoch_end_schedule self e logs model d self' d' evs :
  on_epoch_end self e logs model d = Ok (self', d', evs) →
  (filepath self' = filepath self ∧ monitor self' = monitor self
   ∧ save_best_only self' = save_best_only self
   ∧ period self' = period self ∧ max_save self' = max_save self
   ∧ monitor_op self' = monitor_op self)
  ∧ (if (epochs_since_last_save self + 1 >=? period self)%Z
     then epochs_since_last_save self' = 0%Z
          ∧ (saved_snapshots evs = []
             ∨ saved_snapshots evs
               = [(weights model, snapshot_path (filepath self) e)])
          ∧ (save_best_only self = false →
             saved_snapshots evs
             = [(weights model, snapshot_path (filepath self) e)])
     else epochs_since_last_save self'
          = (epochs_since_last_save self + 1)%Z
          ∧ saved_snapshots evs = []).
Proof.
  unfold on_epoch_end. cbn -[save_and_retain].
  destruct (_ >=? _)%Z; cbn -[save_and_retain];
    [|by intros [= <- <- <-]].
  assert (Hsave : ∀ (b : pyfloat) (pr : list event),
    saved_snapshots pr = [] →
    bind (save_and_retain (max_save self) (old_files self)
            (snapshot_path (filepath self) e) model d)
      (λ '(fs, disk, evs0),
         Ok (with_best_files (with_counter self 0) b fs, disk, pr ++ evs0))
    = Ok (self', d', evs) →
    (filepath self' = filepath self ∧ monitor self' = monitor self
     ∧ save_best_only self' = save_best_only self
     ∧ period self' = period self ∧ max_save self' = max_save self
     ∧ monitor_op self' = monitor_op self)
    ∧ epochs_since_last_save self' = 0%Z
    ∧ saved_snapshots evs
      = [(weights model, snapshot_path (filepath self) e)]).
  { intros b pr Hpr.
    destruct (save_and_retain _ _ _ _ _) as [[[fs d1] ev1]|] eqn:Hsr; [|done].
    apply save_and_retain_Ok in Hsr as [Hsaved _]. cbn.
    intros [= <- <- <-]. unfold saved_snapshots in *.
    by rewrite omap_app, Hpr, Hsaved. }
  destruct (save_best_only self) eqn:Hsbo.
  - destruct (logs_get logs (monitor self)) as [cur|].
    + destruct (call_op (monitor_op self) cur (best self)).
      * intros Heq.
        apply Hsave in Heq as (Hf & Hc & Hs);
          [|by destruct (verbose self >? 0)%Z].
        split; [done|]. split; [done|]. split; [by right | done].
      * intros [= <- <- <-]. repeat split; try done.
        left. by destruct (verbose self >? 0)%Z.
    + intros [= <- <- <-]. repeat split; try done. by left.
  - intros Heq.
    apply Hsave in Heq as (Hf & Hc & Hs);
      [|by destruct (verbose self >? 0)%Z].
    split; [done|]. split; [done|]. split; [by right | done].
Qed.

(** *** The retention list is always there when it is read *)

Lemma run_uncapped calls model self d evs :
  (max_save self ≤ 0)%Z →
  ∃ self' d' evs',
    run calls model (self, d, evs) = Ok (self', d', evs')
    ∧ old_files self' = old_files self
    ∧ removed_paths evs' = removed_paths evs
    ∧ d ⊆ d'
    ∧ (∀ q, q ∈ saved_paths evs' → q ∈ saved_paths evs ∨ q ∈ d').
Proof.
  revert self d evs.
  induction calls as [|[e [w logs]] calls IH]; intros self d evs Hms.
  - eexists _, _, _. split; [done|]. repeat split; auto.
  - cbn [run epoch_step].
    assert (∃ s1 d1 ev1,
              on_epoch_end self e logs (set_weights w model) d
              = Ok (s1, d1, ev1)
              ∧ max_save s1 = max_save self
              ∧ old_files s1 = old_files self
              ∧ removed_paths ev1 = []
              ∧ d ⊆ d1
              ∧ (∀ q, q ∈ saved_paths ev1 → q ∈ d1))
      as (s1 & d1 & ev1 & -> & Hms1 & Hold1 & Hrem1 & Hsub1 & Hin1).
    { unfold on_epoch_end. cbn -[save_and_retain].
      rewrite !save_and_retain_unbounded by done.
      destruct (_ >=? _)%Z; cbn;
        [|eexists _, _, _; split; [done|]; repeat split; try done;
          by intros q ?%elem_of_nil].
      destruct (save_best_only self);
        [destruct (logs_get logs (monitor self)) as [cur|];
         [destruct (call_op (monitor_op self) cur (best self))|]|];
        destruct (verbose self >? 0)%Z; cbn;
        eexists _, _, _; (split; [done|]); cbn;
        repeat split; try done; try apply union_subseteq_r;
        intros q Hq; cbn in Hq;
        first [ by apply elem_of_nil in Hq
              | apply list_elem_of_singleton in Hq as ->;
                by apply elem_of_union_l, elem_of_singleton ]. }
    cbn [bind].
    destruct (IH s1 d1 (evs ++ ev1)) as (s2 & d2 & ev2 & -> & Hold2 & Hrem2 & Hsub2 & Hin2);
      [lia|].
    eexists _, _, _. split; [done|]. rewrite Hold2, Hold1, Hrem2.
    unfold removed_paths, saved_paths in *.
    rewrite omap_app, Hrem1, app_nil_r. repeat split; [by etrans|].
    intros q Hq. destruct (Hin2 q Hq) as [Hq'|Hq']; [|by right].
    rewrite omap_app in Hq'. apply elem_of_app in Hq' as [?|Hq']; [by left|].
    right. apply Hsub2. by apply Hin1.
Qed.

(** X10. On a callback built by the constructor no sequence of
    [on_epoch_end] calls raises: [old_files] exists whenever [max_save > 0]
    makes the code read it, and its first element is only taken when the
    list is not empty. *)
Theorem constructed_callback_never_raises (fp mon : string) (verb : Z)
    (sbo : bool) (md : string) (per ms : Z) (disk : Disk) (model : Model)
    (calls : list (Z * (StateDict * gmap string (option pyfloat))))
    (self0 : t) (d0 : Disk) (ev0 : list event) :
  __init__ fp mon verb sbo md per ms disk = Ok (self0, d0, ev0) →
  ∃ self' d' evs, run calls model (self0, d0, []) = Ok (self', d', evs).
Proof.
  intros Hinit. apply init_Ok_inv in Hinit as ->.
  set (self0 := mk _ _ _ _ _ _ _ _ _ _ _).
  destruct (Z.lt_ge_cases 0 ms) as [Hpos|Hle].
  - destruct (run_retention calls model self0 d0)
      as (s & d' & evs & Hrun & _); [done| |eauto].
    cbn. by destruct (Z.gtb_spec ms 0); [|lia].
  - destruct (run_uncapped calls model self0 d0 [])
      as (s & d' & evs & Hrun & _); [done | eauto].
Qed.

Lemma constructed_callback_never_raises_witness :
  ∃ self' d' evs,
    run [(0%Z, (example_weights 1, example_logs 5));
         (0%Z, (example_weights 2, ∅))]
      example_model
      (mk "checkpoints/weights_out" "val_loss" 0 true "auto" 1 1 0
          (Some []) Less PInf,
       {["checkpoints"]} ∪ ∅, [])
    = Ok (self', d', evs).
Proof.
  apply (constructed_callback_never_raises "checkpoints/weights_out"
           "val_loss" 0 true "auto" 1 1 ∅ example_model _ _ _
           [MakeDirs "checkpoints"]).
  reflexivity.
Defined.

(** X11. Without a retention cap ([max_save <= 0]) nothing is ever
    removed: over any sequence of calls no [os.remove] is issued, the
    disk only grows, and every file written is still there at the end. *)
Theorem uncapped_checkpoint_never_removes (self : t) (d : Disk)
    (model : Model)
    (calls : list (Z * (StateDict * gmap string (option pyfloat)))) :
  (max_save self ≤ 0)%Z →
  ∃ self' d' evs,
    run calls model (self, d, []) = Ok (self', d', evs)
    ∧ removed_paths evs = []
    ∧ d ⊆ d'
    ∧ (∀ q, q ∈ saved_paths evs → q ∈ d').
Proof.
  intros Hms.
  destruct (run_uncapped calls model self d [] Hms)
    as (s & d' & evs & Hrun & _ & Hrem & Hsub & Hin).
  exists s, d', evs. repeat split; try done.
  intros q Hq. destruct (Hin q Hq) as [Hq'|]; [|done].
  by apply elem_of_nil in Hq'.
Qed.

Lemma uncapped_checkpoint_never_removes_witness :
  ∃ self' d' evs,
    run [(0%Z, (example_weights 1, example_logs 5));
         (1%Z, (example_weights 2, example_logs 3))]
      example_model
      (mk "checkpoints/weights_out" "val_loss" 0 false "auto" 1 (-1) 0
          None Less PInf, ∅, [])
    = Ok (self', d', evs)
    ∧ removed_paths evs = []
    ∧ (∅ : Disk) ⊆ d'
    ∧ (∀ q, q ∈ saved_paths evs → q ∈ d').
Proof.
  apply (uncapped_checkpoint_never_removes
           (mk "checkpoints/weights_out" "val_loss" 0 false "auto" 1 (-1) 0
               None Less PInf) ∅ example_model).
  cbn. lia.
Defined.

(** *** The period *)

Lemma counter_step (p k : Z) :
  (0 < p)%Z →
  let c := ((k - 1) `mod` p)%Z in
  ((c + 1 >=? p)%Z = true ↔ (k `mod` p)%Z = 0%Z)
  ∧ (k `mod` p)%Z = (if (c + 1 >=? p)%Z then 0 else c + 1)%Z.
Proof.
  intros Hp c.
  assert (Hk : (k `mod` p = (c + 1) `mod` p)%Z).
  { unfold c. rewrite Zplus_mod_idemp_l. f_equal. lia. }
  pose proof (Z.mod_pos_bound (k - 1) p Hp) as Hc. fold c in Hc.
  destruct (Z.geb_spec (c + 1) p) as [Hge|Hlt].
  - assert (c + 1 = p)%Z as Heq by lia.
    rewrite Hk, Heq, Z_mod_same_full. by split.
  - rewrite Hk, Z.mod_small by lia. split; [|done]. split; [done | lia].
Qed.

Lemma run_schedule calls model self d evs self' d' evs' (k : Z) :
  epochs_since_last_save self = ((k - 1) `mod` Z.max 1 (period self))%Z →
  run calls model (self, d, evs) = Ok (self', d', evs') →
  ∃ new,
    saved_snapshots evs' = saved_snapshots evs ++ new
    ∧ new `sublist_of`
        Sessions.due_from (filepath self) (Z.max 1 (period self)) k calls
    ∧ (save_best_only self = false →
       new = Sessions.due_from (filepath self) (Z.max 1 (period self)) k
               calls).
Proof.
  revert self d evs k.
  induction calls as [|[e [w logs]] calls IH]; intros self d evs k Hc Hrun.
  - cbn in Hrun. injection Hrun as <- <- <-. exists [].
    by rewrite app_nil_r.
  - cbn [run epoch_step] in Hrun.
    destruct (on_epoch_end self e logs (set_weights w model) d)
      as [[[s1 d1] ev1]|] eqn:Hstep; [|done].
    cbn [bind] in Hrun.
    apply epoch_end_schedule in Hstep
      as ((Hfp & _ & Hsbo & Hper & _ & _) & Hsched).
    destruct (counter_step (Z.max 1 (period self)) k) as [Hdue Hnext]; [lia|].
    rewrite <- Hc in Hdue, Hnext.
    assert (Hge : (epochs_since_last_save self + 1 >=? period self)%Z
                  = (epochs_since_last_save self + 1
                     >=? Z.max 1 (period self))%Z).
    { pose proof (Z.mod_pos_bound (k - 1) (Z.max 1 (period self))).
      destruct (Z.geb_spec (epochs_since_last_save self + 1) (period self)),
        (Z.geb_spec (epochs_since_last_save self + 1)
           (Z.max 1 (period self))); lia || done. }
    rewrite Hge in Hsched.
    destruct (IH s1 d1 (evs ++ ev1) (k + 1)%Z) as (new & Hnew & Hsub & Heq).
    { rewrite Hper. replace (k + 1 - 1)%Z with k by lia. rewrite Hnext.
      destruct (_ >=? _)%Z; [by destruct Hsched | by destruct Hsched]. }
    { done. }
    rewrite Hfp, Hper, Hsbo in *. cbn [Sessions.due_from].
    unfold saved_snapshots in *. rewrite omap_app in Hnew.
    cbn [weights set_weights] in Hsched.
    exists (omap (λ e0, match e0 with
                        | TorchSave sd p0 => Some (sd, p0)
                        | _ => None
                        end) ev1 ++ new).
    split; [by rewrite Hnew, (assoc_L (++))|].
    destruct (_ >=? _)%Z.
    + rewrite decide_True by by apply Hdue.
      destruct Hsched as (_ & Hor & Hoff). split.
      * destruct Hor as [-> | ->]; cbn; [by apply sublist_cons | by apply sublist_skip].
      * intros Hno. rewrite (Hoff Hno), (Heq Hno). done.
    + rewrite decide_False
        by (intros H0; apply Hdue in H0; discriminate).
      destruct Hsched as (_ & ->). cbn. split; [done|]. intros Hno.
      by rewrite (Heq Hno).
Qed.

(** X12. Saving follows the period: counting the calls from the
    construction, only a call whose number is a multiple of the period
    (taken as 1 when it is smaller) can save, it saves the snapshot and
    path of its own epoch, and with [save_best_only] off every such call
    saves. *)
Theorem saves_fall_on_multiples_of_period (fp mon : string) (verb : Z)
    (sbo : bool) (md : string) (per ms : Z) (disk : Disk) (model : Model)
    (calls : list (Z * (StateDict * gmap string (option pyfloat))))
    (self0 self' : t) (d0 d' : Disk) (ev0 evs : list event) :
  __init__ fp mon verb sbo md per ms disk = Ok (self0, d0, ev0) →
  run calls model (self0, d0, []) = Ok (self', d', evs) →
  saved_snapshots evs
    `sublist_of` Sessions.due_from fp (Z.max 1 per) 1 calls
  ∧ (sbo = false →
     saved_snapshots evs = Sessions.due_from fp (Z.max 1 per) 1 calls).
Proof.
  intros Hinit Hrun. apply init_Ok_inv in Hinit as ->.
  apply (run_schedule _ _ _ _ _ _ _ _ 1%Z) in Hrun
    as (new & Hnew & Hsub & Heq).
  - cbn in Hnew, Hsub, Heq. rewrite Hnew. done.
  - cbn. rewrite Z.mod_0_l; [done | lia].
Qed.

Lemma saves_fall_on_multiples_of_period_witness :
  saved_snapshots
    [TorchSave (example_weights 2) "checkpoints/weights_out_2.p";
     TorchSave (example_weights 4) "checkpoints/weights_out_4.p"]
    `sublist_of` Sessions.due_from "checkpoints/weights_out" (Z.max 1 2) 1
                   (enumerate_from 0
                      [(example_weights 1, example_logs 5);
                       (example_weights 2, example_logs 3);
                       (example_weights 3, example_logs 4);
                       (example_weights 4, example_logs 2);
                       (example_weights 5, example_logs 1)])
  ∧ (false = false →
     saved_snapshots
       [TorchSave (example_weights 2) "checkpoints/weights_out_2.p";
        TorchSave (example_weights 4) "checkpoints/weights_out_4.p"]
     = Sessions.due_from "checkpoints/weights_out" (Z.max 1 2) 1
         (enumerate_from 0
            [(example_weights 1, example_logs 5);
             (example_weights 2, example_logs 3);
             (example_weights 3, example_logs 4);
             (example_weights 4, example_logs 2);
             (example_weights 5, example_logs 1)])).
Proof.
  apply (saves_fall_on_multiples_of_period "checkpoints/weights_out"
           "val_loss" 0 false "auto" 2 (-1) ∅ example_model
           (enumerate_from 0
              [(example_weights 1, example_logs 5);
               (example_weights 2, example_logs 3);
               (example_weights 3, example_logs 4);
               (example_weights 4, example_logs 2);
               (example_weights 5, example_logs 1)])
           (mk "checkpoints/weights_out" "val_loss" 0 false "auto" 2 (-1)
               0 None Less PInf)
           (mk "checkpoints/weights_out" "val_loss" 0 false "auto" 2 (-1)
               1 None Less PInf)
           ({["checkpoints"]} ∪ ∅)
           ({["checkpoints/weights_out_4.p"]}
            ∪ ({["checkpoints/weights_out_2.p"]}
               ∪ ({["checkpoints"]} ∪ ∅)))
           [MakeDirs "checkpoints"]
           [TorchSave (example_weights 2) "checkpoints/weights_out_2.p";
            TorchSave (example_weights 4) "checkpoints/weights_out_4.p"]).
  - reflexivity.
  - reflexivity.
Defined.

(** *** The monitored metric *)

Lemma run_without_metric calls model self d evs :
  save_best_only self = true →
  Forall (λ c, logs_get c.2.2 (monitor self) = None) calls →
  ∃ self' evs',
    run calls model (self, d, evs) = Ok (self', d, evs ++ evs')
    ∧ best self' = best self
    ∧ old_files self' = old_files self
    ∧ Forall (λ e, e = WarnSkipSave (monitor self)) evs'.
Proof.
  revert self evs.
  induction calls as [|[e [w logs]] calls IH]; intros self evs Hsbo Hall.
  - exists self, []. by rewrite app_nil_r.
  - apply Forall_cons in Hall as [Hget Hall]. cbn in Hget.
    cbn [run epoch_step].
    assert (∃ s1 ev1,
              on_epoch_end self e logs (set_weights w model) d
              = Ok (s1, d, ev1)
              ∧ best s1 = best self ∧ old_files s1 = old_files self
              ∧ save_best_only s1 = true ∧ monitor s1 = monitor self
              ∧ Forall (λ e, e = WarnSkipSave (monitor self)) ev1)
      as (s1 & ev1 & -> & Hb1 & Ho1 & Hs1 & Hm1 & Hw1).
    { unfold on_epoch_end. cbn. rewrite Hsbo, Hget.
      destruct (_ >=? _)%Z; eexists _, _; (split; [done|]); cbn;
        repeat split; try done. by repeat constructor. }
    cbn [bind].
    destruct (IH s1 (evs ++ ev1)) as (s2 & ev2 & -> & Hb2 & Ho2 & Hw2);
      [done | by rewrite Hm1 |].
    exists s2, (ev1 ++ ev2). rewrite (assoc_L (++)). split; [done|].
    rewrite Hb2, Ho2, Hm1 in *. repeat split; try done.
    by apply Forall_app.
Qed.

(** X13. With [save_best_only] on, epochs whose logs lack the monitored
    metric write nothing: over any run of such epochs the disk, [best]
    and the retention list stay as they were, and all that happens is the
    skip warning at the due epochs. *)
Theorem best_only_without_metric_saves_nothing (self : t) (d : Disk)
    (model : Model)
    (calls : list (Z * (StateDict * gmap string (option pyfloat)))) :
  save_best_only self = true →
  Forall (λ c, logs_get c.2.2 (monitor self) = None) calls →
  ∃ self' evs,
    run calls model (self, d, []) = Ok (self', d, evs)
    ∧ best self' = best self
    ∧ old_files self' = old_files self
    ∧ Forall (λ e, e = WarnSkipSave (monitor self)) evs.
Proof.
  intros Hsbo Hall.
  destruct (run_without_metric calls model self d [] Hsbo Hall)
    as (s & evs & Hrun & ?). by exists s, evs.
Qed.

Lemma best_only_without_metric_saves_nothing_witness :
  ∃ self' evs,
    run [(0%Z, (example_weights 1, ∅));
         (1%Z, (example_weights 2, {[ "val_loss" := None ]}))]
      example_model
      (mk "checkpoints/weights_out" "val_loss" 0 true "min" 1 2 0
          (Some []) Less PInf, ∅, [])
    = Ok (self', ∅, evs)
    ∧ best self' = PInf
    ∧ old_files self' = Some []
    ∧ Forall (λ e, e = WarnSkipSave "val_loss") evs.
Proof.
  apply (best_only_without_metric_saves_nothing
           (mk "checkpoints/weights_out" "val_loss" 0 true "min" 1 2 0
               (Some []) Less PInf) ∅ example_model).
  - reflexivity.
  - repeat constructor.
Defined.

Lemma comparison_worst md mon (q : Q) :
  call_op (comparison md mon).1 (Fin q) (comparison md mon).2 = true
  ∧ (comparison md mon).2
    = (if is_less (comparison md mon).1 then PInf else NInf).
Proof.
  unfold comparison.
  destruct (String.eqb md "min"); [done|].
  destruct (String.eqb md "max"); [done|].
  by destruct (str_contains mon "acc" || startswith mon "fmeasure")%bool.
Qed.

(** X14. Whatever the mode and the metric's name, the constructor's
    [best] is the worst value for the comparison it picked: with
    [save_best_only] on and a period of at most 1, the first call whose
    logs carry a finite value saves the epoch's snapshot and makes that
    value [best]. *)
Theorem first_finite_value_is_saved (fp mon : string) (verb : Z)
    (md : string) (per ms : Z) (disk : Disk) (model : Model) (e : Z)
    (logs : gmap string (option pyfloat)) (q : Q)
    (self0 : t) (d0 : Disk) (ev0 : list event) :
  __init__ fp mon verb true md per ms disk = Ok (self0, d0, ev0) →
  (per ≤ 1)%Z →
  logs_get logs mon = Some (Fin q) →
  ∃ self' d' evs,
    on_epoch_end self0 e logs model d0 = Ok (self', d', evs)
    ∧ saved_snapshots evs = [(weights model, snapshot_path fp e)]
    ∧ best self' = Fin q.
Proof.
  intros Hinit Hper Hget. apply init_Ok_inv in Hinit as ->.
  destruct (comparison_worst (checked_mode md).1 mon q) as [Hop _].
  unfold on_epoch_end. cbn -[save_and_retain].
  destruct (Z.geb_spec (0 + 1) per) as [_|?]; [|lia].
  cbn -[save_and_retain]. rewrite Hget, Hop.
  destruct (Z.gtb_spec ms 0) as [Hpos|Hle].
  - rewrite save_and_retain_room by (cbn; lia). cbn.
    eexists _, _, _. split; [done|]. split; [|done].
    unfold saved_snapshots. rewrite omap_app.
    by destruct (verb >? 0)%Z.
  - rewrite save_and_retain_unbounded by done. cbn.
    eexists _, _, _. split; [done|]. split; [|done].
    unfold saved_snapshots. rewrite omap_app.
    by destruct (verb >? 0)%Z.
Qed.

Lemma first_finite_value_is_saved_witness :
  ∃ self' d' evs,
    on_epoch_end
      (mk "checkpoints/weights_out" "fmeasure" 0 true "auto" 1 (-1) 0 None
          Greater NInf)
      0 {[ "fmeasure" := Some (Fin (-3)) ]} example_model
      ({["checkpoints"]} ∪ ∅)
    = Ok (self', d', evs)
    ∧ saved_snapshots evs
      = [(weights example_model, snapshot_path "checkpoints/weights_out" 0)]
    ∧ best self' = Fin (-3).
Proof.
  apply (first_finite_value_is_saved "checkpoints/weights_out" "fmeasure" 0
           "auto" 1 (-1) ∅ example_model 0
           {[ "fmeasure" := Some (Fin (-3)) ]} (-3) _ _
           [MakeDirs "checkpoints"]).
  - reflexivity.
  - lia.
  - reflexivity.
Defined.

End ModelCheckpointExtra.

(** ** The checkpoint directory *)

Module CheckpointDirectory.
Import ModelCheckpoint ModelCheckpointFacts.





Lemma contains_cons_ne (c d : Ascii.ascii) (s : string) :
  d ≠ c →
  str_contains (String d s) (String c "") = str_contains s (String c "").
Proof.
  intros Hne. cbn [str_contains startswith].
  destruct (Ascii.eqb_spec c d) as [->|_]; [done|]. by destruct s.
Qed.

Lemma contains_after (c : Ascii.ascii) (a b : string) :
  str_contains (a +:+ String c b) (String c "") = true.
Proof.
  induction a as [|d a IH].
  - change ("" +:+ String c b) with (String c b).
    cbn [str_contains startswith]. rewrite Ascii.eqb_refl.
    by destruct b.
  - change (String d a +:+ String c b) with (String d (a +:+ String c b)).
    cbn [str_contains]. rewrite IH. by destruct (startswith _ _).
Qed.



(** A path has one decomposition into a directory and a name without
    separator. *)
Lemma last_separator_unique (c : Ascii.ascii) (d1 d2 n1 n2 : string) :
  str_contains n1 (String c "") = false →
  str_contains n2 (String c "") = false →
  d1 +:+ String c n1 = d2 +:+ String c n2 → d1 = d2 ∧ n1 = n2.
Proof.
  intros H1 H2. revert d2. induction d1 as [|x d1 IH]; intros [|y d2] Heq.
  - by injection Heq as ->.
  - change (String c n1 = String y (d2 +:+ String c n2)) in Heq.
    injection Heq as _ ->. by rewrite contains_after in H1.
  - change (String x (d1 +:+ String c n1) = String c n2) in Heq.
    injection Heq as _ <-. by rewrite contains_after in H2.
  - change (String x (d1 +:+ String c n1) = String y (d2 +:+ String c n2))
      in Heq.
    injection Heq as -> Heq. destruct (IH _ Heq) as [-> ->]. done.
Qed.




End CheckpointDirectory.

(** ** The newest checkpoint under [save_best_only] *)

Module CheckpointBest.
Import ModelCheckpoint ModelCheckpointFacts ModelCheckpointExtra.

Lemma saved_paths_snd evs : saved_paths evs = (saved_snapshots evs).*2.
Proof.
  unfold saved_paths, saved_snapshots.
  induction evs as [|ev evs IH]; [done|].
  destruct ev; cbn; by rewrite ?IH.
Qed.

Lemma last_in_retained (m : nat) (saved : list string) (p : string) :
  0 < m → last saved = Some p → p ∈ retained m saved.
Proof.
  intros Hm Hlast. unfold retained.
  destruct saved as [|q saved] using rev_ind; [done|].
  rewrite last_snoc in Hlast. injection Hlast as ->.
  rewrite length_app. cbn [length].
  rewrite drop_app_le by lia. apply elem_of_app. right. by left.
Qed.

(** One due call with [save_best_only] on and a finite value. *)
Lemma epoch_end_best self e logs model d (v : Q) s1 d1 ev1 :
  save_best_only self = true →
  (period self ≤ 1)%Z →
  epochs_since_last_save self = 0%Z →
  logs_get logs (monitor self) = Some (Fin v) →
  on_epoch_end self e logs model d = Ok (s1, d1, ev1) →
  (filepath s1 = filepath self ∧ monitor s1 = monitor self
   ∧ save_best_only s1 = true ∧ period s1 = period self
   ∧ monitor_op s1 = monitor_op self ∧ epochs_since_last_save s1 = 0%Z)
  ∧ (if call_op (monitor_op self) (Fin v) (best self)
     then best s1 = Fin v
          ∧ saved_snapshots ev1
            = [(weights model, snapshot_path (filepath self) e)]
     else best s1 = best self ∧ saved_snapshots ev1 = []).
Proof.
  intros Hsbo Hper Hcnt Hget. unfold on_epoch_end.
  cbn -[save_and_retain]. rewrite Hcnt.
  destruct (Z.geb_spec (0 + 1) (period self)) as [_|?]; [|lia].
  cbn -[save_and_retain]. rewrite Hsbo, Hget.
  destruct (call_op (monitor_op self) (Fin v) (best self)).
  - destruct (save_and_retain _ _ _ _ _) as [[[fs d2] ev2]|] eqn:Hsr; [|done].
    apply save_and_retain_Ok in Hsr as [Hsaved _]. cbn.
    intros [= <- <- <-]. cbn. split; [done|]. split; [done|].
    unfold saved_snapshots in *. rewrite omap_app, Hsaved.
    by destruct (verbose self >? 0)%Z.
  - intros [= <- <- <-]. cbn. split; [done|]. split; [done|].
    by destruct (verbose self >? 0)%Z.
Qed.

(** After any number of due calls [best] is the best value seen, and the
    newest snapshot is that of the first call that reached it. *)
Lemma run_best calls model :
  ∀ vs self d evs seen qs self' d' evs',
    Forall2 (λ c v, logs_get c.2.2 (monitor self) = Some (Fin v)) calls vs →
    save_best_only self = true →
    (period self ≤ 1)%Z →
    epochs_since_last_save self = 0%Z →
    length seen = length qs →
    match EarlyStopping.best_entry (monitor_op self) qs with
    | Some (j, qj) =>
        best self = Fin qj
        ∧ ∃ c, seen !! j = Some c
               ∧ last (saved_snapshots evs)
                 = Some (c.2.1, snapshot_path (filepath self) c.1)
    | None =>
        best self = (if is_less (monitor_op self) then PInf else NInf)
        ∧ saved_snapshots evs = []
    end →
    run calls model (self, d, evs) = Ok (self', d', evs') →
    match EarlyStopping.best_entry (monitor_op self) (qs ++ vs) with
    | Some (j, qj) =>
        best self' = Fin qj
        ∧ ∃ c, (seen ++ calls) !! j = Some c
               ∧ last (saved_snapshots evs')
                 = Some (c.2.1, snapshot_path (filepath self) c.1)
    | None => saved_snapshots evs' = []
    end.
Proof.
  induction calls as [|[e [w logs]] calls IH];
    intros vs self d evs seen qs self' d' evs' Hall Hsbo Hper Hcnt Hlen Hinv.
  - apply Forall2_nil_inv_l in Hall as ->. rewrite !app_nil_r.
    intros [= <- <- <-].
    destruct (EarlyStopping.best_entry _ _) as [[j qj]|]; [done|].
    by destruct Hinv.
  - apply Forall2_cons_inv_l in Hall as (v & vs' & Hget & Hall & ->).
    cbn in Hget. cbn [run epoch_step].
    destruct (on_epoch_end self e logs (set_weights w model) d)
      as [[[s1 d1] ev1]|] eqn:Hstep; [|done].
    cbn [bind]. intros Hrun.
    destruct (epoch_end_best _ _ _ _ _ v _ _ _ Hsbo Hper Hcnt Hget Hstep)
      as ((Hfp & Hmon & Hsbo1 & Hper1 & Hop & Hcnt1) & Hcase).
    rewrite (cons_middle v qs vs'), (cons_middle (e, (w, logs)) seen calls).
    rewrite !(assoc_L (++)).
    rewrite <- Hfp, <- Hop.
    apply (IH vs' s1 d1 (evs ++ ev1) (seen ++ [(e, (w, logs))]) (qs ++ [v])
             self' d' evs'); try done.
    + by rewrite Hmon.
    + lia.
    + rewrite !length_app. cbn. lia.
    + rewrite Hop, Hfp, EarlyStoppingFacts.best_entry_snoc.
      unfold saved_snapshots in *. rewrite omap_app.
      destruct (EarlyStopping.best_entry (monitor_op self) qs)
        as [[j qj]|].
      * destruct Hinv as (Hb & c & Hc & Hlast). rewrite Hb in Hcase.
        destruct (call_op (monitor_op self) (Fin v) (Fin qj)).
        -- destruct Hcase as [-> ->]. split; [done|].
           exists (e, (w, logs)). rewrite <- Hlen.
           rewrite lookup_app_r, Nat.sub_diag by lia.
           split; [done|]. by rewrite last_snoc.
        -- destruct Hcase as [-> ->]. split; [done|].
           exists c. rewrite app_nil_r.
           split; [|done]. by apply lookup_app_l_Some.
      * destruct Hinv as (Hb & Hnone). rewrite Hb in Hcase.
        assert (call_op (monitor_op self) (Fin v)
                  (if is_less (monitor_op self) then PInf else NInf) = true)
          as Hbeat by (by destruct (monitor_op self)).
        rewrite Hbeat in Hcase. destruct Hcase as [-> ->]. split; [done|].
        exists (e, (w, logs)). rewrite <- Hlen.
        rewrite lookup_app_r, Nat.sub_diag by lia.
        split; [done|]. by rewrite last_snoc.
Qed.

(** X16. With [save_best_only] on and a period of at most 1, after calls
    that all report a finite value: [best] is the best value reported, the
    newest snapshot written holds the weights of the first call that
    reported it, under that call's epoch number, and (the epoch numbers
    being distinct) that file is on disk, whatever the retention cap. *)
Theorem newest_checkpoint_is_best_epoch (fp mon : string) (verb : Z)
    (md : string) (per ms : Z) (disk : Disk) (model : Model)
    (calls : list (Z * (StateDict * gmap string (option pyfloat))))
    (vs : list Q) (self0 : t) (d0 : Disk) (ev0 : list event) :
  __init__ fp mon verb true md per ms disk = Ok (self0, d0, ev0) →
  (per ≤ 1)%Z →
  Forall2 (λ c v, logs_get c.2.2 mon = Some (Fin v)) calls vs →
  ∃ self' d' evs,
    run calls model (self0, d0, []) = Ok (self', d', evs)
    ∧ match EarlyStopping.best_entry (monitor_op self0) vs with
      | Some (j, vj) =>
          best self' = Fin vj
          ∧ ∃ c, calls !! j = Some c
                 ∧ last (saved_snapshots evs)
                   = Some (c.2.1, snapshot_path fp c.1)
                 ∧ (NoDup calls.*1 → snapshot_path fp c.1 ∈ d')
      | None => saved_snapshots evs = []
      end.
Proof.
  intros Hinit Hper Hall. apply init_Ok_inv in Hinit as ->.
  set (self0 := mk _ _ _ _ _ _ _ _ _ _ _).
  destruct (comparison_worst (checked_mode md).1 mon 0) as [_ Hworst].
  assert (Hdisk : ∃ self' d' evs,
            run calls model (self0, d0, []) = Ok (self', d', evs)
            ∧ (NoDup calls.*1 →
               ∀ p, last (saved_paths evs) = Some p → p ∈ d')).
  { destruct (Z.lt_ge_cases 0 ms) as [Hpos|Hle].
    - destruct (run_retention calls model self0 d0)
        as (s & d' & evs & Hrun & _ & _ & _ & _ & _ & Hd); [done| |].
      { cbn. by destruct (Z.gtb_spec ms 0); [|lia]. }
      exists s, d', evs. split; [done|]. intros Hnd p Hlast.
      destruct (Hd Hnd) as (_ & Hin & _). apply Hin.
      + destruct (saved_paths evs) as [|q l] using rev_ind; [done|].
        rewrite last_snoc in Hlast. injection Hlast as ->.
        apply elem_of_app. right. by left.
      + apply last_in_retained; [cbn; lia | done].
    - destruct (run_uncapped calls model self0 d0 [])
        as (s & d' & evs & Hrun & _ & _ & _ & Hin); [done|].
      exists s, d', evs. split; [done|]. intros _ p Hlast.
      destruct (Hin p) as [H|H]; [|by apply elem_of_nil in H | done].
      destruct (saved_paths evs) as [|q l] using rev_ind; [done|].
      rewrite last_snoc in Hlast. injection Hlast as ->.
      apply elem_of_app. right. by left. }
  destruct Hdisk as (s & d' & evs & Hrun & Hd).
  exists s, d', evs. split; [done|].
  pose proof (run_best calls model vs self0 d0 [] [] [] s d' evs) as Hbest.
  cbn [app EarlyStopping.best_entry] in Hbest.
  specialize (Hbest Hall eq_refl Hper eq_refl eq_refl (conj Hworst eq_refl)
                Hrun).
  destruct (EarlyStopping.best_entry (monitor_op self0) vs) as [[j vj]|];
    [|done].
  destruct Hbest as (Hb & c & Hc & Hlast). split; [done|].
  exists c. split; [done|]. split; [done|].
  intros Hnd. apply (Hd Hnd). rewrite saved_paths_snd, fmap_last, Hlast.
  done.
Qed.

Lemma newest_checkpoint_is_best_epoch_witness :
  ∃ self' d' evs,
    run [(0%Z, (example_weights 1, example_logs 5));
         (1%Z, (example_weights 2, example_logs 3));
         (2%Z, (example_weights 3, example_logs 4))]
      example_model
      (mk "checkpoints/weights_out" "val_loss" 0 true "auto" 1 1 0
          (Some []) Less PInf,
       {["checkpoints"]} ∪ ∅, [])
    = Ok (self', d', evs)
    ∧ best self' = Fin 3
    ∧ ∃ c, [(0%Z, (example_weights 1, example_logs 5));
            (1%Z, (example_weights 2, example_logs 3));
            (2%Z, (example_weights 3, example_logs 4))] !! 1 = Some c
           ∧ last (saved_snapshots evs)
             = Some (c.2.1, snapshot_path "checkpoints/weights_out" c.1)
           ∧ (NoDup [(0%Z, (example_weights 1, example_logs 5));
                     (1%Z, (example_weights 2, example_logs 3));
                     (2%Z, (example_weights 3, example_logs 4))].*1 →
              snapshot_path "checkpoints/weights_out" c.1 ∈ d').
Proof.
  apply (newest_checkpoint_is_best_epoch "checkpoints/weights_out"
           "val_loss" 0 "auto" 1 1 ∅ example_model
           [(0%Z, (example_weights 1, example_logs 5));
            (1%Z, (example_weights 2, example_logs 3));
            (2%Z, (example_weights 3, example_logs 4))]
           [5; 3; 4]%Q
           (mk "checkpoints/weights_out" "val_loss" 0 true "auto" 1 1 0
               (Some []) Less PInf)
           ({["checkpoints"]} ∪ ∅) [MakeDirs "checkpoints"]).
  - reflexivity.
  - lia.
  - repeat constructor.
Defined.

End CheckpointBest.

(** ** More on History *)

Module HistoryExtra.
Import History HistoryFacts.

Lemma record_dom logs h : dom (record logs h) = dom logs ∪ dom h.
Proof.
  apply set_eq. intros k.
  rewrite elem_of_union, !elem_of_dom, record_lookup.
  destruct (logs !! k) as [v|].
  - split; [intros _; left|]; eauto.
  - split; [by right|]. by intros [[? [=]]|?].
Qed.

Lemma run_dom calls model :
  dom (history (run calls model))
  = dom (history model) ∪ ⋃ (dom <$> calls.*2).
Proof.
  revert model. induction calls as [|[e logs] calls IH]; intros model.
  - cbn. by rewrite (right_id_L ∅ (∪)).
  - cbn [run]. rewrite IH. cbn. rewrite !record_dom.
    apply set_eq. intros k. rewrite !elem_of_union. tauto.
Qed.

(** The hooks assign [epoch] and [history] and nothing else. *)
Lemma run_frame calls model ep h :
  set_history h (set_epoch ep (run calls model))
  = set_history h (set_epoch ep model).
Proof.
  revert model. induction calls as [|[e logs] calls IH]; intros model; [done|].
  cbn [run]. by rewrite IH.
Qed.

(** X17. After a training session the history's keys are exactly the keys
    that occurred in the logs of some epoch: a key of an earlier history
    that no epoch reports is gone, and a key reported once is there. *)
Theorem history_keys_are_logged_keys (model : Model)
    (eps : list (gmap string (option pyfloat))) :
  dom (history (train model eps)) = ⋃ (dom <$> eps)
  ∧ (∀ k, history (train model eps) !! k = None
          ↔ Forall (λ logs, logs !! k = None) eps).
Proof.
  assert (Hdom : dom (history (train model eps)) = ⋃ (dom <$> eps)).
  { unfold train. rewrite run_dom, enumerate_from_snd. cbn.
    by rewrite dom_empty_L, (left_id_L ∅ (∪)). }
  split; [done|]. intros k.
  rewrite <- not_elem_of_dom, Hdom, elem_of_union_list, Forall_forall.
  split.
  - intros Hno logs Hin. apply not_elem_of_dom. intros Hk. apply Hno.
    exists (dom logs). split; [|done]. apply list_elem_of_fmap. eauto.
  - intros Hall (X & (logs & -> & Hin)%list_elem_of_fmap & Hk).
    apply elem_of_dom in Hk as [v Hv]. by rewrite (Hall logs Hin) in Hv.
Qed.

(** X18. A session changes [model.epoch] and [model.history] and nothing
    else of the model, and it rebuilds both from scratch: a second session
    on the same model leaves exactly what it would have left without the
    first. *)
Theorem history_restarts_each_session (model : Model)
    (eps1 eps2 : list (gmap string (option pyfloat))) :
  set_history (history model) (set_epoch (epoch model) (train model eps1))
  = model
  ∧ train (train model eps1) eps2 = train model eps2.
Proof.
  split.
  - unfold train. rewrite run_frame. by destruct model.
  - unfold train at 1 3. f_equal. unfold on_train_begin, train.
    by rewrite run_frame.
Qed.

End HistoryExtra.

(** ** More on LRHistory *)

Module LRHistoryExtra.
Import LRHistory LRHistoryFacts Sessions.

(** *** Without a scheduler *)

Lemma hooks_without_scheduler self i model :
  lr_scheduler model = None →
  on_epoch_begin self i model = Ok model
  ∧ on_batch_end self i model = Ok model
  ∧ on_epoch_end self i model = Ok model.
Proof.
  intros Hs. unfold on_epoch_begin, on_batch_end, on_epoch_end.
  rewrite Hs, bool_decide_eq_false_2 by (by intros [? ?]).
  by rewrite !andb_false_r.
Qed.

Lemma run_batches_without_scheduler self bs model opt :
  lr_scheduler model = None →
  run_batches self bs (set_optimizer opt model)
  = Ok (set_optimizer (default opt (last bs.*2)) model).
Proof.
  intros Hs. revert opt. induction bs as [|[b o] bs IH]; intros opt; [done|].
  cbn [run_batches].
  destruct (hooks_without_scheduler self b
              (set_optimizer o (set_optimizer opt model)) Hs)
    as (_ & -> & _).
  cbn [bind]. change (set_optimizer o (set_optimizer opt model))
    with (set_optimizer o model).
  rewrite IH. do 2 f_equal. cbn [fmap list_fmap snd].
  destruct bs as [|c bs]; [done|]. cbn [fmap list_fmap].
  rewrite (last_cons_cons o).
  destruct (last (c.2 :: bs.*2)) eqn:Hlast; [done|].
  by apply last_None in Hlast.
Qed.

Lemma run_without_scheduler self calls model opt :
  lr_scheduler model = None →
  run self calls (set_optimizer opt model)
  = Ok (set_optimizer (default opt (at_end <$> last calls.*2)) model).
Proof.
  intros Hs. revert opt.
  induction calls as [|[e d] calls IH]; intros opt; [done|].
  cbn [run epoch_step].
  change (set_optimizer (at_begin d) (set_optimizer opt model))
    with (set_optimizer (at_begin d) model).
  destruct (hooks_without_scheduler self e
              (set_optimizer (at_begin d) model) Hs) as (-> & _ & _).
  cbn [bind]. rewrite run_batches_without_scheduler by done. cbn [bind].
  change (set_optimizer (at_end d) (set_optimizer ?o model))
    with (set_optimizer (at_end d) model).
  destruct (hooks_without_scheduler self e
              (set_optimizer (at_end d) model) Hs) as (_ & _ & ->).
  cbn [bind]. rewrite IH. do 2 f_equal. cbn [fmap list_fmap snd].
  destruct calls as [|c calls]; [done|]. cbn [fmap list_fmap].
  rewrite (last_cons_cons d).
  destruct (last (c.2 :: calls.*2)) eqn:Hlast; [done|].
  by apply last_None in Hlast.
Qed.

(** X19. On a model without scheduler the callback does nothing at all:
    whatever the optimizers look like, no hook raises, and a whole session
    leaves [model.lr_history] as it found it, entries of an earlier
    session included. *)
Theorem no_scheduler_records_nothing (self : t) (model : Model)
    (eps : list epoch_data) :
  lr_scheduler model = None →
  ∃ model',
    train self model eps = Ok model'
    ∧ lr_history model' = lr_history model
    ∧ set_optimizer (optimizer model) model' = model.
Proof.
  intros Hs. unfold train.
  pose proof (run_without_scheduler self (enumerate_from 0 eps) model
                (optimizer model) Hs) as Hrun.
  assert (Hid : set_optimizer (optimizer model) model = model)
    by (by destruct model).
  rewrite Hid in Hrun. rewrite Hrun. eexists. split; [done|].
  split; [done|]. cbn. by destruct model.
Qed.

Lemma no_scheduler_records_nothing_witness :
  ∃ model',
    train (mk 2) example_model (of_plain <$> example_epochs) = Ok model'
    ∧ lr_history model' = lr_history example_model
    ∧ set_optimizer (optimizer example_model) model' = example_model.
Proof.
  apply (no_scheduler_records_nothing (mk 2) example_model).
  reflexivity.
Defined.

(** *** A session whose length is not [n_epochs] *)

Lemma run_noncyclic_ends self i (l : list plain_epoch) model g :
  single_scheduler model false →
  (1 ≤ i)%Z →
  ∃ model',
    run self (enumerate_from i (of_plain <$> l)) model = Ok model'
    ∧ default [] (lr_history model' !! group_key g)
      = default [] (lr_history model !! group_key g)
        ++ omap (.!! g)
             ((λ c, lr_end c.2)
                <$> filter (λ c, c.1 ≠ (n_epochs self - 1)%Z)
                      (enumerate_from i l)).
Proof.
  revert i model. induction l as [|d l IH]; intros i model Hs Hi.
  - exists model. cbn. by rewrite app_nil_r.
  - cbn [fmap list_fmap enumerate_from run].
    destruct (epoch_step_single self i d model false g Hs)
      as (m1 & -> & Hs1 & Hh1).
    cbn [bind]. destruct (Z.eqb_spec i 0) as [?|_]; [lia|].
    destruct (IH (i + 1)%Z m1) as (m2 & -> & Hh2); [done | lia |].
    exists m2. split; [done|]. rewrite Hh2, Hh1, filter_cons.
    cbn [fst]. destruct (Z.eqb_spec i (n_epochs self - 1)) as [Heq|Hne].
    + rewrite decide_False by (intros H; by apply H).
      cbn. by rewrite !app_nil_r.
    + rewrite decide_True by done. cbn [fmap list_fmap snd app].
      rewrite <- (assoc_L (++)). f_equal.
      symmetry. apply (omap_app _ [lr_end d]).
Qed.

(** X20. With a single non-cyclic scheduler and any [n_epochs]: the rate
    at the begin of epoch 0 is recorded, and then the rate at the end of
    every epoch except the one numbered [n_epochs - 1]. So a session
    shorter than [n_epochs] records the end of its last epoch too, and a
    longer one misses an epoch in the middle. *)
Theorem epoch_end_skipped_only_at_n_epochs (self : t) (model : Model)
    (d : plain_epoch) (eps : list plain_epoch) (g : nat) :
  single_scheduler model false →
  ∃ model',
    train self model (of_plain <$> d :: eps) = Ok model'
    ∧ default [] (lr_history model' !! group_key g)
      = omap (.!! g) (lr_begin d :: recorded_ends (n_epochs self) (d :: eps))
    ∧ ((Z.of_nat (length (d :: eps)) < n_epochs self)%Z →
       recorded_ends (n_epochs self) (d :: eps) = lr_end <$> d :: eps)
    ∧ ((0 < n_epochs self ≤ Z.of_nat (length (d :: eps)))%Z →
       length (recorded_ends (n_epochs self) (d :: eps)) = length eps).
Proof.
  intros Hs. unfold train.
  cbn [fmap list_fmap enumerate_from run].
  destruct (epoch_step_single self 0 d model false g Hs)
    as (m1 & -> & Hs1 & Hh1).
  cbn [bind]. change (0 =? 0)%Z with true in Hh1. cbn iota in Hh1.
  destruct (run_noncyclic_ends self (0 + 1) eps m1 g Hs1) as (m2 & -> & Hh2);
    [lia|].
  exists m2. split; [done|]. split; [|split].
  - rewrite Hh2, Hh1. unfold recorded_ends.
    cbn [enumerate_from]. rewrite filter_cons. cbn [fst app].
    destruct (Z.eqb_spec 0 (n_epochs self - 1)) as [Heq|Hne].
    + rewrite decide_False by (intros H; by apply H). rewrite app_nil_r.
      symmetry. apply (omap_app _ [lr_begin d]).
    + rewrite decide_True by done. cbn [fmap list_fmap snd].
      change (lr_begin d :: lr_end d :: ?x)
        with ([lr_begin d] ++ [lr_end d] ++ x).
      by rewrite !omap_app, <- !(assoc_L (++)).
  - intros Hlen. unfold recorded_ends.
    assert (Hall : ∀ (l : list plain_epoch) i,
              (0 ≤ i)%Z → (i + Z.of_nat (length l) < n_epochs self)%Z →
              filter (λ c, c.1 ≠ (n_epochs self - 1)%Z) (enumerate_from i l)
              = enumerate_from i l).
    { induction l as [|x l IH]; intros i Hi Hl; [done|].
      cbn [enumerate_from length] in *. rewrite filter_cons. cbn [fst].
      rewrite decide_True by lia. rewrite IH by lia. done. }
    rewrite Hall by lia.
    trans (lr_end <$> (enumerate_from 0 (d :: eps)).*2).
    { by rewrite <- list_fmap_compose. }
    by rewrite enumerate_from_snd.
  - intros Hn. unfold recorded_ends. rewrite length_fmap.
    assert (Hpast : ∀ (l : list plain_epoch) j,
              (n_epochs self - 1 < j)%Z →
              filter (λ c, c.1 ≠ (n_epochs self - 1)%Z) (enumerate_from j l)
              = enumerate_from j l).
    { induction l as [|x l IH]; intros j Hj; [done|].
      cbn [enumerate_from]. rewrite filter_cons. cbn [fst].
      rewrite decide_True by lia. rewrite IH by lia. done. }
    assert (Hone : ∀ (l : list plain_epoch) i,
              (i ≤ n_epochs self - 1 < i + Z.of_nat (length l))%Z →
              S (length (filter (λ c, c.1 ≠ (n_epochs self - 1)%Z)
                           (enumerate_from i l)))
              = length l).
    { induction l as [|x l IH]; intros i Hi; [cbn in Hi; lia|].
      cbn [enumerate_from length] in *. rewrite filter_cons. cbn [fst].
      destruct (decide (i ≠ (n_epochs self - 1)%Z)) as [Hne|Heq].
      - cbn [length]. rewrite IH by lia. done.
      - apply dec_stable in Heq.
        rewrite Hpast by lia. by rewrite enumerate_from_length. }
    specialize (Hone (d :: eps) 0%Z). cbn [length] in *.
    apply eq_add_S. apply Hone. lia.
Qed.

Lemma epoch_end_skipped_only_at_n_epochs_witness :
  ∃ model',
    train (mk 5) (example_scheduled_model "StepLR" false)
      (of_plain <$> example_epochs) = Ok model'
    ∧ default [] (lr_history model' !! group_key 1)
      = omap (.!! 1)
          (lr_begin (mkPlain [Fin (1 # 10); Fin (1 # 100)]
                       [[Fin (1 # 10); Fin (1 # 100)];
                        [Fin (2 # 10); Fin (2 # 100)]]
                       [Fin (3 # 10); Fin (3 # 100)])
           :: recorded_ends (n_epochs (mk 5)) example_epochs)
    ∧ ((Z.of_nat (length example_epochs) < n_epochs (mk 5))%Z →
       recorded_ends (n_epochs (mk 5)) example_epochs
       = lr_end <$> example_epochs)
    ∧ ((0 < n_epochs (mk 5) ≤ Z.of_nat (length example_epochs))%Z →
       length (recorded_ends (n_epochs (mk 5)) example_epochs) = 1).
Proof.
  apply (epoch_end_skipped_only_at_n_epochs (mk 5)
           (example_scheduled_model "StepLR" false)).
  split; [|reflexivity]. eexists. split; [reflexivity | discriminate].
Defined.

(** *** The composite scheduler *)

Lemma pretty_N_go_no_underscore (x : N) (s : string) :
  str_contains s "_" = false → str_contains (pretty_N_go x s) "_" = false.
Proof.
  revert s. induction (N.lt_wf_0 x) as [x _ IH]; intros s Hs.
  assert (x = 0 ∨ 0 < x)%N as [->|Hpos] by lia.
  - by rewrite pretty_N_go_0.
  - rewrite pretty_N_go_step by done. apply IH.
    { by apply N.div_lt. }
    rewrite CheckpointDirectory.contains_cons_ne; [done|].
    unfold pretty_N_char. by repeat case_match.
Qed.

Lemma pretty_nat_no_underscore (g : nat) :
  str_contains (pretty g) "_" = false.
Proof.
  unfold pretty, pretty_nat, pretty, pretty_N.
  case_decide; [done|]. by apply pretty_N_go_no_underscore.
Qed.

Lemma sub_key_inj name name' g g' :
  sub_key name g = sub_key name' g' → name = name' ∧ g = g'.
Proof.
  unfold sub_key. cbn [str_join]. intros H.
  apply (inj (String.app "lr")) in H. apply (inj (String.app "_")) in H.
  change (name +:+ String "_" (pretty g) = name' +:+ String "_" (pretty g'))
    in H.
  apply CheckpointDirectory.last_separator_unique in H as [-> H];
    [|apply pretty_nat_no_underscore..].
  by apply (inj pretty) in H as ->.
Qed.

(** [_save_group_lr] for the sub-optimizer [name]. *)
Lemma save_groups_named name gs idx h name' g :
  save_groups idx gs (Some name) h !! sub_key name' g
  = match (if decide (name = name' ∧ idx ≤ g) then gs !! (g - idx)
           else None) with
    | Some v => Some (default [] (h !! sub_key name' g) ++ [v])
    | None => h !! sub_key name' g
    end.
Proof.
  revert idx h. induction gs as [|lr gs IH]; intros idx h.
  - cbn. by destruct (decide _).
  - cbn [save_groups]. fold (sub_key name idx). rewrite IH.
    rewrite !setdefault_append_lookup.
    assert (Hkey : ∀ X Y : option (list pyfloat),
              ¬ (name = name' ∧ idx = g) →
              (if decide (sub_key name idx = sub_key name' g) then X else Y)
              = Y).
    { intros X Y Hne. apply decide_False. by intros ?%sub_key_inj. }
    destruct (decide (name = name' ∧ S idx ≤ g)) as [[-> Hlt]|Hge].
    + rewrite (decide_True (P := name' = name' ∧ idx ≤ g)) by (split; [done | lia]).
      rewrite Hkey by lia.
      replace (g - idx) with (S (g - S idx)) by lia. done.
    + destruct (decide (name = name' ∧ idx ≤ g)) as [[-> Hle]|Hgt].
      * assert (g = idx) as -> by (apply not_and_l in Hge as [?|?]; [done | lia]).
        rewrite (decide_True (P := sub_key name' idx = sub_key name' idx))
          by done.
        by rewrite Nat.sub_diag.
      * rewrite Hkey; [done|]. intros [-> ->]. apply Hgt. by split.
Qed.

Lemma save_groups_named_recorded name gs h name' g :
  default [] (save_groups 0 gs (Some name) h !! sub_key name' g)
  = default [] (h !! sub_key name' g)
    ++ (if decide (name = name') then omap (.!! g) [gs] else []).
Proof.
  rewrite save_groups_named.
  destruct (decide (name = name')) as [->|Hne].
  - rewrite decide_True, Nat.sub_0_r by (split; [done | lia]). cbn.
    destruct (gs !! g); cbn; by rewrite ?app_nil_r.
  - rewrite decide_False by (by intros [? _]). by rewrite app_nil_r.
Qed.

Lemma is_cyclic_composite model ss opts name :
  composite model ss opts →
  _is_cyclic model name
  = Ok (match ss !! name with
        | Some cls => str_contains (str_lower cls) "cycl"
        | None => false
        end).
Proof.
  intros [(sched & Hs & Hcls & Hss) _]. unfold _is_cyclic, _has_scheduler.
  rewrite Hs, Hss. cbn [bind]. destruct sched as [cls sub]. cbn in Hss.
  subst sub. destruct (ss !! name) as [c|] eqn:Hc.
  - rewrite bool_decide_eq_true_2 by eauto. done.
  - rewrite bool_decide_eq_false_2 by (by intros [? ?]). done.
Qed.

Lemma composite_set_lr_history model ss opts h :
  composite model ss opts → composite (set_lr_history h model) ss opts.
Proof. done. Qed.

(** The loop over the sub-optimizers: each is recorded or not according
    to the hook and to its scheduler. *)
Lemma save_each_composite step (cyc_records other_records : bool)
    opts0 ss model opts name g :
  composite model ss opts0 →
  (step = "on_epoch_begin" ∧ cyc_records = true ∧ other_records = true)
  ∨ (step = "on_batch_end" ∧ cyc_records = true ∧ other_records = false)
  ∨ (step = "on_epoch_end" ∧ cyc_records = false ∧ other_records = true) →
  ∃ model',
    save_each opts step model = Ok model'
    ∧ composite model' ss opts0
    ∧ default [] (lr_history model' !! sub_key name g)
      = default [] (lr_history model !! sub_key name g)
        ++ (if (match ss !! name with
                | Some cls => str_contains (str_lower cls) "cycl"
                | None => false
                end)
            then if cyc_records
                 then omap (.!! g) (filter (λ o, o.1 = name) opts).*2
                 else []
            else if other_records
                 then omap (.!! g) (filter (λ o, o.1 = name) opts).*2
                 else []).
Proof.
  intros Hc Hstep. revert model Hc.
  induction opts as [|[n0 gs0] opts IH]; intros model Hc.
  - exists model. cbn. split; [done|]. split; [done|].
    by destruct (match ss !! name with Some _ => _ | None => _ end),
      cyc_records, other_records; rewrite app_nil_r.
  - cbn [save_each].
    set (cyc0 := match ss !! n0 with
                 | Some cls => str_contains (str_lower cls) "cycl"
                 | None => false
                 end).
    assert (∃ m1,
              (let* model :=
                 if String.eqb step "on_epoch_begin"
                 then _save_group_lr (Some gs0) (Some n0) model
                 else Ok model in
               let* model :=
                 if String.eqb step "on_batch_end" then
                   let* cyc := _is_cyclic model n0 in
                   if cyc then _save_group_lr (Some gs0) (Some n0) model
                   else Ok model
                 else Ok model in
               let* model :=
                 if String.eqb step "on_epoch_end" then
                   let* cyc := _is_cyclic model n0 in
                   if negb cyc
                   then _save_group_lr (Some gs0) (Some n0) model
                   else Ok model
                 else Ok model in
               save_each opts step model)
              = save_each opts step m1
              ∧ composite m1 ss opts0
              ∧ default [] (lr_history m1 !! sub_key name g)
                = default [] (lr_history model !! sub_key name g)
                  ++ (if (if cyc0 then cyc_records else other_records)
                      then if decide (n0 = name) then omap (.!! g) [gs0]
                           else []
                      else []))
      as (m1 & -> & Hc1 & Hh1).
    { pose proof (is_cyclic_composite model ss opts0 n0 Hc) as Hcyc.
      fold cyc0 in Hcyc.
      pose proof (λ h, is_cyclic_composite _ ss opts0 n0
                         (composite_set_lr_history model ss opts0 h Hc))
        as Hcyc'.
      fold cyc0 in Hcyc'.
      destruct Hstep as [(-> & -> & ->)|[(-> & -> & ->)|(-> & -> & ->)]];
        cbn [String.eqb Ascii.eqb Bool.eqb _save_group_lr bind];
        rewrite ?Hcyc, ?Hcyc'; cbn [bind].
      - eexists. split; [done|]. split; [done|].
        cbn [lr_history set_lr_history].
        rewrite save_groups_named_recorded. by destruct cyc0.
      - destruct cyc0; cbn [bind].
        + eexists. split; [done|]. split; [done|].
          cbn [lr_history set_lr_history].
          by rewrite save_groups_named_recorded.
        + exists model. split; [done|]. split; [done|].
          by rewrite app_nil_r.
      - destruct cyc0; cbn [negb bind].
        + exists model. split; [done|]. split; [done|].
          by rewrite app_nil_r.
        + eexists. split; [done|]. split; [done|].
          cbn [lr_history set_lr_history].
          by rewrite save_groups_named_recorded. }
    destruct (IH m1 Hc1) as (m2 & -> & Hc2 & Hh2).
    exists m2. split; [done|]. split; [done|].
    rewrite Hh2, Hh1, <- (assoc_L (++)). f_equal.
    rewrite filter_cons. cbn [fst].
    destruct (decide (n0 = name)) as [->|Hne].
    + fold cyc0. cbn [fmap list_fmap snd].
      rewrite (omap_app _ [gs0] (filter _ opts).*2 : omap (.!! g) (gs0 :: _) = _).
      destruct cyc0, cyc_records, other_records; by rewrite ?app_nil_r.
    + destruct (match ss !! name with Some _ => _ | None => _ end),
        cyc0, cyc_records, other_records; by rewrite ?app_nil_r.
Qed.

Lemma filter_absent_name (opts : list (string * list pyfloat)) name :
  name ∉ opts.*1 → filter (λ o, o.1 = name) opts = [].
Proof.
  induction opts as [|[n0 gs0] opts IH]; intros Hout; [done|].
  cbn in Hout. apply not_elem_of_cons in Hout as [Hne Hout].
  rewrite filter_cons. cbn [fst]. rewrite decide_False by done. by apply IH.
Qed.

Lemma filter_unique_name (opts : list (string * list pyfloat)) name groups :
  NoDup opts.*1 → (name, groups) ∈ opts →
  filter (λ o, o.1 = name) opts = [(name, groups)].
Proof.
  induction opts as [|[n0 gs0] opts IH]; intros Hnd Hin.
  - by apply elem_of_nil in Hin.
  - cbn in Hnd. apply NoDup_cons in Hnd as [Hfresh Hnd].
    rewrite filter_cons. cbn [fst].
    apply elem_of_cons in Hin as [[= <- <-]|Hin].
    + rewrite decide_True by done. f_equal. by apply filter_absent_name.
    + rewrite decide_False; [by apply IH|].
      intros ->. apply Hfresh, list_elem_of_fmap. by exists (name, groups).
Qed.

(** X21. With the composite scheduler, what is recorded for a
    sub-optimizer depends on its own scheduler: the begin of epoch 0
    starts the log afresh and records every sub-optimizer; a batch end
    records those whose scheduler's class name contains [cycl] (in any
    case); an epoch end other than the last records the others, those
    without a scheduler included. *)
Theorem composite_records_by_sub_scheduler (self : t) (model : Model)
    (ss : gmap string string) (opts : list (string * list pyfloat))
    (name : string) (groups : list pyfloat) (g : nat) (b e : Z) :
  composite model ss opts →
  NoDup opts.*1 →
  (name, groups) ∈ opts →
  let cyc := match ss !! name with
             | Some cls => str_contains (str_lower cls) "cycl"
             | None => false
             end in
  let old := default [] (lr_history model !! sub_key name g) in
  _is_cyclic model name = Ok cyc
  ∧ (∃ m, on_epoch_begin self 0 model = Ok m
          ∧ default [] (lr_history m !! sub_key name g)
            = omap (.!! g) [groups])
  ∧ (∃ m, on_batch_end self b model = Ok m
          ∧ default [] (lr_history m !! sub_key name g)
            = old ++ (if cyc then omap (.!! g) [groups] else []))
  ∧ (e ≠ (n_epochs self - 1)%Z →
     ∃ m, on_epoch_end self e model = Ok m
          ∧ default [] (lr_history m !! sub_key name g)
            = old ++ (if cyc then [] else omap (.!! g) [groups])).
Proof.
  intros Hc Hnd Hin cyc old.
  split; [by apply (is_cyclic_composite model ss opts)|].
  pose proof Hc as [(sched & Hs & Hcls & Hss) Hopts].
  assert (Hsome : bool_decide (is_Some (lr_scheduler model)) = true)
    by (rewrite Hs; by apply bool_decide_eq_true_2).
  assert (Hmulti : ∀ h, _multiple_scheduler (set_lr_history h model) = true).
  { intros h. unfold _multiple_scheduler. cbn. rewrite Hs, Hcls. done. }
  assert (Hmulti' : _multiple_scheduler model = true).
  { unfold _multiple_scheduler. rewrite Hs, Hcls. done. }
  pose proof (filter_unique_name opts name groups Hnd Hin) as Hfilter.
  split; [|split].
  - unfold on_epoch_begin. rewrite Hsome, Hmulti. cbn [Z.eqb andb].
    unfold _save_group_lr_mulitple_scheduler. cbn [optimizer set_lr_history].
    rewrite Hopts.
    destruct (save_each_composite "on_epoch_begin" true true opts ss
                (set_lr_history ∅ model) opts name g)
      as (m & -> & _ & Hh); [done | by left |].
    exists m. split; [done|]. rewrite Hh, Hfilter. cbn [lr_history
      set_lr_history]. rewrite lookup_empty. cbn.
    by destruct (match ss !! name with Some _ => _ | None => _ end).
  - unfold on_batch_end. rewrite Hsome, Hmulti'.
    unfold _save_group_lr_mulitple_scheduler. rewrite Hopts.
    destruct (save_each_composite "on_batch_end" true false opts ss
                model opts name g)
      as (m & -> & _ & Hh); [done | right; by left |].
    exists m. split; [done|]. by rewrite Hh, Hfilter.
  - intros He. unfold on_epoch_end. rewrite Hsome, Hmulti'.
    apply Z.eqb_neq in He. rewrite He. cbn [negb andb].
    unfold _save_group_lr_mulitple_scheduler. rewrite Hopts.
    destruct (save_each_composite "on_epoch_end" false true opts ss
                model opts name g)
      as (m & -> & _ & Hh); [done | right; by right |].
    exists m. split; [done|]. by rewrite Hh, Hfilter.
Qed.

Lemma composite_records_by_sub_scheduler_witness :
  let cyc := match ({[ "deepdense" := "CyclicLR" ]} : gmap string string)
                     !! "deepdense" with
             | Some cls => str_contains (str_lower cls) "cycl"
             | None => false
             end in
  let old := default []
               (lr_history example_composite_model
                  !! sub_key "deepdense" 0) in
  _is_cyclic example_composite_model "deepdense" = Ok cyc
  ∧ (∃ m, on_epoch_begin (mk 2) 0 example_composite_model = Ok m
          ∧ default [] (lr_history m !! sub_key "deepdense" 0)
            = omap (.!! 0) [[Fin (1 # 100)]])
  ∧ (∃ m, on_batch_end (mk 2) 3 example_composite_model = Ok m
          ∧ default [] (lr_history m !! sub_key "deepdense" 0)
            = old ++ (if cyc then omap (.!! 0) [[Fin (1 # 100)]] else []))
  ∧ (0%Z ≠ (n_epochs (mk 2) - 1)%Z →
     ∃ m, on_epoch_end (mk 2) 0 example_composite_model = Ok m
          ∧ default [] (lr_history m !! sub_key "deepdense" 0)
            = old ++ (if cyc then [] else omap (.!! 0) [[Fin (1 # 100)]])).
Proof.
  apply (composite_records_by_sub_scheduler (mk 2) example_composite_model
           {[ "deepdense" := "CyclicLR" ]}
           [("wide", [Fin (1 # 10)]); ("deepdense", [Fin (1 # 100)])]
           "deepdense" [Fin (1 # 100)] 0 3 0).
  - split; [|reflexivity]. eexists. by repeat split.
  - cbn. repeat constructor; rewrite ?elem_of_cons;
      try (intros [H|H]; [discriminate | by apply elem_of_nil in H]).
    by intros ?%elem_of_nil.
  - apply elem_of_cons. right. by left.
Defined.

End LRHistoryExtra.

(** ** The two constructors side by side *)

Module ModeInference.
Import ModelCheckpointFacts.

Lemma str_in_modes (md : string) :
  str_in md ["auto"; "min"; "max"] = false → md ≠ "min" ∧ md ≠ "max".
Proof.
  intros Hin. split; intros ->; cbn in Hin; discriminate.
Qed.

(** X22. [EarlyStopping] and [ModelCheckpoint] built for the same metric
    and mode compare in the same direction, except in one case: when the
    mode is not [min] or [max] and the metric's name starts with
    [fmeasure] without containing [acc], the checkpoint looks for larger
    values and the early stopping for smaller ones. *)
Theorem constructors_disagree_on_fmeasure (fp mon : string) (verb : Z)
    (sbo : bool) (md : string) (per ms : Z) (disk : Disk)
    (delta : pyfloat) (pat verb' : Z) (base : option pyfloat)
    (restore : bool)
    (self0 : ModelCheckpoint.t) (d0 : Disk) (ev0 : list event) :
  ModelCheckpoint.__init__ fp mon verb sbo md per ms disk
  = Ok (self0, d0, ev0) →
  let es := (EarlyStopping.__init__ mon delta pat verb' md base restore).1 in
  (EarlyStopping.monitor_op es ≠ ModelCheckpoint.monitor_op self0
   ↔ md ≠ "min" ∧ md ≠ "max"
     ∧ startswith mon "fmeasure" = true ∧ str_contains mon "acc" = false)
  ∧ (EarlyStopping.monitor_op es ≠ ModelCheckpoint.monitor_op self0 →
     EarlyStopping.monitor_op es = Less
     ∧ ModelCheckpoint.monitor_op self0 = Greater
     ∧ ModelCheckpoint.best self0 = NInf).
Proof.
  intros Hinit es. apply init_Ok_inv in Hinit as ->. subst es.
  unfold EarlyStopping.__init__, ModelCheckpoint.checked_mode,
    ModelCheckpoint.comparison.
  cbn [ModelCheckpoint.monitor_op ModelCheckpoint.best].
  destruct (str_in md ["auto"; "min"; "max"]) eqn:Hin; cbn [negb fst snd].
  - destruct (String.eqb_spec md "min") as [->|Hmin]; cbn.
    { split; [split; [done | by intros [? _]] | done]. }
    destruct (String.eqb_spec md "max") as [->|Hmax]; cbn.
    { split; [split; [done | by intros (_ & ? & _)] | done]. }
    destruct (str_contains mon "acc"), (startswith mon "fmeasure"); cbn;
      (split; [split; [try done | try (by intros (_ & _ & ? & ?))] | done]).
  - apply str_in_modes in Hin as [Hmin Hmax]. cbn.
    destruct (str_contains mon "acc"), (startswith mon "fmeasure"); cbn;
      (split; [split; [try done | try (by intros (_ & _ & ? & ?))] | done]).
Qed.

Lemma constructors_disagree_on_fmeasure_witness :
  let es := (EarlyStopping.__init__ "fmeasure" (Fin 0) 10 0 "auto" None
               false).1 in
  (EarlyStopping.monitor_op es
   ≠ ModelCheckpoint.monitor_op
       (ModelCheckpoint.mk "checkpoints/weights_out" "fmeasure" 0 true
          "auto" 1 (-1) 0 None Greater NInf)
   ↔ "auto" ≠ "min" ∧ "auto" ≠ "max"
     ∧ startswith "fmeasure" "fmeasure" = true
     ∧ str_contains "fmeasure" "acc" = false)
  ∧ (EarlyStopping.monitor_op es
     ≠ ModelCheckpoint.monitor_op
         (ModelCheckpoint.mk "checkpoints/weights_out" "fmeasure" 0 true
            "auto" 1 (-1) 0 None Greater NInf) →
     EarlyStopping.monitor_op es = Less
     ∧ ModelCheckpoint.monitor_op
         (ModelCheckpoint.mk "checkpoints/weights_out" "fmeasure" 0 true
            "auto" 1 (-1) 0 None Greater NInf) = Greater
     ∧ ModelCheckpoint.best
         (ModelCheckpoint.mk "checkpoints/weights_out" "fmeasure" 0 true
            "auto" 1 (-1) 0 None Greater NInf) = NInf).
Proof.
  apply (constructors_disagree_on_fmeasure "checkpoints/weights_out"
           "fmeasure" 0 true "auto" 1 (-1) ∅ (Fin 0) 10 0 None false
           _ ({["checkpoints"]} ∪ ∅) [MakeDirs "checkpoints"]).
  reflexivity.
Defined.

End ModeInference.

(** ** A metric that is not a number *)

Module NaNValues.

Lemma call_op_NaN_l op (d b : pyfloat) :
  call_op op NaN b = false ∧ call_op op (fsub NaN d) b = false.
Proof. by destruct op, b. Qed.

(** X23. A NaN value is never an improvement, whatever the direction of
    the comparison and whatever [best] is. [EarlyStopping] counts the
    epoch as one without improvement: [best] and the snapshot stay,
    [wait] grows by one, and the stop flag is raised once [wait] reaches
    [patience]. [ModelCheckpoint] with [save_best_only] writes nothing and
    leaves the disk and [best] as they were. *)
Theorem nan_is_never_an_improvement (es : EarlyStopping.t)
    (mc : ModelCheckpoint.t) (e : Z) (logs : gmap string (option pyfloat))
    (model : Model) (d : Disk) (b : pyfloat) :
  logs_get logs (EarlyStopping.monitor es) = Some NaN →
  logs_get logs (ModelCheckpoint.monitor mc) = Some NaN →
  EarlyStopping.best es = Some b →
  ModelCheckpoint.save_best_only mc = true →
  (∃ es' model' evs,
     EarlyStopping.on_epoch_end es e logs model = Ok (es', model', evs)
     ∧ EarlyStopping.best es' = Some b
     ∧ EarlyStopping.state_dict es' = EarlyStopping.state_dict es
     ∧ EarlyStopping.wait es' = (EarlyStopping.wait es + 1)%Z
     ∧ early_stop model'
       = (early_stop model
          || (EarlyStopping.wait es + 1 >=? EarlyStopping.patience es)%Z)
           %bool)
  ∧ (∃ mc' evs,
       ModelCheckpoint.on_epoch_end mc e logs model d = Ok (mc', d, evs)
       ∧ ModelCheckpoint.best mc' = ModelCheckpoint.best mc
       ∧ ModelCheckpoint.old_files mc' = ModelCheckpoint.old_files mc
       ∧ saved_snapshots evs = []).
Proof.
  intros Hes Hmc Hb Hsbo. split.
  - unfold EarlyStopping.on_epoch_end, EarlyStopping.get_monitor_value.
    rewrite Hes, Hb.
    destruct (call_op_NaN_l (EarlyStopping.monitor_op es)
                (EarlyStopping.min_delta es) b) as [_ ->].
    cbn -[load_state_dict].
    destruct (EarlyStopping.wait es + 1 >=? EarlyStopping.patience es)%Z.
    + destruct (EarlyStopping.restore_best_weights es); cbn.
      * eexists _, _, _. split; [done|]. cbn. repeat split; try done.
        destruct (EarlyStopping.state_dict es); cbn; by rewrite orb_true_r.
      * eexists _, _, _. split; [done|]. cbn. repeat split; try done.
        by rewrite orb_true_r.
    + eexists _, _, _. split; [done|]. cbn. repeat split; try done.
      by rewrite orb_false_r.
  - unfold ModelCheckpoint.on_epoch_end. cbn -[ModelCheckpoint.save_and_retain].
    rewrite Hsbo, Hmc.
    destruct (call_op_NaN_l (ModelCheckpoint.monitor_op mc) NaN
                (ModelCheckpoint.best mc)) as [-> _].
    destruct (_ >=? _)%Z; eexists _, _; (split; [done|]); cbn;
      repeat split; try done.
    by destruct (ModelCheckpoint.verbose mc >? 0)%Z.
Qed.

Lemma nan_is_never_an_improvement_witness :
  (∃ es' model' evs,
     EarlyStopping.on_epoch_end
       (EarlyStopping.on_train_begin EarlyStopping.untriggered_callback)
       0 {[ "val_loss" := Some NaN ]} example_model
     = Ok (es', model', evs)
     ∧ EarlyStopping.best es' = Some PInf
     ∧ EarlyStopping.state_dict es'
       = EarlyStopping.state_dict
           (EarlyStopping.on_train_begin EarlyStopping.untriggered_callback)
     ∧ EarlyStopping.wait es'
       = (EarlyStopping.wait
            (EarlyStopping.on_train_begin EarlyStopping.untriggered_callback)
          + 1)%Z
     ∧ early_stop model'
       = (early_stop example_model
          || (EarlyStopping.wait
                (EarlyStopping.on_train_begin
                   EarlyStopping.untriggered_callback) + 1
              >=? EarlyStopping.patience
                    (EarlyStopping.on_train_begin
                       EarlyStopping.untriggered_callback))%Z)%bool)
  ∧ (∃ mc' evs,
       ModelCheckpoint.on_epoch_end
         (ModelCheckpoint.mk "checkpoints/weights_out" "val_loss" 0 true
            "auto" 1 (-1) 0 None Less PInf)
         0 {[ "val_loss" := Some NaN ]} example_model ∅
       = Ok (mc', ∅, evs)
       ∧ ModelCheckpoint.best mc'
         = ModelCheckpoint.best
             (ModelCheckpoint.mk "checkpoints/weights_out" "val_loss" 0 true
                "auto" 1 (-1) 0 None Less PInf)
       ∧ ModelCheckpoint.old_files mc'
         = ModelCheckpoint.old_files
             (ModelCheckpoint.mk "checkpoints/weights_out" "val_loss" 0 true
                "auto" 1 (-1) 0 None Less PInf)
       ∧ saved_snapshots evs = []).
Proof.
  apply (nan_is_never_an_improvement
           (EarlyStopping.on_train_begin EarlyStopping.untriggered_callback)
           (ModelCheckpoint.mk "checkpoints/weights_out" "val_loss" 0 true
              "auto" 1 (-1) 0 None Less PInf)
           0 {[ "val_loss" := Some NaN ]} example_model ∅ PInf);
    reflexivity.
Defined.

End NaNValues.
